(** * nlp_utils/model.py: the three Lightning model classes

    A shallow embedding of [BaseModel], [BiLSTMModel] and
    [CustomDistilBertModel].  The methods are written once, against an
    interface ([Torch]) of the operations the file calls (Python built-ins,
    torch, transformers, pytorch_lightning, torchmetrics, nlp_utils.config).
    Two implementations of the interface are given: a reference semantics
    of the library ([RefTorch]), on tensors with a shape and row-major
    data, and a recorder ([Recorded]) that runs any implementation and
    logs every call with its outcome. *)

From stdpp Require Import gmap strings list fin_maps.
From Stdlib Require Import ZArith QArith.

Set Implicit Arguments.
Set Default Proof Using "Type".

(** ** Exceptions and results *)

Inductive error : Type :=
| KeyError (key : string)
| TypeError (what : string)
| ValueError (what : string)
| IndexError (what : string)
| AttributeError (what : string)
| RuntimeError (what : string)
| OSError (what : string).

Inductive result (A : Type) : Type :=
| Ok (a : A)
| Err (e : error).
Arguments Ok {A} a.
Arguments Err {A} e.

Definition result_map {A B} (f : A -> B) (r : result A) : result B :=
  match r with Ok a => Ok (f a) | Err e => Err e end.

Definition error_of {A} (r : result A) : option error :=
  match r with Ok _ => None | Err e => Some e end.

(** A method runs in a world [W] (device, random generator, metric
    accumulators, logger) that only the library can touch; a raise ends
    the method and leaves the world as the raising call left it. *)
Definition M (W A : Type) : Type := W -> result A * W.

Definition ret {W A} (a : A) : M W A := fun w => (Ok a, w).

Definition bind {W A B} (c : M W A) (k : A -> M W B) : M W B :=
  fun w => match c w with
           | (Ok a, w') => k a w'
           | (Err e, w') => (Err e, w')
           end.

Definition raise {W A} (e : error) : M W A := fun w => (Err e, w).

(** [try: body except: handler], and [with ctx: body] whose exit runs on
    both ways out of the body. *)
Definition try_except {W A} (body : M W A) (handler : error -> M W A) : M W A :=
  fun w => match body w with
           | (Ok a, w') => (Ok a, w')
           | (Err e, w') => handler e w'
           end.

Definition py_with {W T A} (enter : M W T) (exit : T -> W -> W) (body : M W A)
  : M W A :=
  fun w => match enter w with
           | (Ok t, w1) => let '(r, w2) := body w1 in (r, exit t w2)
           | (Err e, w1) => (Err e, w1)
           end.

Notation "'let*' x ':=' c 'in' k" := (bind c (fun x => k))
  (at level 10, x pattern, c at level 100, k at level 200).

(** ** Scalars

    The element type of float tensors is left open: the methods and the
    reference semantics only combine elements with these operations, in
    the order the library does. *)
Class Scalar (R : Type) : Type := {
  s_zero : R;
  s_one : R;
  s_add : R -> R -> R;
  s_sub : R -> R -> R;
  s_mul : R -> R -> R;
  s_div : R -> R -> R;
  s_of_Z : Z -> R;
  s_relu : R -> R;
  s_ltb : R -> R -> bool;
  s_eqb : R -> R -> bool
}.

(** ** Tensors: a shape and the elements in row-major order *)

Record tensor (A : Type) : Type := Tensor {
  shape : list nat;
  data : list A
}.
Arguments Tensor {A} shape data.

Definition numel (s : list nat) : nat := foldr Nat.mul 1%nat s.

Definition wf_tensor {A} (t : tensor A) : Prop :=
  length (data t) = numel (shape t).

(** ** Python values, the config dict, and the library's objects *)

Inductive pyval (R : Type) : Type :=
| VNone
| VBool (b : bool)
| VInt (z : Z)
| VFloat (x : R)
| VStr (s : string).
Arguments VNone {R}.
Arguments VBool {R} b.
Arguments VInt {R} z.
Arguments VFloat {R} x.
Arguments VStr {R} s.

Abbreviation dict R := (gmap string (pyval R)).

(** Python's [a == b] on these values: [bool] is an [int], an [int] and a
    [float] compare by value. *)
Definition py_eq {R} {SR : Scalar R} (a b : pyval R) : bool :=
  let as_int (v : pyval R) : option Z :=
    match v with
    | VBool true => Some 1%Z
    | VBool false => Some 0%Z
    | VInt z => Some z
    | _ => None
    end in
  match a, b with
  | VNone, VNone => true
  | VStr s, VStr s' => bool_decide (s = s')
  | VFloat x, VFloat y => s_eqb x y
  | VFloat x, _ =>
      match as_int b with Some z => s_eqb x (s_of_Z z) | None => false end
  | _, VFloat y =>
      match as_int a with Some z => s_eqb (s_of_Z z) y | None => false end
  | _, _ =>
      match as_int a, as_int b with
      | Some z, Some z' => Z.eqb z z'
      | _, _ => false
      end
  end.

(** [torch.nn.Parameter]: a float tensor and its [requires_grad] flag. *)
Record param (R : Type) : Type := Param {
  p_name : string;
  p_tensor : tensor R;
  requires_grad : bool
}.

Definition set_requires_grad {R} (b : bool) (p : param R) : param R :=
  {| p_name := p_name p; p_tensor := p_tensor p; requires_grad := b |}.

(** [transformers.DistilBertConfig]; [hidden_size] is the library's alias
    of [dim]. *)
Record DistilBertConfig (R : Type) : Type := {
  vocab_size : Z;
  dim : Z;
  seq_classif_dropout : R
}.

Definition hidden_size {R} (c : DistilBertConfig R) : Z := dim c.

Record DistilBertModel (R : Type) : Type := {
  bert_config : DistilBertConfig R;
  bert_parameters : list (param R)
}.

Definition bert_set_parameters {R} (b : DistilBertModel R) (ps : list (param R))
  : DistilBertModel R :=
  {| bert_config := bert_config b; bert_parameters := ps |}.

Record Linear (R : Type) : Type := {
  in_features : nat;
  out_features : nat;
  weight : param R;
  bias : param R
}.

Record Dropout (R : Type) : Type := { drop_p : R }.

Record Embedding (R : Type) : Type := {
  num_embeddings : nat;
  embedding_dim : nat;
  emb_weight : param R
}.

Record LSTM (R : Type) : Type := {
  lstm_input_size : nat;
  lstm_hidden_size : nat;
  lstm_bidirectional : bool;
  lstm_batch_first : bool;
  lstm_parameters : list (param R)
}.

(** The layers the file puts in an [nn.Sequential]. *)
Inductive layer (R : Type) : Type :=
| LLinear (l : Linear R)
| LReLU
| LDropout (d : Dropout R).
Arguments LLinear {R} l.
Arguments LReLU {R}.
Arguments LDropout {R} d.

Abbreviation Sequential R := (list (layer R)).

Definition layer_parameters {R} (l : layer R) : list (param R) :=
  match l with
  | LLinear l => [weight l; bias l]
  | LReLU => []
  | LDropout _ => []
  end.

Definition Sequential_parameters {R} (s : Sequential R) : list (param R) :=
  concat (map layer_parameters s).

(** torchmetrics objects: the accumulator lives in the world, the Python
    object is a handle on it. *)
Inductive metric_class : Type :=
| MeanSquaredError_cls
| F1_cls.

Record Metric : Type := {
  metric_cls : metric_class;
  metric_slot : nat
}.

(** [type(metric).__name__] *)
Definition type_name (m : Metric) : string :=
  match metric_cls m with
  | MeanSquaredError_cls => "MeanSquaredError"
  | F1_cls => "F1"
  end.

Record Optimizer (R : Type) : Type := {
  opt_class : string;
  opt_params : list (param R);
  opt_lr : pyval R
}.

(** The tokenizer's [BatchEncoding], as far as [forward] reads it. *)
Record BatchEncoding : Type := {
  input_ids : tensor Z;
  attention_mask : tensor Z
}.

(** ** The operations the file calls

    Every call the three classes make into Python's built-ins or a library
    is a field here and runs in the world.  What is not a field cannot
    raise on the typed values of this embedding and has no effect:
    attribute reads, [nn.ReLU()], [nn.Sequential(...)],
    [param.requires_grad = False], [self.parameters()], [bert_output[0]],
    building the returned dict. *)
Class Torch (R W : Type) : Type := {
  (* built-ins *)
  dict_getitem : dict R -> string -> M W (pyval R);
  dict_setitem : dict R -> string -> pyval R -> M W (dict R);
  py_add : pyval R -> pyval R -> M W (pyval R);
  py_mul : pyval R -> pyval R -> M W (pyval R);
  size_getitem : tensor R -> Z -> M W Z;
  (* nlp_utils.config *)
  create_config : dict R -> M W (dict R);
  (* pytorch_lightning *)
  LightningModule_init : M W unit;
  save_hyperparameters : dict R -> M W unit;
  log : string -> tensor R -> list (string * bool) -> M W unit;
  (* torchmetrics, pl.metrics *)
  torchmetrics_MeanSquaredError : M W Metric;
  pl_metrics_MeanSquaredError : M W Metric;
  torchmetrics_F1 : Z -> string -> M W Metric;
  metric_call : Metric -> tensor R -> tensor R -> M W unit;
  metric_call_classes : Metric -> tensor Z -> tensor Z -> M W unit;
  metric_compute : Metric -> M W (tensor R);
  (* transformers *)
  from_pretrained : string -> M W (DistilBertModel R);
  bert_call : DistilBertModel R -> tensor Z -> tensor Z -> M W (tensor R);
  encoding_to : BatchEncoding -> M W BatchEncoding;
  (* torch.nn constructors *)
  nn_Linear : pyval R -> pyval R -> M W (Linear R);
  nn_Dropout : R -> M W (Dropout R);
  nn_Embedding : pyval R -> pyval R -> M W (Embedding R);
  nn_LSTM : pyval R -> pyval R -> bool -> bool -> M W (LSTM R);
  (* torch.nn modules, called *)
  Linear_call : Linear R -> tensor R -> M W (tensor R);
  ReLU_call : tensor R -> M W (tensor R);
  Dropout_call : Dropout R -> tensor R -> M W (tensor R);
  Embedding_call : Embedding R -> tensor Z -> M W (tensor R);
  LSTM_call : LSTM R -> tensor R -> M W (tensor R);
  (* torch *)
  tensor_to : tensor R -> M W (tensor R);
  long_tensor_to : tensor Z -> M W (tensor Z);
  tensor_select : tensor R -> nat -> Z -> M W (tensor R);
  tensor_view : tensor R -> list Z -> M W (tensor R);
  tensor_unsqueeze : tensor R -> Z -> M W (tensor R);
  torch_cat : tensor R -> tensor R -> Z -> M W (tensor R);
  torch_argmax : tensor R -> Z -> M W (tensor Z);
  F_mse_loss : tensor R -> tensor R -> M W (tensor R);
  F_cross_entropy : tensor R -> tensor Z -> M W (tensor R);
  no_grad_enter : M W bool;
  no_grad_exit : bool -> W -> W;
  torch_optim_Adam : list (param R) -> pyval R -> M W (Optimizer R)
}.

(** [nn.Sequential.__call__]: the layers in order. *)
Definition layer_call {R W} {T : Torch R W} (l : layer R) (x : tensor R)
  : M W (tensor R) :=
  match l with
  | LLinear l => Linear_call l x
  | LReLU => ReLU_call x
  | LDropout d => Dropout_call d x
  end.

Fixpoint Sequential_call {R W} {T : Torch R W} (s : Sequential R) (x : tensor R)
  : M W (tensor R) :=
  match s with
  | [] => ret x
  | l :: s' => let* y := layer_call l x in Sequential_call s' y
  end.

(** ** class BaseModel(pl.LightningModule) *)
Module BaseModel.
Section Methods.
Context {R W : Type} {SR : Scalar R} {T : Torch R W}.

Record self : Type := {
  config : dict R;
  learning_rate : pyval R;
  train_metric : Metric;
  val_metric : Metric;
  test_metric : Metric;
  bert : DistilBertModel R;
  distilbert_tail : Sequential R;
  category_encoder : Sequential R;
  classifier : Linear R
}.

(** [config] and [self.config] name one dict object: the write to
    [self.config["vocab_size"]] is seen by the later reads of [config]. *)
Definition __init__ (config : dict R) : M W self :=
  let* _ := LightningModule_init in
  let* config := create_config config in
  let* _ := save_hyperparameters config in
  let* learning_rate := dict_getitem config "learning_rate" in
  let* train_metric := torchmetrics_MeanSquaredError in
  let* val_metric := torchmetrics_MeanSquaredError in
  let* test_metric := torchmetrics_MeanSquaredError in
  let* bert := from_pretrained "distilbert-base-uncased" in
  let* v := dict_getitem config "vocab_size" in
  let* config :=
    (if py_eq v (VInt 0)
     then dict_setitem config "vocab_size" (VInt (vocab_size (bert_config bert)))
     else ret config) in
  let bert :=
    bert_set_parameters bert
      (map (set_requires_grad false) (bert_parameters bert)) in
  let* l := nn_Linear (VInt (dim (bert_config bert)))
                      (VInt (dim (bert_config bert))) in
  let* d := nn_Dropout (seq_classif_dropout (bert_config bert)) in
  let distilbert_tail := [LLinear l; LReLU; LDropout d] in
  let* n_in := dict_getitem config "category_encoded_length" in
  let* n_out := dict_getitem config "category_encoder_out" in
  let* l := nn_Linear n_in n_out in
  let category_encoder := [LLinear l; LReLU] in
  let* n_out := dict_getitem config "category_encoder_out" in
  let* n := py_add (VInt (hidden_size (bert_config bert))) n_out in
  let* classifier := nn_Linear n (VInt 1) in
  ret {| config := config;
         learning_rate := learning_rate;
         train_metric := train_metric;
         val_metric := val_metric;
         test_metric := test_metric;
         bert := bert;
         distilbert_tail := distilbert_tail;
         category_encoder := category_encoder;
         classifier := classifier |}.

Definition parameters (self : self) : list (param R) :=
  bert_parameters (bert self)
  ++ Sequential_parameters (distilbert_tail self)
  ++ Sequential_parameters (category_encoder self)
  ++ [weight (classifier self); bias (classifier self)].

Definition forward (self : self) (encoded_text : BatchEncoding)
    (category_vectors : tensor R) : M W (tensor R) :=
  let* hidden_state :=
    bert_call (bert self) (input_ids encoded_text)
              (attention_mask encoded_text) in
  let* pooled_output := tensor_select hidden_state 1 0 in
  let* pooled_output := Sequential_call (distilbert_tail self) pooled_output in
  let* categories_encoded :=
    Sequential_call (category_encoder self) category_vectors in
  let* concat := torch_cat pooled_output categories_encoded 1 in
  let* out := Linear_call (classifier self) concat in
  ret out.

Definition training_step {X} (self : self)
    (batch : tensor R * BatchEncoding * tensor R * X) (batch_idx : Z)
  : M W (list (string * tensor R)) :=
  let '(y, encoded_texts, category_vectors, _) := batch in
  let* y := tensor_to y in
  let* encoded_texts := encoding_to encoded_texts in
  let* category_vectors := tensor_to category_vectors in
  let* y_hat := forward self encoded_texts category_vectors in
  let* a := tensor_view y_hat [(-1)%Z] in
  let* b := tensor_view y [(-1)%Z] in
  let* loss := F_mse_loss a b in
  let* t := tensor_unsqueeze y 1 in
  let* _ := metric_call (train_metric self) y_hat t in
  let* _ := log "train_loss" loss
              [("on_step", true); ("on_epoch", true);
               ("prog_bar", true); ("logger", true)] in
  ret [("loss", loss)].

Definition training_epoch_end {X} (self : self) (outs : X) : M W unit :=
  let* v := metric_compute (train_metric self) in
  log ("train_epoch" +:+ type_name (train_metric self)) v [].

Definition validation_step {X} (self : self)
    (batch : tensor R * BatchEncoding * tensor R * X) (batch_idx : Z)
  : M W (list (string * tensor R)) :=
  let '(y, encoded_texts, category_vectors, _) := batch in
  let* y := tensor_to y in
  let* encoded_texts := encoding_to encoded_texts in
  let* category_vectors := tensor_to category_vectors in
  let* y_hat := forward self encoded_texts category_vectors in
  let* t := tensor_unsqueeze y 1 in
  let* loss := F_mse_loss y_hat t in
  let* t := tensor_unsqueeze y 1 in
  let* _ := metric_call (val_metric self) y_hat t in
  let* _ := log "val_loss" loss [] in
  ret [("val_loss", loss)].

Definition validation_epoch_end {X} (self : self) (outputs : X) : M W unit :=
  let* v := metric_compute (val_metric self) in
  log ("val_epoch_" +:+ type_name (train_metric self)) v [].

Definition configure_optimizers (self : self) : M W (Optimizer R) :=
  let* optimizer := torch_optim_Adam (parameters self) (learning_rate self) in
  ret optimizer.
End Methods.
Arguments self : clear implicits.
End BaseModel.

(** ** class BiLSTMModel(pl.LightningModule) *)
Module BiLSTMModel.
Section Methods.
Context {R W : Type} {SR : Scalar R} {T : Torch R W}.

Record self : Type := {
  config : dict R;
  learning_rate : pyval R;
  train_metric : Metric;
  val_metric : Metric;
  embedding : Embedding R;
  category_encoder : Sequential R;
  bilstm : LSTM R;
  classifier : Linear R
}.

Definition __init__ (config : dict R) : M W self :=
  let* _ := LightningModule_init in
  let* config := create_config config in
  let* _ := save_hyperparameters config in
  let* learning_rate := dict_getitem config "learning_rate" in
  let* train_metric := pl_metrics_MeanSquaredError in
  let* val_metric := pl_metrics_MeanSquaredError in
  let* n_vocab := dict_getitem config "vocab_size" in
  let* n_emb := dict_getitem config "embedding_dim" in
  let* embedding := nn_Embedding n_vocab n_emb in
  let* n_in := dict_getitem config "category_encoded_length" in
  let* n_out := dict_getitem config "category_encoder_out" in
  let* l := nn_Linear n_in n_out in
  let category_encoder := [LLinear l; LReLU] in
  let* n_emb := dict_getitem config "embedding_dim" in
  let* n_hidden := dict_getitem config "bilstm_hidden_dim" in
  let* bilstm := nn_LSTM n_emb n_hidden true true in
  let* n_hidden := dict_getitem config "bilstm_hidden_dim" in
  let* n := py_mul n_hidden (VInt 2) in
  let* n_out := dict_getitem config "category_encoder_out" in
  let* n := py_add n n_out in
  let* classifier := nn_Linear n (VInt 1) in
  ret {| config := config;
         learning_rate := learning_rate;
         train_metric := train_metric;
         val_metric := val_metric;
         embedding := embedding;
         category_encoder := category_encoder;
         bilstm := bilstm;
         classifier := classifier |}.

Definition parameters (self : self) : list (param R) :=
  [emb_weight (embedding self)]
  ++ Sequential_parameters (category_encoder self)
  ++ lstm_parameters (bilstm self)
  ++ [weight (classifier self); bias (classifier self)].

Definition forward (self : self) (encoded_texts : tensor Z)
    (encoded_classes : tensor R) : M W (tensor R) :=
  let* embeddings := Embedding_call (embedding self) encoded_texts in
  let* lstm_out := LSTM_call (bilstm self) embeddings in
  let* categories_encoded :=
    Sequential_call (category_encoder self) encoded_classes in
  let* n := size_getitem lstm_out 1 in
  let* forward := tensor_select lstm_out 1 (n - 1) in
  let* combined := torch_cat forward categories_encoded 1 in
  let* out := Linear_call (classifier self) combined in
  ret out.

Definition training_step {X} (self : self)
    (batch : tensor R * tensor Z * tensor R * X) (batch_idx : Z)
  : M W (list (string * tensor R)) :=
  let '(y, encoded_texts, encoded_classes, _) := batch in
  let* y := tensor_to y in
  let* encoded_texts := long_tensor_to encoded_texts in
  let* encoded_classes := tensor_to encoded_classes in
  let* y_hat := forward self encoded_texts encoded_classes in
  let* t := tensor_unsqueeze y 1 in
  let* loss := F_mse_loss y_hat t in
  let* t := tensor_unsqueeze y 1 in
  let* _ := metric_call (train_metric self) y_hat t in
  let* _ := log "loss" loss [] in
  ret [("loss", loss)].

Definition training_epoch_end {X} (self : self) (outs : X) : M W unit :=
  let* v := metric_compute (train_metric self) in
  log ("train_epoch" +:+ type_name (train_metric self)) v [].

Definition validation_step {X} (self : self)
    (batch : tensor R * tensor Z * tensor R * X) (batch_idx : Z)
  : M W (list (string * tensor R)) :=
  let '(y, encoded_texts, encoded_classes, _) := batch in
  let* y := tensor_to y in
  let* encoded_texts := long_tensor_to encoded_texts in
  let* encoded_classes := tensor_to encoded_classes in
  let* y_hat := forward self encoded_texts encoded_classes in
  let* t := tensor_unsqueeze y 1 in
  let* loss := F_mse_loss y_hat t in
  let* t := tensor_unsqueeze y 1 in
  let* _ := metric_call (val_metric self) y_hat t in
  let* _ := log "val_loss" loss [] in
  ret [("val_loss", loss)].

Definition validation_epoch_end {X} (self : self) (outputs : X) : M W unit :=
  let* v := metric_compute (val_metric self) in
  log ("val_epoch_" +:+ type_name (train_metric self)) v [].

Definition configure_optimizers (self : self) : M W (Optimizer R) :=
  let* optimizer := torch_optim_Adam (parameters self) (learning_rate self) in
  ret optimizer.
End Methods.
Arguments self : clear implicits.
End BiLSTMModel.

(** ** class CustomDistilBertModel(pl.LightningModule) *)
Module CustomDistilBertModel.
Section Methods.
Context {R W : Type} {SR : Scalar R} {T : Torch R W}.

Record self : Type := {
  config : dict R;
  learning_rate : pyval R;
  num_classes : Z;
  train_metric : Metric;
  val_metric : Metric;
  test_metric : Metric;
  bert : DistilBertModel R;
  distilbert_tail : Sequential R;
  classifier : Linear R
}.

Definition __init__ (config : dict R) : M W self :=
  let* _ := LightningModule_init in
  let* config := create_config config in
  let* _ := save_hyperparameters config in
  let* learning_rate := dict_getitem config "learning_rate" in
  let num_classes := 4%Z in
  let* train_metric := torchmetrics_F1 num_classes "macro" in
  let* val_metric := torchmetrics_F1 num_classes "macro" in
  let* test_metric := torchmetrics_F1 num_classes "macro" in
  let* bert := from_pretrained "distilbert-base-uncased" in
  let* v := dict_getitem config "vocab_size" in
  let* config :=
    (if py_eq v (VInt 0)
     then dict_setitem config "vocab_size" (VInt (vocab_size (bert_config bert)))
     else ret config) in
  let bert :=
    bert_set_parameters bert
      (map (set_requires_grad false) (bert_parameters bert)) in
  let* l := nn_Linear (VInt (dim (bert_config bert)))
                      (VInt (dim (bert_config bert))) in
  let* d := nn_Dropout (seq_classif_dropout (bert_config bert)) in
  let distilbert_tail := [LLinear l; LReLU; LDropout d] in
  let* classifier :=
    nn_Linear (VInt (hidden_size (bert_config bert))) (VInt num_classes) in
  ret {| config := config;
         learning_rate := learning_rate;
         num_classes := num_classes;
         train_metric := train_metric;
         val_metric := val_metric;
         test_metric := test_metric;
         bert := bert;
         distilbert_tail := distilbert_tail;
         classifier := classifier |}.

Definition parameters (self : self) : list (param R) :=
  bert_parameters (bert self)
  ++ Sequential_parameters (distilbert_tail self)
  ++ [weight (classifier self); bias (classifier self)].

Definition forward (self : self) (encoded_text : BatchEncoding)
  : M W (tensor R) :=
  let* hidden_state :=
    py_with no_grad_enter no_grad_exit
      (bert_call (bert self) (input_ids encoded_text)
                 (attention_mask encoded_text)) in
  let* pooled_output := tensor_select hidden_state 1 0 in
  let* pooled_output := Sequential_call (distilbert_tail self) pooled_output in
  let* out := Linear_call (classifier self) pooled_output in
  ret out.

Definition training_step {X} (self : self)
    (batch : tensor Z * BatchEncoding * X) (batch_idx : Z)
  : M W (list (string * tensor R)) :=
  let '(y, encoded_texts, _) := batch in
  let* y := long_tensor_to y in
  let* encoded_texts := encoding_to encoded_texts in
  let* y_hat := forward self encoded_texts in
  let* pred := torch_argmax y_hat 1 in
  let* loss := F_cross_entropy y_hat y in
  let* _ := metric_call_classes (train_metric self) pred y in
  let* _ := log "train_loss" loss
              [("on_step", true); ("on_epoch", true);
               ("prog_bar", true); ("logger", true)] in
  ret [("loss", loss)].

Definition training_epoch_end {X} (self : self) (outs : X) : M W unit :=
  let* v := metric_compute (train_metric self) in
  log ("train_epoch_" +:+ type_name (train_metric self)) v [].

Definition validation_step {X} (self : self)
    (batch : tensor Z * BatchEncoding * X) (batch_idx : Z)
  : M W (list (string * tensor R)) :=
  let '(y, encoded_texts, _) := batch in
  let* y := long_tensor_to y in
  let* encoded_texts := encoding_to encoded_texts in
  let* y_hat := forward self encoded_texts in
  let* pred := torch_argmax y_hat 1 in
  let* loss := F_cross_entropy y_hat y in
  let* _ := metric_call_classes (val_metric self) pred y in
  let* _ := log "val_loss" loss [] in
  ret [("val_loss", loss)].

Definition validation_epoch_end {X} (self : self) (outputs : X) : M W unit :=
  let* v := metric_compute (val_metric self) in
  log ("val_epoch_" +:+ type_name (val_metric self)) v [].

Definition test_step {X} (self : self)
    (batch : tensor Z * BatchEncoding * X) (batch_idx : Z)
  : M W (list (string * tensor R)) :=
  let '(y, encoded_texts, _) := batch in
  let* y := long_tensor_to y in
  let* encoded_texts := encoding_to encoded_texts in
  let* y_hat := forward self encoded_texts in
  let* pred := torch_argmax y_hat 1 in
  let* loss := F_cross_entropy y_hat y in
  let* _ := metric_call_classes (test_metric self) pred y in
  let* _ := log "test_loss" loss [] in
  ret [("test_loss", loss)].

Definition test_epoch_end {X} (self : self) (outputs : X) : M W unit :=
  let* v := metric_compute (test_metric self) in
  log ("test_epoch_" +:+ type_name (test_metric self)) v [].

Definition configure_optimizers (self : self) : M W (Optimizer R) :=
  torch_optim_Adam (parameters self) (learning_rate self).
End Methods.
Arguments self : clear implicits.
End CustomDistilBertModel.

(** ** Reference semantics of the library

    What the called operations do, on tensors with a shape and row-major
    data: the shape checks and index arithmetic of torch, with the numeric
    kernels that this file never looks into (the pretrained encoder, the
    LSTM cell, cross entropy, F1, weight initialisation, the dropout mask,
    [create_config] of nlp_utils.config) supplied by an [Oracle]. *)
Record Oracle (R : Type) : Type := {
  o_create_config : dict R -> result (dict R);
  o_pretrained : string -> result (DistilBertModel R);
  o_bert : DistilBertModel R -> tensor Z -> tensor Z -> result (list R);
  o_lstm : LSTM R -> tensor R -> list R;
  o_cross_entropy : tensor R -> tensor Z -> R;
  o_f1 : list (tensor Z * tensor Z) -> R;
  o_init : nat -> nat -> R;
  o_keep : nat -> nat -> bool
}.

Record World (R : Type) : Type := {
  w_training : bool;
  w_grad_enabled : bool;
  w_rng : nat;
  w_next_slot : nat;
  w_updates : list (nat * tensor R * tensor R);
  w_class_updates : list (nat * tensor Z * tensor Z);
  w_logged : list (string * tensor R);
  w_hparams : list (dict R)
}.

Definition lift {W A} (r : result A) : M W A := fun w => (r, w).

Module Ref.
Section Semantics.
Context {R : Type} {SR : Scalar R} (O : Oracle R).

Definition set_rng (n : nat) (w : World R) : World R :=
  {| w_training := w_training w; w_grad_enabled := w_grad_enabled w;
     w_rng := n; w_next_slot := w_next_slot w; w_updates := w_updates w;
     w_class_updates := w_class_updates w; w_logged := w_logged w;
     w_hparams := w_hparams w |}.

Definition set_grad_enabled (b : bool) (w : World R) : World R :=
  {| w_training := w_training w; w_grad_enabled := b;
     w_rng := w_rng w; w_next_slot := w_next_slot w; w_updates := w_updates w;
     w_class_updates := w_class_updates w; w_logged := w_logged w;
     w_hparams := w_hparams w |}.

Definition set_next_slot (n : nat) (w : World R) : World R :=
  {| w_training := w_training w; w_grad_enabled := w_grad_enabled w;
     w_rng := w_rng w; w_next_slot := n; w_updates := w_updates w;
     w_class_updates := w_class_updates w; w_logged := w_logged w;
     w_hparams := w_hparams w |}.

Definition set_updates (u : list (nat * tensor R * tensor R)) (w : World R)
  : World R :=
  {| w_training := w_training w; w_grad_enabled := w_grad_enabled w;
     w_rng := w_rng w; w_next_slot := w_next_slot w; w_updates := u;
     w_class_updates := w_class_updates w; w_logged := w_logged w;
     w_hparams := w_hparams w |}.

Definition set_class_updates (u : list (nat * tensor Z * tensor Z))
    (w : World R) : World R :=
  {| w_training := w_training w; w_grad_enabled := w_grad_enabled w;
     w_rng := w_rng w; w_next_slot := w_next_slot w; w_updates := w_updates w;
     w_class_updates := u; w_logged := w_logged w;
     w_hparams := w_hparams w |}.

Definition set_logged (l : list (string * tensor R)) (w : World R) : World R :=
  {| w_training := w_training w; w_grad_enabled := w_grad_enabled w;
     w_rng := w_rng w; w_next_slot := w_next_slot w; w_updates := w_updates w;
     w_class_updates := w_class_updates w; w_logged := l;
     w_hparams := w_hparams w |}.

Definition set_hparams (h : list (dict R)) (w : World R) : World R :=
  {| w_training := w_training w; w_grad_enabled := w_grad_enabled w;
     w_rng := w_rng w; w_next_slot := w_next_slot w; w_updates := w_updates w;
     w_class_updates := w_class_updates w; w_logged := w_logged w;
     w_hparams := h |}.

(** *** Index arithmetic *)

(** The [i]-th block of [width] elements. *)
Definition row {A} (width i : nat) (d : list A) : list A :=
  take width (drop (i * width) d).

(** A Python index into a dimension of length [len]; negative indices
    count from the end. *)
Definition norm_index (i : Z) (len : nat) : option nat :=
  let j := if (i <? 0)%Z then (i + Z.of_nat len)%Z else i in
  if ((0 <=? j) && (j <? Z.of_nat len))%Z then Some (Z.to_nat j) else None.

(** [t.shape[i]] *)
Definition size_at {A} (t : tensor A) (i : Z) : result Z :=
  match norm_index i (length (shape t)) with
  | Some j => Ok (Z.of_nat (default 0%nat (shape t !! j)))
  | None => Err (IndexError "tuple index out of range")
  end.

(** [t.select(d, i)]: what [t[:, i]] is for [d = 1]. *)
Definition select {A} (t : tensor A) (d : nat) (i : Z) : result (tensor A) :=
  match shape t !! d with
  | None => Err (IndexError "too many indices for tensor")
  | Some len =>
      match norm_index i len with
      | None => Err (IndexError "index is out of bounds for dimension")
      | Some j =>
          let outer := numel (take d (shape t)) in
          let inner := numel (drop (S d) (shape t)) in
          Ok (Tensor (take d (shape t) ++ drop (S d) (shape t))
                (concat
                   (map (fun o => row inner j (row (len * inner) o (data t)))
                        (seq 0 outer))))
      end
  end.

(** [torch.cat((a, b), dim)], with its legacy rule that a tensor of
    shape [(0,)] is skipped. *)
Definition cat {A} (a b : tensor A) (dim : Z) : result (tensor A) :=
  if bool_decide (shape a = [0%nat]) then Ok b
  else if bool_decide (shape b = [0%nat]) then Ok a
  else if negb (length (shape a) =? length (shape b))%nat
  then Err (RuntimeError "Tensors must have same number of dimensions")
  else
    match norm_index dim (length (shape a)) with
    | None => Err (IndexError "Dimension out of range")
    | Some d =>
        if bool_decide (<[d := 0%nat]> (shape a) = <[d := 0%nat]> (shape b))
        then
          let la := default 0%nat (shape a !! d) in
          let lb := default 0%nat (shape b !! d) in
          let outer := numel (take d (shape a)) in
          let inner := numel (drop (S d) (shape a)) in
          Ok (Tensor (<[d := (la + lb)%nat]> (shape a))
                (concat
                   (map (fun o => row (la * inner) o (data a)
                                  ++ row (lb * inner) o (data b))
                        (seq 0 outer))))
        else Err (RuntimeError "Sizes of tensors must match except in dimension")
    end.

(** [t.view(sizes)]; one size may be [-1] and is inferred. *)
Definition view {A} (t : tensor A) (sizes : list Z) : result (tensor A) :=
  let n := numel (shape t) in
  let known := filter (fun z => negb (z =? -1)%Z) sizes in
  let p := numel (map Z.to_nat known) in
  if existsb (fun z => (z <? -1)%Z) sizes
  then Err (RuntimeError "invalid shape dimension")
  else
    match (length sizes - length known)%nat with
    | 0%nat =>
        if (p =? n)%nat then Ok (Tensor (map Z.to_nat sizes) (data t))
        else Err (RuntimeError "shape is invalid for input size")
    | 1%nat =>
        if ((p =? 0) || negb (n mod p =? 0))%nat
        then Err (RuntimeError "shape is invalid for input size")
        else Ok (Tensor
                   (map (fun z => if (z =? -1)%Z then (n / p)%nat else Z.to_nat z)
                        sizes)
                   (data t))
    | _ => Err (RuntimeError "only one dimension can be inferred")
    end.

(** [t.unsqueeze(dim)] *)
Definition unsqueeze {A} (t : tensor A) (dim : Z) : result (tensor A) :=
  match norm_index dim (S (length (shape t))) with
  | Some d => Ok (Tensor (take d (shape t) ++ 1%nat :: drop d (shape t)) (data t))
  | None => Err (IndexError "Dimension out of range")
  end.

(** *** Broadcasting *)

(** Shapes are matched from the last dimension: both lists reversed. *)
Fixpoint broadcast_rev (a b : list nat) : option (list nat) :=
  match a, b with
  | [], _ => Some b
  | _, [] => Some a
  | x :: a', y :: b' =>
      if (x =? y)%nat then cons x <$> broadcast_rev a' b'
      else if (x =? 1)%nat then cons y <$> broadcast_rev a' b'
      else if (y =? 1)%nat then cons x <$> broadcast_rev a' b'
      else None
  end.

Definition broadcast_shapes (a b : list nat) : option (list nat) :=
  reverse <$> broadcast_rev (reverse a) (reverse b).

(** The data of a tensor of shape [src] seen at shape [tgt] of the same
    rank: a dimension of length 1 repeats its only block. *)
Fixpoint expand_data {A} (src tgt : list nat) (d : list A) : list A :=
  match src, tgt with
  | s :: src', t :: tgt' =>
      concat
        (map (fun i => expand_data src' tgt'
                         (row (numel src') (if (s =? t)%nat then i else 0%nat) d))
             (seq 0 t))
  | _, _ => d
  end.

Definition expand {A} (t : tensor A) (tgt : list nat) : list A :=
  expand_data (replicate (length tgt - length (shape t)) 1%nat ++ shape t)
              tgt (data t).

(** *** Layers *)

Definition dot (u v : list R) : R := foldl s_add s_zero (zip_with s_mul u v).

(** One input row through [y = x W^T + b]. *)
Definition affine (l : Linear R) (x : list R) : list R :=
  map (fun j =>
         s_add (dot x (row (in_features l) j (data (p_tensor (weight l)))))
               (default s_zero (data (p_tensor (bias l)) !! j)))
      (seq 0 (out_features l)).

Definition linear (l : Linear R) (x : tensor R) : result (tensor R) :=
  match last (shape x) with
  | None => Err (RuntimeError "both arguments to matmul need to be at least 1D")
  | Some n =>
      if (n =? in_features l)%nat then
        let lead := take (length (shape x) - 1) (shape x) in
        Ok (Tensor (lead ++ [out_features l])
              (concat (map (fun i => affine l (row n i (data x)))
                           (seq 0 (numel lead)))))
      else Err (RuntimeError "mat1 and mat2 shapes cannot be multiplied")
  end.

Definition relu (x : tensor R) : tensor R :=
  Tensor (shape x) (map s_relu (data x)).

(** In training mode each element is kept or zeroed by the generator's
    draw and the kept ones are scaled by [1 / (1 - p)]; in evaluation mode
    the layer is the identity. *)
Definition dropout (d : Dropout R) (x : tensor R) : M (World R) (tensor R) :=
  fun w =>
    if w_training w then
      (Ok (Tensor (shape x)
             (imap (fun i v => if o_keep O (w_rng w) i
                               then s_div v (s_sub s_one (drop_p d))
                               else s_zero)
                   (data x))),
       set_rng (S (w_rng w)) w)
    else (Ok x, w).

(** [nn.Embedding] called on token ids: every id has to be a row of the
    table.  A table without rows fails in [index_select] with a
    [RuntimeError]; otherwise an id outside the table is an
    [IndexError]. *)
Definition embedding (e : Embedding R) (ids : tensor Z) : result (tensor R) :=
  if forallb (fun i => (0 <=? i) && (i <? Z.of_nat (num_embeddings e)))%Z
             (data ids)
  then Ok (Tensor (shape ids ++ [embedding_dim e])
             (concat (map (fun i => row (embedding_dim e) (Z.to_nat i)
                                        (data (p_tensor (emb_weight e))))
                          (data ids))))
  else if (num_embeddings e =? 0)%nat
  then Err (RuntimeError "index_select(): self indexing axis dim should be positive")
  else Err (IndexError "index out of range in self").

(** A batch-first LSTM on a [(bs, seq_len, input_size)] input. *)
Definition lstm (l : LSTM R) (x : tensor R) : result (tensor R) :=
  match shape x with
  | [bs; seq_len; n] =>
      if (n =? lstm_input_size l)%nat then
        Ok (Tensor [bs; seq_len;
                    ((if lstm_bidirectional l then 2 else 1) * lstm_hidden_size l)%nat]
              (o_lstm O l x))
      else Err (RuntimeError "input.size(-1) must be equal to input_size")
  | _ => Err (RuntimeError "input must have 3 dimensions")
  end.

(** The encoder's last hidden state, [(bs, seq_len, dim)]. *)
Definition distilbert (b : DistilBertModel R) (ids mask : tensor Z)
  : result (tensor R) :=
  match shape ids with
  | [bs; seq_len] =>
      if bool_decide (shape mask = shape ids) then
        match o_bert O b ids mask with
        | Ok d => Ok (Tensor [bs; seq_len; Z.to_nat (dim (bert_config b))] d)
        | Err e => Err e
        end
      else Err (RuntimeError "The size of tensor a must match the size of tensor b")
  | _ => Err (ValueError "not enough values to unpack")
  end.

(** *** Losses and metrics *)

Definition squared_errors (a b : list R) : list R :=
  zip_with (fun x y => let d := s_sub x y in s_mul d d) a b.

Definition mean (l : list R) : R :=
  s_div (foldl s_add s_zero l) (s_of_Z (Z.of_nat (length l))).

(** [F.mse_loss(input, target)] with the default mean reduction: both
    arguments are broadcast to a common shape first. *)
Definition mse_loss (input target : tensor R) : result (tensor R) :=
  match broadcast_shapes (shape input) (shape target) with
  | None => Err (RuntimeError "The size of tensor a must match the size of tensor b")
  | Some s =>
      Ok (Tensor [] [mean (squared_errors (expand input s) (expand target s))])
  end.

(** [F.cross_entropy(input, target)] on [(bs, c)] logits and [bs] class
    indices: a target has to be one of the [c] classes or the default
    [ignore_index], -100. *)
Definition cross_entropy (input : tensor R) (target : tensor Z)
  : result (tensor R) :=
  match shape input, shape target with
  | [bs; c], [bs'] =>
      if negb (bs =? bs')%nat
      then Err (ValueError "Expected input batch_size to match target batch_size")
      else if forallb (fun i => (i =? -100) || (0 <=? i) && (i <? Z.of_nat c))%Z
                      (data target)
      then Ok (Tensor [] [o_cross_entropy O input target])
      else Err (IndexError "Target is out of bounds")
  | _, _ => Err (RuntimeError "cross_entropy: unsupported shapes")
  end.

(** The index of the first largest element. *)
Fixpoint argmax_from (best : nat) (bv : R) (i : nat) (l : list R) : nat :=
  match l with
  | [] => best
  | x :: l' =>
      if s_ltb bv x then argmax_from i x (S i) l' else argmax_from best bv (S i) l'
  end.

Definition argmax_list (l : list R) : Z :=
  match l with
  | [] => 0%Z
  | x :: l' => Z.of_nat (argmax_from 0%nat x 1%nat l')
  end.

(** [torch.argmax(t, axis)] *)
Definition argmax (t : tensor R) (axis : Z) : result (tensor Z) :=
  match norm_index axis (length (shape t)) with
  | None => Err (IndexError "Dimension out of range")
  | Some d =>
      let len := default 0%nat (shape t !! d) in
      let outer := numel (take d (shape t)) in
      let inner := numel (drop (S d) (shape t)) in
      if (len =? 0)%nat
      then Err (IndexError "cannot perform reduction on a dimension of size 0")
      else
        Ok (Tensor (take d (shape t) ++ drop (S d) (shape t))
              (concat
                 (map (fun o =>
                         map (fun k =>
                                argmax_list
                                  (map (fun j =>
                                          default s_zero
                                            (data t !! (o * len * inner + j * inner + k)%nat))
                                       (seq 0 len)))
                             (seq 0 inner))
                      (seq 0 outer))))
  end.

Definition new_metric (c : metric_class) : M (World R) Metric :=
  fun w => (Ok {| metric_cls := c; metric_slot := w_next_slot w |},
            set_next_slot (S (w_next_slot w)) w).

(** A metric called on a batch checks the shapes and accumulates. *)
Definition metric_update (m : Metric) (preds target : tensor R)
  : M (World R) unit :=
  fun w =>
    if bool_decide (shape preds = shape target)
    then (Ok tt, set_updates (w_updates w ++ [(metric_slot m, preds, target)]) w)
    else (Err (RuntimeError "Predictions and targets are expected to have the same shape"), w).

Definition metric_update_classes (m : Metric) (preds target : tensor Z)
  : M (World R) unit :=
  fun w =>
    if bool_decide (shape preds = shape target)
    then (Ok tt,
          set_class_updates (w_class_updates w ++ [(metric_slot m, preds, target)]) w)
    else (Err (RuntimeError "Predictions and targets are expected to have the same shape"), w).

Definition compute (m : Metric) : M (World R) (tensor R) :=
  fun w =>
    match metric_cls m with
    | MeanSquaredError_cls =>
        let ups := filter (fun u => u.1.1 = metric_slot m) (w_updates w) in
        (Ok (Tensor []
               [mean (concat (map (fun u => squared_errors (data u.1.2) (data u.2))
                                  ups))]), w)
    | F1_cls =>
        let ups := filter (fun u => u.1.1 = metric_slot m) (w_class_updates w) in
        (Ok (Tensor [] [o_f1 O (map (fun u => (u.1.2, u.2)) ups)]), w)
    end.

Definition log_value (name : string) (v : tensor R) (flags : list (string * bool))
  : M (World R) unit :=
  fun w =>
    if (numel (shape v) =? 1)%nat
    then (Ok tt, set_logged (w_logged w ++ [(name, v)]) w)
    else (Err (ValueError "self.log expects a single-element tensor"), w).

(** *** Built-ins *)

Definition getitem (d : dict R) (k : string) : result (pyval R) :=
  match d !! k with
  | Some v => Ok v
  | None => Err (KeyError k)
  end.

Definition as_number (v : pyval R) : option (Z + R) :=
  match v with
  | VBool b => Some (inl (if b then 1 else 0)%Z)
  | VInt z => Some (inl z)
  | VFloat x => Some (inr x)
  | _ => None
  end.

Definition arith (fz : Z -> Z -> Z) (fr : R -> R -> R) (a b : pyval R)
  : result (pyval R) :=
  match as_number a, as_number b with
  | Some (inl x), Some (inl y) => Ok (VInt (fz x y))
  | Some (inl x), Some (inr y) => Ok (VFloat (fr (s_of_Z x) y))
  | Some (inr x), Some (inl y) => Ok (VFloat (fr x (s_of_Z y)))
  | Some (inr x), Some (inr y) => Ok (VFloat (fr x y))
  | _, _ => Err (TypeError "unsupported operand type(s)")
  end.

Definition add (a b : pyval R) : result (pyval R) :=
  match a, b with
  | VStr s, VStr t => Ok (VStr (s +:+ t))
  | _, _ => arith Z.add s_add a b
  end.

Definition string_repeat (s : string) (n : Z) : string :=
  Nat.iter (Z.to_nat n) (String.append s) EmptyString.

Definition mul (a b : pyval R) : result (pyval R) :=
  match a, b with
  | VStr s, VInt n => Ok (VStr (string_repeat s n))
  | VInt n, VStr s => Ok (VStr (string_repeat s n))
  | _, _ => arith Z.mul s_mul a b
  end.

(** *** Constructors *)

(** A Python value used as a tensor dimension: an [int] that fits a
    signed 64-bit integer and is not negative; [bool] is a subclass of
    [int], so [True] is the size 1 and [False] the size 0. *)
Definition int_of (v : pyval R) : option Z :=
  match v with
  | VInt z => Some z
  | VBool b => Some (if b then 1 else 0)%Z
  | _ => None
  end.

Definition as_size (v : pyval R) : result nat :=
  match int_of v with
  | Some z =>
      if (z <? 0)%Z
      then Err (RuntimeError "Trying to create tensor with negative dimension")
      else if (2 ^ 63 <=? z)%Z
      then Err (RuntimeError "Overflow when unpacking long")
      else Ok (Z.to_nat z)
  | None => Err (TypeError "empty(): argument 'size' must be tuple of ints")
  end.

(** A freshly initialised parameter: trainable. *)
Definition new_param (name : string) (s : list nat) : M (World R) (param R) :=
  fun w =>
    (Ok {| p_name := name;
           p_tensor := Tensor s (map (o_init O (w_rng w)) (seq 0 (numel s)));
           requires_grad := true |},
     set_rng (S (w_rng w)) w).

Fixpoint new_params (specs : list (string * list nat))
  : M (World R) (list (param R)) :=
  match specs with
  | [] => ret []
  | (name, s) :: specs' =>
      let* p := new_param name s in
      let* ps := new_params specs' in
      ret (p :: ps)
  end.

Definition Linear_new (a b : pyval R) : M (World R) (Linear R) :=
  let* n_in := lift (as_size a) in
  let* n_out := lift (as_size b) in
  let* w := new_param "weight" [n_out; n_in] in
  let* b := new_param "bias" [n_out] in
  ret {| in_features := n_in; out_features := n_out; weight := w; bias := b |}.

Definition Dropout_new (p : R) : result (Dropout R) :=
  if s_ltb p s_zero || s_ltb s_one p
  then Err (ValueError "dropout probability has to be between 0 and 1")
  else Ok {| drop_p := p |}.

Definition Embedding_new (a b : pyval R) : M (World R) (Embedding R) :=
  let* n := lift (as_size a) in
  let* d := lift (as_size b) in
  let* w := new_param "weight" [n; d] in
  ret {| num_embeddings := n; embedding_dim := d; emb_weight := w |}.

(** [nn.LSTM(input_size, hidden_size, ...)]: both are sizes, and the
    hidden size has to be positive. *)
Definition LSTM_new (a b : pyval R) (bidirectional batch_first : bool)
  : M (World R) (LSTM R) :=
  let* n := lift (as_size a) in
  let* h := lift (as_size b) in
  let* _ := lift (if (h =? 0)%nat
                  then Err (ValueError "hidden_size must be greater than zero")
                  else Ok tt) in
  let direction (suffix : string) : list (string * list nat) :=
    [("weight_ih_l0" +:+ suffix, [(4 * h)%nat; n]);
     ("weight_hh_l0" +:+ suffix, [(4 * h)%nat; h]);
     ("bias_ih_l0" +:+ suffix, [(4 * h)%nat]);
     ("bias_hh_l0" +:+ suffix, [(4 * h)%nat])] in
  let* ps := new_params (direction ""
                         ++ (if bidirectional then direction "_reverse" else [])) in
  ret {| lstm_input_size := n; lstm_hidden_size := h;
         lstm_bidirectional := bidirectional; lstm_batch_first := batch_first;
         lstm_parameters := ps |}.

(** [torch.optim.Adam(params, lr=lr)]: the learning rate is checked, then
    the parameter list, which is taken as it is given. *)
Definition Adam (params : list (param R)) (lr : pyval R) : result (Optimizer R) :=
  let made := {| opt_class := "Adam"; opt_params := params; opt_lr := lr |} in
  let nonempty :=
    match params with
    | [] => Err (ValueError "optimizer got an empty parameter list")
    | _ => Ok made
    end in
  match lr with
  | VFloat x =>
      if s_ltb x s_zero then Err (ValueError "Invalid learning rate") else nonempty
  | VInt z =>
      if (z <? 0)%Z then Err (ValueError "Invalid learning rate") else nonempty
  | VBool _ => nonempty
  | _ => Err (TypeError "'<=' not supported between instances")
  end.

Definition enter_no_grad : M (World R) bool :=
  fun w => (Ok (w_grad_enabled w), set_grad_enabled false w).

Definition exit_no_grad (prev : bool) (w : World R) : World R :=
  set_grad_enabled prev w.

Definition hparams_save (c : dict R) : M (World R) unit :=
  fun w => (Ok tt, set_hparams (w_hparams w ++ [c]) w).
End Semantics.
End Ref.

(** The reference implementation of the interface. *)
Definition RefTorch {R} {SR : Scalar R} (O : Oracle R) : Torch R (World R) := {|
  dict_getitem d k := lift (Ref.getitem d k);
  dict_setitem d k v := ret (<[k := v]> d);
  py_add a b := lift (Ref.add a b);
  py_mul a b := lift (Ref.mul a b);
  size_getitem t i := lift (Ref.size_at t i);
  create_config c := lift (o_create_config O c);
  LightningModule_init := ret tt;
  save_hyperparameters c := Ref.hparams_save c;
  log name v flags := Ref.log_value name v flags;
  torchmetrics_MeanSquaredError := Ref.new_metric MeanSquaredError_cls;
  pl_metrics_MeanSquaredError := Ref.new_metric MeanSquaredError_cls;
  torchmetrics_F1 n average := Ref.new_metric F1_cls;
  metric_call m p t := Ref.metric_update m p t;
  metric_call_classes m p t := Ref.metric_update_classes m p t;
  metric_compute m := Ref.compute O m;
  from_pretrained name := lift (o_pretrained O name);
  bert_call b ids mask := lift (Ref.distilbert O b ids mask);
  encoding_to e := ret e;
  nn_Linear a b := Ref.Linear_new O a b;
  nn_Dropout p := lift (Ref.Dropout_new p);
  nn_Embedding a b := Ref.Embedding_new O a b;
  nn_LSTM a b bi bf := Ref.LSTM_new O a b bi bf;
  Linear_call l x := lift (Ref.linear l x);
  ReLU_call x := ret (Ref.relu x);
  Dropout_call d x := Ref.dropout O d x;
  Embedding_call e ids := lift (Ref.embedding e ids);
  LSTM_call l x := lift (Ref.lstm O l x);
  tensor_to t := ret t;
  long_tensor_to t := ret t;
  tensor_select t d i := lift (Ref.select t d i);
  tensor_view t sizes := lift (Ref.view t sizes);
  tensor_unsqueeze t d := lift (Ref.unsqueeze t d);
  torch_cat a b d := lift (Ref.cat a b d);
  torch_argmax t d := lift (Ref.argmax t d);
  F_mse_loss a b := lift (Ref.mse_loss a b);
  F_cross_entropy a b := lift (Ref.cross_entropy O a b);
  no_grad_enter := Ref.enter_no_grad;
  no_grad_exit := Ref.exit_no_grad;
  torch_optim_Adam ps lr := lift (Ref.Adam ps lr)
|}.

(** ** The recorder

    Runs any implementation of the interface and appends, for every call
    the methods make, which operation it was and the exception it raised,
    if any.  The trace sits beside the world, out of reach of the
    methods. *)
Inductive op : Type :=
| op_dict_getitem
| op_dict_setitem
| op_py_add
| op_py_mul
| op_size_getitem
| op_create_config
| op_LightningModule_init
| op_save_hyperparameters
| op_log
| op_torchmetrics_MeanSquaredError
| op_pl_metrics_MeanSquaredError
| op_torchmetrics_F1
| op_metric_call
| op_metric_call_classes
| op_metric_compute
| op_from_pretrained
| op_bert_call
| op_encoding_to
| op_nn_Linear
| op_nn_Dropout
| op_nn_Embedding
| op_nn_LSTM
| op_Linear_call
| op_ReLU_call
| op_Dropout_call
| op_Embedding_call
| op_LSTM_call
| op_tensor_to
| op_long_tensor_to
| op_tensor_select
| op_tensor_view
| op_tensor_unsqueeze
| op_torch_cat
| op_torch_argmax
| op_F_mse_loss
| op_F_cross_entropy
| op_no_grad_enter
| op_torch_optim_Adam
| op_no_grad_exit.

Record event : Type := Event {
  ev_op : op;
  ev_error : option error
}.

Definition record {W A} (o : op) (c : M W A) : M (W * list event) A :=
  fun s =>
    let '(r, w') := c s.1 in
    (r, (w', s.2 ++ [Event o (error_of r)])).

Definition record_exit {W} (exit : W -> W) (s : W * list event)
  : W * list event :=
  (exit s.1, s.2 ++ [Event op_no_grad_exit None]).

Definition Recorded {R W} (T : Torch R W) : Torch R (W * list event) := {|
  dict_getitem d k := record op_dict_getitem (dict_getitem d k);
  dict_setitem d k v := record op_dict_setitem (dict_setitem d k v);
  py_add a b := record op_py_add (py_add a b);
  py_mul a b := record op_py_mul (py_mul a b);
  size_getitem t i := record op_size_getitem (size_getitem t i);
  create_config c := record op_create_config (create_config c);
  LightningModule_init := record op_LightningModule_init (LightningModule_init);
  save_hyperparameters c := record op_save_hyperparameters (save_hyperparameters c);
  log name v flags := record op_log (log name v flags);
  torchmetrics_MeanSquaredError := record op_torchmetrics_MeanSquaredError (torchmetrics_MeanSquaredError);
  pl_metrics_MeanSquaredError := record op_pl_metrics_MeanSquaredError (pl_metrics_MeanSquaredError);
  torchmetrics_F1 n average := record op_torchmetrics_F1 (torchmetrics_F1 n average);
  metric_call m p t := record op_metric_call (metric_call m p t);
  metric_call_classes m p t := record op_metric_call_classes (metric_call_classes m p t);
  metric_compute m := record op_metric_compute (metric_compute m);
  from_pretrained name := record op_from_pretrained (from_pretrained name);
  bert_call b ids mask := record op_bert_call (bert_call b ids mask);
  encoding_to e := record op_encoding_to (encoding_to e);
  nn_Linear a b := record op_nn_Linear (nn_Linear a b);
  nn_Dropout p := record op_nn_Dropout (nn_Dropout p);
  nn_Embedding a b := record op_nn_Embedding (nn_Embedding a b);
  nn_LSTM a b bi bf := record op_nn_LSTM (nn_LSTM a b bi bf);
  Linear_call l x := record op_Linear_call (Linear_call l x);
  ReLU_call x := record op_ReLU_call (ReLU_call x);
  Dropout_call d x := record op_Dropout_call (Dropout_call d x);
  Embedding_call e ids := record op_Embedding_call (Embedding_call e ids);
  LSTM_call l x := record op_LSTM_call (LSTM_call l x);
  tensor_to t := record op_tensor_to (tensor_to t);
  long_tensor_to t := record op_long_tensor_to (long_tensor_to t);
  tensor_select t d i := record op_tensor_select (tensor_select t d i);
  tensor_view t sizes := record op_tensor_view (tensor_view t sizes);
  tensor_unsqueeze t d := record op_tensor_unsqueeze (tensor_unsqueeze t d);
  torch_cat a b d := record op_torch_cat (torch_cat a b d);
  torch_argmax t d := record op_torch_argmax (torch_argmax t d);
  F_mse_loss a b := record op_F_mse_loss (F_mse_loss a b);
  F_cross_entropy a b := record op_F_cross_entropy (F_cross_entropy a b);
  no_grad_enter := record op_no_grad_enter (no_grad_enter);
  torch_optim_Adam ps lr := record op_torch_optim_Adam (torch_optim_Adam ps lr);
  no_grad_exit prev := record_exit (no_grad_exit prev)
|}.

(** The trace of a run from an empty trace. *)
Definition trace_of {W A} (c : M (W * list event) A) (w : W) : list event :=
  (c (w, [])).2.2.

Definition outcome_of {W A} (c : M (W * list event) A) (w : W) : result A :=
  (c (w, [])).1.

(** The first exception raised by a called operation, and the calls made
    after it. *)
Fixpoint first_failure (tr : list event) : option error :=
  match tr with
  | [] => None
  | e :: tr' =>
      match ev_error e with
      | Some err => Some err
      | None => first_failure tr'
      end
  end.

Fixpoint after_failure (tr : list event) : list event :=
  match tr with
  | [] => []
  | e :: tr' =>
      match ev_error e with
      | Some _ => tr'
      | None => after_failure tr'
      end
  end.

Definition is_exit (e : event) : Prop :=
  ev_op e = op_no_grad_exit /\ ev_error e = None.

(** A method lets exceptions through: it fails exactly when a call it made
    raised, with the first exception raised, and after that exception the
    only calls are the exits of the [with] blocks being left. *)
Definition propagates {W A} (c : M (W * list event) A) : Prop :=
  forall w : W,
    error_of (outcome_of c w) = first_failure (trace_of c w)
    /\ Forall is_exit (after_failure (trace_of c w)).

(** The operations of a trace, with those outside [keep] erased. *)
Definition ops_of (keep : op -> bool) (tr : list event) : list op :=
  List.filter keep (map ev_op tr).

Definition every_op (o : op) : bool := true.

Definition not_setitem (o : op) : bool :=
  match o with op_dict_setitem => false | _ => true end.

(** A family of runs follows one script: whatever the argument and the
    world, the operations called are the script's, in its order, up to
    the point where the run ended; a run that returned called all of it. *)
Definition fixed_sequence {W A X} (keep : op -> bool)
    (c : X -> M (W * list event) A) : Prop :=
  exists script : list op,
    forall (x : X) (w : W),
      ops_of keep (trace_of (c x) w) `prefix_of` script
      /\ (error_of (outcome_of (c x) w) = None ->
          ops_of keep (trace_of (c x) w) = script).

(** A run follows the given script, from every world. *)
Definition runs_script {W A} (keep : op -> bool) (script : list op)
    (c : M (W * list event) A) : Prop :=
  forall w : W,
    ops_of keep (trace_of c w) `prefix_of` script
    /\ (error_of (outcome_of c w) = None ->
        ops_of keep (trace_of c w) = script).

(** The operations the forward passes call, in the order of their
    statements: [BaseModel.forward] (lines 57-72), [BiLSTMModel.forward]
    (lines 161-171) and [CustomDistilBertModel.forward] (lines 263-273),
    with the layers of the [nn.Sequential] heads as the constructors
    build them. *)
Definition BaseModel_forward_script : list op :=
  [op_bert_call; op_tensor_select;
   op_Linear_call; op_ReLU_call; op_Dropout_call;
   op_Linear_call; op_ReLU_call;
   op_torch_cat; op_Linear_call].

Definition BiLSTMModel_forward_script : list op :=
  [op_Embedding_call; op_LSTM_call;
   op_Linear_call; op_ReLU_call;
   op_size_getitem; op_tensor_select;
   op_torch_cat; op_Linear_call].

Definition CustomDistilBertModel_forward_script : list op :=
  [op_no_grad_enter; op_bert_call; op_no_grad_exit; op_tensor_select;
   op_Linear_call; op_ReLU_call; op_Dropout_call;
   op_Linear_call].

(** The operations the constructors call; for [BaseModel] and
    [CustomDistilBertModel] without the guarded [dict] write. *)
Definition BiLSTMModel_init_script : list op :=
  [op_LightningModule_init; op_create_config; op_save_hyperparameters;
   op_dict_getitem;
   op_pl_metrics_MeanSquaredError; op_pl_metrics_MeanSquaredError;
   op_dict_getitem; op_dict_getitem; op_nn_Embedding;
   op_dict_getitem; op_dict_getitem; op_nn_Linear;
   op_dict_getitem; op_dict_getitem; op_nn_LSTM;
   op_dict_getitem; op_py_mul; op_dict_getitem; op_py_add; op_nn_Linear].

Definition BaseModel_init_script : list op :=
  [op_LightningModule_init; op_create_config; op_save_hyperparameters;
   op_dict_getitem;
   op_torchmetrics_MeanSquaredError; op_torchmetrics_MeanSquaredError;
   op_torchmetrics_MeanSquaredError;
   op_from_pretrained; op_dict_getitem;
   op_nn_Linear; op_nn_Dropout;
   op_dict_getitem; op_dict_getitem; op_nn_Linear;
   op_dict_getitem; op_py_add; op_nn_Linear].

Definition CustomDistilBertModel_init_script : list op :=
  [op_LightningModule_init; op_create_config; op_save_hyperparameters;
   op_dict_getitem;
   op_torchmetrics_F1; op_torchmetrics_F1; op_torchmetrics_F1;
   op_from_pretrained; op_dict_getitem;
   op_nn_Linear; op_nn_Dropout; op_nn_Linear].

(** ** The three classes side by side *)

Inductive model_class : Type :=
| BaseModel_cls
| BiLSTMModel_cls
| CustomDistilBertModel_cls.

Inductive model (R : Type) : Type :=
| MBase (m : BaseModel.self R)
| MBiLSTM (m : BiLSTMModel.self R)
| MCustom (m : CustomDistilBertModel.self R).
Arguments MBase {R} m.
Arguments MBiLSTM {R} m.
Arguments MCustom {R} m.

#[global] Instance model_class_eq_dec : EqDecision model_class.
Proof. solve_decision. Defined.

Definition class_of {R} (m : model R) : model_class :=
  match m with
  | MBase _ => BaseModel_cls
  | MBiLSTM _ => BiLSTMModel_cls
  | MCustom _ => CustomDistilBertModel_cls
  end.

(** The parameters of [forward] after [self], as the [def] lines have
    them, each with what it carries. *)
Inductive input_kind : Type :=
| EncodedText
| CategoricalFeatures.

#[global] Instance input_kind_eq_dec : EqDecision input_kind.
Proof. solve_decision. Defined.

Definition forward_inputs (c : model_class) : list (string * input_kind) :=
  match c with
  | BaseModel_cls =>
      [("encoded_text", EncodedText); ("category_vectors", CategoricalFeatures)]
  | BiLSTMModel_cls =>
      [("encoded_texts", EncodedText); ("encoded_classes", CategoricalFeatures)]
  | CustomDistilBertModel_cls =>
      [("encoded_text", EncodedText)]
  end.

(** A positional argument of a call [self(...)]. *)
Inductive argument (R : Type) : Type :=
| AEncoding (e : BatchEncoding)
| ALong (t : tensor Z)
| AFloat (t : tensor R).
Arguments AEncoding {R} e.
Arguments ALong {R} t.
Arguments AFloat {R} t.

(** [self(args)]: [nn.Module.__call__] passes the arguments on to
    [forward]; Python raises a [TypeError] when their number is not the
    number of [forward]'s parameters.  An argument of another kind than
    the parameter's fails inside [forward] where it is first used, which
    is reported here as a [TypeError] as well. *)
Definition call {R W} {SR : Scalar R} {T : Torch R W}
    (m : model R) (args : list (argument R)) : M W (tensor R) :=
  if negb (length args =? length (forward_inputs (class_of m)))%nat
  then raise (TypeError "forward() takes a different number of positional arguments")
  else
    match m, args with
    | MBase m, [AEncoding e; AFloat c] => BaseModel.forward m e c
    | MBiLSTM m, [ALong e; AFloat c] => BiLSTMModel.forward m e c
    | MCustom m, [AEncoding e] => CustomDistilBertModel.forward m e
    | _, _ => raise (TypeError "argument of another kind")
    end.

(** A registered submodule. *)
Inductive submodule (R : Type) : Type :=
| SubMetric (m : Metric)
| SubBert (b : DistilBertModel R)
| SubSequential (s : Sequential R)
| SubLinear (l : Linear R)
| SubEmbedding (e : Embedding R)
| SubLSTM (l : LSTM R).
Arguments SubMetric {R} m.
Arguments SubBert {R} b.
Arguments SubSequential {R} s.
Arguments SubLinear {R} l.
Arguments SubEmbedding {R} e.
Arguments SubLSTM {R} l.

(** [self.named_children()]: the modules assigned to attributes of
    [self], in the order [__init__] assigns them. *)
Definition named_children {R} (m : model R) : list (string * submodule R) :=
  match m with
  | MBase m =>
      [("train_metric", SubMetric (BaseModel.train_metric m));
       ("val_metric", SubMetric (BaseModel.val_metric m));
       ("test_metric", SubMetric (BaseModel.test_metric m));
       ("bert", SubBert (BaseModel.bert m));
       ("distilbert_tail", SubSequential (BaseModel.distilbert_tail m));
       ("category_encoder", SubSequential (BaseModel.category_encoder m));
       ("classifier", SubLinear (BaseModel.classifier m))]
  | MBiLSTM m =>
      [("train_metric", SubMetric (BiLSTMModel.train_metric m));
       ("val_metric", SubMetric (BiLSTMModel.val_metric m));
       ("embedding", SubEmbedding (BiLSTMModel.embedding m));
       ("category_encoder", SubSequential (BiLSTMModel.category_encoder m));
       ("bilstm", SubLSTM (BiLSTMModel.bilstm m));
       ("classifier", SubLinear (BiLSTMModel.classifier m))]
  | MCustom m =>
      [("train_metric", SubMetric (CustomDistilBertModel.train_metric m));
       ("val_metric", SubMetric (CustomDistilBertModel.val_metric m));
       ("test_metric", SubMetric (CustomDistilBertModel.test_metric m));
       ("bert", SubBert (CustomDistilBertModel.bert m));
       ("distilbert_tail", SubSequential (CustomDistilBertModel.distilbert_tail m));
       ("classifier", SubLinear (CustomDistilBertModel.classifier m))]
  end.

Definition has_child {R} (name : string) (m : model R) : bool :=
  bool_decide (name ∈ map fst (named_children m)).

(** The shared head pattern: a [category_encoder] and a final linear
    [classifier] among the submodules. *)
Definition has_category_head {R} (m : model R) : bool :=
  has_child "category_encoder" m && has_child "classifier" m.

(** The classifier reads [n_text] text features followed by the outputs
    of the last linear layer of [enc]. *)
Definition classifier_reads {R} (n_text : nat) (enc : Sequential R)
    (cls : Linear R) : Prop :=
  exists l : Linear R,
    enc = [LLinear l; LReLU]
    /\ in_features cls = (n_text + out_features l)%nat.

(** ** A small concrete instance

    Rational scalars, an encoder of width 3 and a [create_config] that
    fills in defaults: enough to run the three classes on examples. *)
Module Toy.

#[global] Instance Q_scalar : Scalar Q := {|
  s_zero := 0%Q;
  s_one := 1%Q;
  s_add := Qplus;
  s_sub := Qminus;
  s_mul := Qmult;
  s_div := Qdiv;
  s_of_Z := inject_Z;
  s_relu x := if Qle_bool 0 x then x else 0%Q;
  s_ltb x y := negb (Qle_bool y x);
  s_eqb := Qeq_bool
|}.

Definition defaults : dict Q :=
  list_to_map
    [("learning_rate", VFloat (1 # 1000)%Q);
     ("vocab_size", VInt 0);
     ("embedding_dim", VInt 3);
     ("category_encoded_length", VInt 2);
     ("category_encoder_out", VInt 2);
     ("bilstm_hidden_dim", VInt 2)].

Definition pretrained : DistilBertModel Q :=
  {| bert_config :=
       {| vocab_size := 30522; dim := 3; seq_classif_dropout := (1 # 5)%Q |};
     bert_parameters :=
       [Param "embeddings.word_embeddings.weight"
              (Tensor [2; 3]%nat [1; 0; 0; 0; 1; 0]%Q) true;
        Param "transformer.layer.0.ffn.lin1.bias"
              (Tensor [3]%nat [0; 0; 0]%Q) true] |}.

Definition oracle : Oracle Q :=
  {| o_create_config c := Ok (c ∪ defaults);
     o_pretrained name :=
       if bool_decide (name = "distilbert-base-uncased") then Ok pretrained
       else Err (OSError "Can't load weights");
     o_bert b ids mask :=
       Ok (flat_map (fun i => [inject_Z i; 1; 0]%Q) (data ids));
     o_lstm l x :=
       replicate (numel (take 2 (shape x)) * (2 * lstm_hidden_size l)) 1%Q;
     o_cross_entropy x y := 0%Q;
     o_f1 ups := 0%Q;
     o_init rng i := inject_Z (Z.of_nat (rng + i));
     o_keep rng i := true |}.

Definition world : World Q :=
  {| w_training := true; w_grad_enabled := true; w_rng := 0; w_next_slot := 0;
     w_updates := []; w_class_updates := []; w_logged := []; w_hparams := [] |}.

(** A batch of two texts of two tokens, with two categorical features. *)
Definition text : BatchEncoding :=
  {| input_ids := Tensor [2; 2]%nat [101; 7; 101; 9]%Z;
     attention_mask := Tensor [2; 2]%nat [1; 1; 1; 1]%Z |}.

Definition categories : tensor Q := Tensor [2; 2]%nat [1; 0; 0; 1]%Q.

Definition token_ids : tensor Z := Tensor [2; 2]%nat [1; 0; 2; 1]%Z.

Definition targets : tensor Q := Tensor [2]%nat [(1 # 2); (3 # 2)]%Q.

(** The object [cls(config)] leaves, when the constructor returns. *)
Definition built {A} (r : result A * World Q) : option A :=
  match r.1 with Ok a => Some a | Err _ => None end.

Definition base (c : dict Q) : option (BaseModel.self Q) :=
  built (BaseModel.__init__ (T := RefTorch oracle) c world).

Definition bilstm (c : dict Q) : option (BiLSTMModel.self Q) :=
  built (BiLSTMModel.__init__ (T := RefTorch oracle) c world).

Definition custom (c : dict Q) : option (CustomDistilBertModel.self Q) :=
  built (CustomDistilBertModel.__init__ (T := RefTorch oracle) c world).
End Toy.

(** ** Compositional forms of the two trace properties

    [lets_through] and [follows] say the same as [propagates] and
    [fixed_sequence] from any starting trace, so that they compose along
    [bind]. *)
Definition all_returned (tr : list event) : Prop :=
  Forall (fun e => ev_error e = None) tr.

Definition lets_through {W A} (c : M (W * list event) A) : Prop :=
  forall s : W * list event,
    exists new : list event,
      (c s).2.2 = s.2 ++ new
      /\ match (c s).1 with
         | Ok _ => all_returned new
         | Err err =>
             exists pre o post,
               new = pre ++ Event o (Some err) :: post
               /\ all_returned pre
               /\ Forall is_exit post
         end.

Definition follows {W A} (keep : op -> bool) (script : list op)
    (c : M (W * list event) A) : Prop :=
  forall s : W * list event,
    exists new : list event,
      (c s).2.2 = s.2 ++ new
      /\ ops_of keep new `prefix_of` script
      /\ (error_of (c s).1 = None -> ops_of keep new = script).

Definition layer_op {R} (l : layer R) : op :=
  match l with
  | LLinear _ => op_Linear_call
  | LReLU => op_ReLU_call
  | LDropout _ => op_Dropout_call
  end.

(** ** What the constructors leave

    The facts about a constructed object that the properties below read:
    where its config and learning rate come from and which layers it
    holds.  The lemmas [*_init_made] derive them from a run of
    [__init__] that returned. *)

(** [c[key]] is a value Python counts as the integer [z]: the [int] [z]
    itself, or a [bool] ([True] is 1, [False] is 0). *)
Definition int_entry {R} (c : dict R) (key : string) (z : Z) : Prop :=
  exists v, c !! key = Some v /\ Ref.int_of v = Some z.

(** A layer as [nn.Linear(n_in, n_out)] makes it. *)
Definition made_Linear {R} (n_in n_out : nat) (l : Linear R) : Prop :=
  in_features l = n_in
  /\ out_features l = n_out
  /\ requires_grad (weight l) = true
  /\ requires_grad (bias l) = true.

Definition frozen {R} (b : DistilBertModel R) : DistilBertModel R :=
  bert_set_parameters b (map (set_requires_grad false) (bert_parameters b)).

(** The stored config when [create_config] gave [c] and the encoder's
    vocabulary has [n] entries. *)
Definition stored_config {R} {SR : Scalar R} (c : dict R) (v : pyval R) (n : Z)
  : dict R :=
  if py_eq v (VInt 0) then <["vocab_size" := VInt n]> c else c.

Definition BaseModel_made {R} {SR : Scalar R} (O : Oracle R) (cfg : dict R)
    (m : BaseModel.self R) : Prop :=
  exists (c : dict R) (b : DistilBertModel R) (v : pyval R)
         (l1 l2 : Linear R) (p : Dropout R) (n_in n_out : Z),
    o_create_config O cfg = Ok c
    /\ o_pretrained O "distilbert-base-uncased" = Ok b
    /\ c !! "learning_rate" = Some (BaseModel.learning_rate m)
    /\ c !! "vocab_size" = Some v
    /\ BaseModel.config m = stored_config c v (vocab_size (bert_config b))
    /\ BaseModel.bert m = frozen b
    /\ (0 <= dim (bert_config b))%Z
    /\ BaseModel.distilbert_tail m = [LLinear l1; LReLU; LDropout p]
    /\ made_Linear (Z.to_nat (dim (bert_config b)))
                   (Z.to_nat (dim (bert_config b))) l1
    /\ int_entry (BaseModel.config m) "category_encoded_length" n_in
    /\ (0 <= n_in)%Z
    /\ int_entry (BaseModel.config m) "category_encoder_out" n_out
    /\ (0 <= n_out)%Z
    /\ BaseModel.category_encoder m = [LLinear l2; LReLU]
    /\ made_Linear (Z.to_nat n_in) (Z.to_nat n_out) l2
    /\ made_Linear (Z.to_nat (dim (bert_config b)) + Z.to_nat n_out) 1
                   (BaseModel.classifier m).

Definition CustomDistilBertModel_made {R} {SR : Scalar R} (O : Oracle R)
    (cfg : dict R) (m : CustomDistilBertModel.self R) : Prop :=
  exists (c : dict R) (b : DistilBertModel R) (v : pyval R)
         (l1 : Linear R) (p : Dropout R),
    o_create_config O cfg = Ok c
    /\ o_pretrained O "distilbert-base-uncased" = Ok b
    /\ c !! "learning_rate" = Some (CustomDistilBertModel.learning_rate m)
    /\ c !! "vocab_size" = Some v
    /\ CustomDistilBertModel.config m
       = stored_config c v (vocab_size (bert_config b))
    /\ CustomDistilBertModel.num_classes m = 4%Z
    /\ CustomDistilBertModel.bert m = frozen b
    /\ (0 <= dim (bert_config b))%Z
    /\ CustomDistilBertModel.distilbert_tail m = [LLinear l1; LReLU; LDropout p]
    /\ made_Linear (Z.to_nat (dim (bert_config b)))
                   (Z.to_nat (dim (bert_config b))) l1
    /\ made_Linear (Z.to_nat (dim (bert_config b))) 4
                   (CustomDistilBertModel.classifier m).

Definition BiLSTMModel_made {R} {SR : Scalar R} (O : Oracle R) (cfg : dict R)
    (m : BiLSTMModel.self R) : Prop :=
  exists (c : dict R) (l2 : Linear R) (n_vocab n_emb n_in n_out n_hidden : Z),
    o_create_config O cfg = Ok c
    /\ BiLSTMModel.config m = c
    /\ c !! "learning_rate" = Some (BiLSTMModel.learning_rate m)
    /\ int_entry c "vocab_size" n_vocab
    /\ int_entry c "embedding_dim" n_emb
    /\ int_entry c "category_encoded_length" n_in
    /\ int_entry c "category_encoder_out" n_out
    /\ int_entry c "bilstm_hidden_dim" n_hidden
    /\ (0 <= n_vocab)%Z /\ (0 <= n_emb)%Z /\ (0 <= n_in)%Z
    /\ (0 <= n_out)%Z /\ (0 < n_hidden)%Z
    /\ num_embeddings (BiLSTMModel.embedding m) = Z.to_nat n_vocab
    /\ embedding_dim (BiLSTMModel.embedding m) = Z.to_nat n_emb
    /\ requires_grad (emb_weight (BiLSTMModel.embedding m)) = true
    /\ lstm_input_size (BiLSTMModel.bilstm m) = Z.to_nat n_emb
    /\ lstm_hidden_size (BiLSTMModel.bilstm m) = Z.to_nat n_hidden
    /\ lstm_bidirectional (BiLSTMModel.bilstm m) = true
    /\ Forall (fun p => requires_grad p = true)
         (lstm_parameters (BiLSTMModel.bilstm m))
    /\ BiLSTMModel.category_encoder m = [LLinear l2; LReLU]
    /\ made_Linear (Z.to_nat n_in) (Z.to_nat n_out) l2
    /\ made_Linear (2 * Z.to_nat n_hidden + Z.to_nat n_out) 1
                   (BiLSTMModel.classifier m).


(** The learning rates [torch.optim.Adam] accepts. *)
Definition valid_lr {R} {SR : Scalar R} (lr : pyval R) : bool :=
  match lr with
  | VFloat x => negb (s_ltb x s_zero)
  | VInt z => (0 <=? z)%Z
  | VBool _ => true
  | _ => false
  end.

(** The rule of the stored config: [stored] is what [create_config]
    returned for [cfg], with ["vocab_size"] set to the loaded encoder's
    vocabulary size when it compared equal to 0, and nothing else
    touched. *)
Definition vocab_size_rule {R} {SR : Scalar R} (O : Oracle R)
    (cfg stored : dict R) : Prop :=
  exists (c : dict R) (b : DistilBertModel R) (v : pyval R),
    o_create_config O cfg = Ok c
    /\ o_pretrained O "distilbert-base-uncased" = Ok b
    /\ c !! "vocab_size" = Some v
    /\ (py_eq v (VInt 0) = true ->
        stored = <["vocab_size" := VInt (vocab_size (bert_config b))]> c)
    /\ (py_eq v (VInt 0) = false -> stored = c)
    /\ (forall z, v = VInt z -> (py_eq v (VInt 0) = true <-> z = 0%Z))
    /\ (forall k, k ≠ "vocab_size" -> stored !! k = c !! k).

(** An Adam optimizer over exactly [params], with the learning rate the
    stored config has under ["learning_rate"]. *)
Definition adam_over {R} (params : list (param R)) (stored : dict R)
    (opt : Optimizer R) : Prop :=
  opt_class opt = "Adam"
  /\ opt_params opt = params
  /\ stored !! "learning_rate" = Some (opt_lr opt).

(** Every parameter of the encoder is handed to the optimizer although it
    does not require a gradient. *)
Definition optimizes_frozen {R} (b : DistilBertModel R) (opt : Optimizer R)
  : Prop :=
  Forall (fun p => p ∈ opt_params opt /\ requires_grad p = false)
         (bert_parameters b).

(** The loss of [BaseModel.training_step],
    [F.mse_loss(y_hat.view(-1), y.view(-1))], and the loss of
    [BaseModel.validation_step], [F.mse_loss(y_hat, y.unsqueeze(1))], as
    the two methods compute them. *)
Definition training_loss {R W} {T : Torch R W} (y_hat y : tensor R)
  : M W (tensor R) :=
  let* a := tensor_view y_hat [(-1)%Z] in
  let* b := tensor_view y [(-1)%Z] in
  F_mse_loss a b.

Definition validation_loss {R W} {T : Torch R W} (y_hat y : tensor R)
  : M W (tensor R) :=
  let* t := tensor_unsqueeze y 1 in
  F_mse_loss y_hat t.

(** *** The forward pass of BaseModel, row by row

    The description to compare [BaseModel.forward] with: the hidden state
    at sequence position 0 of every batch element is the pooled input;
    the classifier reads, for each batch element, the row of the pooled
    output followed by the row of the encoded categories. *)

(** The length of the feature dimension. *)
Definition width {A} (t : tensor A) : nat := default 0%nat (last (shape t)).

(** [h[:, 0]] of a [(bs, len, dim)] tensor [h]: for every batch element,
    the first [dim] elements of its [len * dim] block. *)
Definition hidden_at_0 {R} (bs len : nat) (h : tensor R) : tensor R :=
  Tensor [bs; width h]
    (concat (map (fun i => Ref.row (width h) 0
                             (Ref.row (len * width h) i (data h)))
                 (seq 0 bs))).

(** Row [i] of the result is the classifier's affine map of row [i] of
    [pooled] followed by row [i] of [categories_encoded]. *)
Definition classify_concatenated {R} {SR : Scalar R} (cls : Linear R) (bs : nat)
    (pooled categories_encoded : tensor R) : tensor R :=
  Tensor [bs; out_features cls]
    (concat
       (map (fun i =>
               Ref.affine cls
                 (Ref.row (width pooled) i (data pooled)
                  ++ Ref.row (width categories_encoded) i
                       (data categories_encoded)))
            (seq 0 bs))).

(** [out] is what the layer [cls] returns on a batch of [bs] rows of
    [in_features] numbers each. *)
Definition classifier_output {R} {SR : Scalar R} (cls : Linear R) (bs : nat)
    (out : tensor R) : Prop :=
  exists x : tensor R,
    shape x = [bs; in_features cls] /\ Ref.linear cls x = Ok out.

(** The scores [fwd] returns are not the same for every categorical
    input: there are two for which it returns different ones. *)
Definition depends_on_categories {R W} (fwd : tensor R -> M W (tensor R))
    (w : W) : Prop :=
  exists (c c' out out' : tensor R),
    (fwd c w).1 = Ok out /\ (fwd c' w).1 = Ok out' /\ out <> out'.

(** [forward] of the class has a parameter for the encoded text and one
    for the categorical features. *)
Definition takes_text_and_categories (c : model_class) : Prop :=
  EncodedText ∈ map snd (forward_inputs c)
  /\ CategoricalFeatures ∈ map snd (forward_inputs c).

Definition all_model_classes : list model_class :=
  [BaseModel_cls; BiLSTMModel_cls; CustomDistilBertModel_cls].

(** ** World effects of the methods (reference semantics) *)

(** Between two worlds only the random generator's counter may differ,
    and not even that in evaluation mode. *)
Definition only_rng_moves {R} (w w' : World R) : Prop :=
  w_training w' = w_training w
  /\ w_grad_enabled w' = w_grad_enabled w
  /\ w_next_slot w' = w_next_slot w
  /\ w_updates w' = w_updates w
  /\ w_class_updates w' = w_class_updates w
  /\ w_logged w' = w_logged w
  /\ w_hparams w' = w_hparams w
  /\ (w_training w = false -> w' = w).

Definition frames {R A} (c : M (World R) A) : Prop :=
  forall w : World R, only_rng_moves w (c w).2.

(** What a constructor run does to the world: the config is saved as
    hyperparameters, [n] metric accumulators are allocated, and nothing
    is logged or accumulated. *)
Definition constructed_world {R} (c : dict R) (n : nat) (w0 w1 : World R)
  : Prop :=
  w_hparams w1 = w_hparams w0 ++ [c]
  /\ w_next_slot w1 = (n + w_next_slot w0)%nat
  /\ w_logged w1 = w_logged w0
  /\ w_updates w1 = w_updates w0
  /\ w_class_updates w1 = w_class_updates w0
  /\ w_training w1 = w_training w0
  /\ w_grad_enabled w1 = w_grad_enabled w0.

(** [m] is the accumulator of class [c] in slot [s]. *)
Definition metric_is (c : metric_class) (s : nat) (m : Metric) : Prop :=
  metric_cls m = c /\ metric_slot m = s.


(** The hyperparameters saved last. *)
Definition saved_hparams {R} (w : World R) : option (dict R) := last (w_hparams w).

(** The hyperparameters were saved as [create_config] returned them,
    before the ["vocab_size"] guard: where the guard fires, [stored] holds
    the encoder's vocabulary size and the saved dict still holds [v]. *)
Definition saved_before_overwrite {R} {SR : Scalar R} (O : Oracle R)
    (cfg stored : dict R) (w1 : World R) : Prop :=
  exists (c : dict R) (b : DistilBertModel R) (v : pyval R),
    o_create_config O cfg = Ok c
    /\ o_pretrained O "distilbert-base-uncased" = Ok b
    /\ saved_hparams w1 = Some c
    /\ c !! "vocab_size" = Some v
    /\ (py_eq v (VInt 0) = true ->
        stored !! "vocab_size" = Some (VInt (vocab_size (bert_config b)))).

(** Calling metric [m] on a batch does not change what [m'] computes. *)
Definition unaffected_by_update {R} {SR : Scalar R} (O : Oracle R)
    (m m' : Metric) : Prop :=
  (forall p t w w',
      metric_call (Torch := RefTorch O) m p t w = (Ok tt, w') ->
      (metric_compute (Torch := RefTorch O) m' w').1
      = (metric_compute (Torch := RefTorch O) m' w).1)
  /\ (forall p t w w',
        metric_call_classes (Torch := RefTorch O) m p t w = (Ok tt, w') ->
        (metric_compute (Torch := RefTorch O) m' w').1
        = (metric_compute (Torch := RefTorch O) m' w).1).

(** The method computes [metric] and logs the value under [key], once,
    and does nothing else. *)
Definition logs_metric {R} {SR : Scalar R} (O : Oracle R) (key : string)
    (metric : Metric) (c : M (World R) unit) : Prop :=
  forall w : World R,
    exists v : tensor R,
      metric_compute (Torch := RefTorch O) metric w = (Ok v, w)
      /\ c w = (Ok tt, Ref.set_logged (w_logged w ++ [(key, v)]) w).

(** ** Edge behaviour and outcomes of the steps *)

Definition raises_IndexError {W A} (r : result A * W) : Prop :=
  exists what, r.1 = Err (IndexError what).

Definition raises_RuntimeError {W A} (r : result A * W) : Prop :=
  exists what, r.1 = Err (RuntimeError what).

(** The call raised: it did not return a value. *)
Definition raises {W A} (r : result A * W) : Prop := error_of r.1 <> None.

Definition raises_KeyError {W A} (key : string) (r : result A * W) : Prop :=
  r.1 = Err (KeyError key).

(** The dict has under [key] an [int] that is not negative (a [bool]
    counts as one: [True] is 1, [False] is 0); under a key of the second
    kind, one that is positive. *)
Definition size_entry {R} (c : dict R) (key : string) : Prop :=
  exists z : Z, int_entry c key z /\ (0 <= z)%Z.

Definition positive_entry {R} (c : dict R) (key : string) : Prop :=
  exists z : Z, int_entry c key z /\ (0 < z)%Z.

(** [create_config] gave, for [cfg], a dict with a learning rate, a
    vocabulary size, a non-negative [int] under each of [sizes] and a
    positive one under each of [positive]. *)
Definition config_has {R} (O : Oracle R) (cfg : dict R)
    (sizes positive : list string) : Prop :=
  exists c : dict R,
    o_create_config O cfg = Ok c
    /\ is_Some (c !! "learning_rate")
    /\ is_Some (c !! "vocab_size")
    /\ Forall (size_entry c) sizes
    /\ Forall (positive_entry c) positive.

(** [h[:, len - 1]] of a [(bs, len, dim)] tensor [h]: for every batch
    element, the last [dim] elements of its [len * dim] block. *)
Definition hidden_at_last {R} (bs len : nat) (h : tensor R) : tensor R :=
  Tensor [bs; width h]
    (concat (map (fun i => Ref.row (width h) (len - 1)
                             (Ref.row (len * width h) i (data h)))
                 (seq 0 bs))).

(** What a regression step leaves: the returned dict holds the mean
    squared error of [y_hat] against [y] under [key], the same value is
    logged once under [log_key], and [metric] received the one update
    [(y_hat, y.unsqueeze(1))]; nothing else is accumulated or saved. *)
Definition step_outcome {R} {SR : Scalar R} (key log_key : string)
    (metric : Metric) (y_hat y : tensor R) (bs : nat) (w : World R)
    (run : result (list (string * tensor R)) * World R) : Prop :=
  let loss :=
    Tensor [] [Ref.mean (Ref.squared_errors (data y_hat) (data y))] in
  run.1 = Ok [(key, loss)]
  /\ w_logged run.2 = w_logged w ++ [(log_key, loss)]
  /\ w_updates run.2
     = w_updates w ++ [(metric_slot metric, y_hat, Tensor [bs; 1%nat] (data y))]
  /\ w_class_updates run.2 = w_class_updates w
  /\ w_hparams run.2 = w_hparams w.

(** Row [i] of the result is the classifier's affine map of row [i] of
    [pooled]. *)
Definition classify_rows {R} {SR : Scalar R} (cls : Linear R) (bs : nat)
    (pooled : tensor R) : tensor R :=
  Tensor [bs; out_features cls]
    (concat (map (fun i => Ref.affine cls (Ref.row (width pooled) i (data pooled)))
                 (seq 0 bs))).

(** The step raised before anything was logged or accumulated. *)
Definition fails_cleanly {R A} (w : World R) (run : result A * World R) : Prop :=
  error_of run.1 <> None
  /\ w_logged run.2 = w_logged w
  /\ w_updates run.2 = w_updates w
  /\ w_class_updates run.2 = w_class_updates w.


(** ** Further example inputs *)

(** As [Toy.oracle], with a [create_config] that adds no defaults. *)
Definition passthrough_oracle : Oracle Q :=
  {| o_create_config c := Ok c;
     o_pretrained := o_pretrained Toy.oracle;
     o_bert := o_bert Toy.oracle;
     o_lstm := o_lstm Toy.oracle;
     o_cross_entropy := o_cross_entropy Toy.oracle;
     o_f1 := o_f1 Toy.oracle;
     o_init := o_init Toy.oracle;
     o_keep := o_keep Toy.oracle |}.

(** The categorical vectors of [Toy.categories], swapped between the two
    texts. *)
Definition swapped_categories : tensor Q := Tensor [2; 2]%nat [0; 1; 1; 0]%Q.

(** A batch of two texts without tokens. *)
Definition empty_text : BatchEncoding :=
  {| input_ids := Tensor [2; 0]%nat [];
     attention_mask := Tensor [2; 0]%nat [] |}.

Definition empty_token_ids : tensor Z := Tensor [2; 0]%nat [].

(** Stance labels for two texts; the second is not one of the four
    classes. *)
Definition labels_beyond_classes : tensor Z := Tensor [2]%nat [1; 4]%Z.

(** * Properties *)

(** ** The monad *)

Lemma bind_Ok_inv {W A B} (c : M W A) (k : A -> M W B) w b w' :
  bind c k w = (Ok b, w') ->
  exists a w1, c w = (Ok a, w1) /\ k a w1 = (Ok b, w').
Proof.
  unfold bind. destruct (c w) as [[a|e] w1]; [eauto | discriminate].
Qed.

Lemma bind_Ok {W A B} (c : M W A) (k : A -> M W B) w a w1 :
  c w = (Ok a, w1) -> bind c k w = k a w1.
Proof. unfold bind. intros ->. reflexivity. Qed.

Lemma bind_Err {W A B} (c : M W A) (k : A -> M W B) w e w1 :
  c w = (Err e, w1) -> bind c k w = (Err e, w1).
Proof. unfold bind. intros ->. reflexivity. Qed.

Lemma lift_Ok_inv {W A} (r : result A) (w w' : W) a :
  lift r w = (Ok a, w') -> r = Ok a /\ w' = w.
Proof. unfold lift. intros [= -> ->]. auto. Qed.

Lemma ret_Ok_inv {W A} (x a : A) (w w' : W) :
  ret x w = (Ok a, w') -> a = x /\ w' = w.
Proof. unfold ret. intros [= -> ->]. auto. Qed.

(** ** Exceptions pass through *)

Section LetsThrough.
Context {R W : Type} {SR : Scalar R} (T : Torch R W).

Lemma all_returned_app (a b : list event) :
  all_returned a -> all_returned b -> all_returned (a ++ b).
Proof. unfold all_returned. intros. apply Forall_app. auto. Qed.

Lemma lets_through_ret {A} (a : A) : lets_through (W := W) (ret a).
Proof.
  intros s. exists []. simpl. split; [by rewrite app_nil_r | constructor].
Qed.

Lemma lets_through_record {A} (o : op) (c : M W A) : lets_through (record o c).
Proof.
  intros [w tr]. unfold record. simpl.
  destruct (c w) as [[a|e] w']; simpl; eexists; (split; [reflexivity|]).
  - repeat constructor.
  - exists [], o, []. repeat split; constructor.
Qed.

Lemma lets_through_bind {A B} (c : M (W * list event) A)
    (k : A -> M (W * list event) B) :
  lets_through c -> (forall a, lets_through (k a)) -> lets_through (bind c k).
Proof.
  intros Hc Hk s. unfold bind.
  destruct (Hc s) as (new & Htr & Hr).
  destruct (c s) as [[a|e] s1]; simpl in *.
  - destruct (Hk a s1) as (new' & Htr' & Hr').
    exists (new ++ new'). rewrite Htr', Htr, app_assoc. split; [done|].
    destruct ((k a s1).1) as [b|e].
    + by apply all_returned_app.
    + destruct Hr' as (pre & o & post & -> & Hpre & Hpost).
      exists (new ++ pre), o, post. rewrite app_assoc.
      repeat split; [by apply all_returned_app | done].
  - exists new. auto.
Qed.

Lemma lets_through_if {A} (b : bool) (c1 c2 : M (W * list event) A) :
  lets_through c1 -> lets_through c2 -> lets_through (if b then c1 else c2).
Proof. by destruct b. Qed.

Lemma lets_through_with {A B} (o : op) (enter : M W B) (exit : B -> W -> W)
    (body : M (W * list event) A) :
  lets_through body ->
  lets_through (py_with (record o enter) (fun t => record_exit (exit t)) body).
Proof.
  intros Hb s. unfold py_with.
  destruct (lets_through_record o enter s) as (new & Htr & Hr).
  destruct (record o enter s) as [[t|e] s1]; simpl in *.
  - destruct (Hb s1) as (new' & Htr' & Hr').
    destruct (body s1) as [r s2]; simpl in *.
    exists (new ++ new' ++ [Event op_no_grad_exit None]).
    rewrite Htr', Htr, !app_assoc. split; [done|].
    destruct r as [a|e].
    + rewrite <- app_assoc. apply all_returned_app; [done|].
      apply all_returned_app; [done | repeat constructor].
    + destruct Hr' as (pre & o' & post & -> & Hpre & Hpost).
      exists (new ++ pre), o', (post ++ [Event op_no_grad_exit None]).
      split; [by rewrite <- !app_assoc|].
      split; [by apply all_returned_app|].
      apply Forall_app. split; [done | repeat constructor].
  - exists new. auto.
Qed.

Lemma first_failure_returned (tr rest : list event) :
  all_returned tr -> first_failure (tr ++ rest) = first_failure rest.
Proof.
  induction 1 as [|e tr He _ IH]; simpl; [done|]. by rewrite He.
Qed.

Lemma after_failure_returned (tr rest : list event) :
  all_returned tr -> after_failure (tr ++ rest) = after_failure rest.
Proof.
  induction 1 as [|e tr He _ IH]; simpl; [done|]. by rewrite He.
Qed.

Lemma lets_through_propagates {A} (c : M (W * list event) A) :
  lets_through c -> propagates c.
Proof.
  intros Hc w. unfold outcome_of, trace_of.
  destruct (Hc (w, [])) as (new & Htr & Hr). simpl in Htr. rewrite Htr.
  destruct ((c (w, [])).1) as [a|e]; simpl.
  - rewrite <- (app_nil_r new), first_failure_returned, after_failure_returned
      by done. simpl. split; [done | constructor].
  - destruct Hr as (pre & o & post & -> & Hpre & Hpost).
    rewrite first_failure_returned, after_failure_returned by done. by simpl.
Qed.
End LetsThrough.

Ltac lets_through_step :=
  first
    [ apply lets_through_ret
    | apply lets_through_record
    | apply lets_through_with
    | apply lets_through_if
    | apply lets_through_bind; [|intros ?] ].

Section MethodsLetThrough.
Context {R W : Type} {SR : Scalar R} (T : Torch R W).

Lemma lets_through_Sequential_call (s : Sequential R) (x : tensor R) :
  lets_through (Sequential_call (T := Recorded T) s x).
Proof.
  revert x. induction s as [|l s IH]; intros x; simpl.
  - apply lets_through_ret.
  - apply lets_through_bind; [|done].
    destruct l; simpl; apply lets_through_record.
Qed.

Ltac lets_through :=
  repeat first [ apply lets_through_Sequential_call | lets_through_step ].

Lemma BaseModel_forward_lets_through self x c :
  lets_through (BaseModel.forward (T := Recorded T) self x c).
Proof. unfold BaseModel.forward. simpl. lets_through. Qed.

Lemma BiLSTMModel_forward_lets_through self x c :
  lets_through (BiLSTMModel.forward (T := Recorded T) self x c).
Proof. unfold BiLSTMModel.forward. simpl. lets_through. Qed.

Lemma CustomDistilBertModel_forward_lets_through self x :
  lets_through (CustomDistilBertModel.forward (T := Recorded T) self x).
Proof. unfold CustomDistilBertModel.forward. simpl. lets_through. Qed.
End MethodsLetThrough.

(** C7.  No method of the three classes catches, transforms or recovers
    from an exception.  Run against any implementation of the called
    operations, with every call recorded: a method fails exactly when one
    of its calls raised, its exception is the first one raised, and after
    that exception the method makes no further call (the only operation
    that still runs is the library's exit of the [torch.no_grad()] block
    being left). *)
Theorem C7_exceptions_pass_through :
  forall (R W : Type) (SR : Scalar R) (T : Torch R W) (X : Type),
    (forall config, propagates (BaseModel.__init__ (T := Recorded T) config))
    /\ (forall self x c,
          propagates (BaseModel.forward (T := Recorded T) self x c))
    /\ (forall self (batch : _ * _ * _ * X) i,
          propagates (BaseModel.training_step (T := Recorded T) self batch i))
    /\ (forall self (outs : X),
          propagates (BaseModel.training_epoch_end (T := Recorded T) self outs))
    /\ (forall self (batch : _ * _ * _ * X) i,
          propagates (BaseModel.validation_step (T := Recorded T) self batch i))
    /\ (forall self (outs : X),
          propagates (BaseModel.validation_epoch_end (T := Recorded T) self outs))
    /\ (forall self,
          propagates (BaseModel.configure_optimizers (T := Recorded T) self))
    /\ (forall config, propagates (BiLSTMModel.__init__ (T := Recorded T) config))
    /\ (forall self x c,
          propagates (BiLSTMModel.forward (T := Recorded T) self x c))
    /\ (forall self (batch : _ * _ * _ * X) i,
          propagates (BiLSTMModel.training_step (T := Recorded T) self batch i))
    /\ (forall self (outs : X),
          propagates (BiLSTMModel.training_epoch_end (T := Recorded T) self outs))
    /\ (forall self (batch : _ * _ * _ * X) i,
          propagates (BiLSTMModel.validation_step (T := Recorded T) self batch i))
    /\ (forall self (outs : X),
          propagates (BiLSTMModel.validation_epoch_end (T := Recorded T) self outs))
    /\ (forall self,
          propagates (BiLSTMModel.configure_optimizers (T := Recorded T) self))
    /\ (forall config,
          propagates (CustomDistilBertModel.__init__ (T := Recorded T) config))
    /\ (forall self x,
          propagates (CustomDistilBertModel.forward (T := Recorded T) self x))
    /\ (forall self (batch : _ * _ * X) i,
          propagates
            (CustomDistilBertModel.training_step (T := Recorded T) self batch i))
    /\ (forall self (outs : X),
          propagates
            (CustomDistilBertModel.training_epoch_end (T := Recorded T) self outs))
    /\ (forall self (batch : _ * _ * X) i,
          propagates
            (CustomDistilBertModel.validation_step (T := Recorded T) self batch i))
    /\ (forall self (outs : X),
          propagates
            (CustomDistilBertModel.validation_epoch_end (T := Recorded T) self outs))
    /\ (forall self (batch : _ * _ * X) i,
          propagates
            (CustomDistilBertModel.test_step (T := Recorded T) self batch i))
    /\ (forall self (outs : X),
          propagates
            (CustomDistilBertModel.test_epoch_end (T := Recorded T) self outs))
    /\ (forall self,
          propagates
            (CustomDistilBertModel.configure_optimizers (T := Recorded T) self)).
Proof.
  intros R W SR T X.
  repeat match goal with |- _ /\ _ => split end;
    intros;
    repeat match goal with b : (_ * _)%type |- _ => destruct b end;
    apply lets_through_propagates;
    first
      [ apply BaseModel_forward_lets_through
      | apply BiLSTMModel_forward_lets_through
      | apply CustomDistilBertModel_forward_lets_through
      | idtac ];
    unfold BaseModel.__init__, BaseModel.training_step,
      BaseModel.training_epoch_end, BaseModel.validation_step,
      BaseModel.validation_epoch_end, BaseModel.configure_optimizers,
      BiLSTMModel.__init__, BiLSTMModel.training_step,
      BiLSTMModel.training_epoch_end, BiLSTMModel.validation_step,
      BiLSTMModel.validation_epoch_end, BiLSTMModel.configure_optimizers,
      CustomDistilBertModel.__init__, CustomDistilBertModel.training_step,
      CustomDistilBertModel.training_epoch_end,
      CustomDistilBertModel.validation_step,
      CustomDistilBertModel.validation_epoch_end,
      CustomDistilBertModel.test_step, CustomDistilBertModel.test_epoch_end,
      CustomDistilBertModel.configure_optimizers;
    simpl;
    repeat first
      [ apply BaseModel_forward_lets_through
      | apply BiLSTMModel_forward_lets_through
      | apply CustomDistilBertModel_forward_lets_through
      | lets_through_step ].
Qed.

(** What [propagates] tells apart: a method that swallowed the exception
    of a call in a handler would not have the property. *)
Example swallowing_handler_does_not_propagate :
  ~ propagates (W := World Q)
      (try_except
         (record op_F_mse_loss (raise (RuntimeError "boom")))
         (fun _ => ret (Tensor []%nat [0%Q]))).
Proof.
  intros H. destruct (H Toy.world) as [H1 _]. vm_compute in H1. discriminate H1.
Qed.

(** Run: categorical vectors of the wrong width make the first layer of
    [category_encoder] raise; [forward] fails with that exception, four
    calls after the encoder ran and before [torch.cat]. *)
Example shape_mismatch_surfaces :
  (fun m =>
     let run := BaseModel.forward (T := Recorded (RefTorch Toy.oracle)) m
                  Toy.text (Tensor [2; 3]%nat [1; 0; 0; 0; 1; 0]%Q) in
     (outcome_of run Toy.world, map ev_op (trace_of run Toy.world)))
    <$> Toy.base ∅
  = Some (Err (RuntimeError "mat1 and mat2 shapes cannot be multiplied"),
          [op_bert_call; op_tensor_select; op_Linear_call; op_ReLU_call;
           op_Dropout_call; op_Linear_call]).
Proof. vm_compute. reflexivity. Qed.

(** ** One sequence of operations *)

Section Follows.
Context {R W : Type} {SR : Scalar R} (T : Torch R W).

Lemma ops_of_app keep (a b : list event) :
  ops_of keep (a ++ b) = ops_of keep a ++ ops_of keep b.
Proof. unfold ops_of. by rewrite map_app, List.filter_app. Qed.

Lemma follows_ret {A} keep (a : A) : follows (W := W) keep [] (ret a).
Proof.
  intros s. exists []. simpl. rewrite app_nil_r. done.
Qed.

Lemma follows_record {A} keep (o : op) (c : M W A) :
  follows keep (ops_of keep [Event o None]) (record o c).
Proof.
  intros [w tr]. unfold record. simpl.
  destruct (c w) as [r w']. simpl. eexists. split; [reflexivity|].
  unfold ops_of. simpl. done.
Qed.

Lemma follows_bind {A B} keep s1 s2 (c : M (W * list event) A)
    (k : A -> M (W * list event) B) :
  follows keep s1 c -> (forall a, follows keep s2 (k a)) ->
  follows keep (s1 ++ s2) (bind c k).
Proof.
  intros Hc Hk s. unfold bind.
  destruct (Hc s) as (new & Htr & Hpre & Hall).
  destruct (c s) as [[a|e] s']; simpl in *.
  - destruct (Hk a s') as (new' & Htr' & Hpre' & Hall').
    exists (new ++ new'). rewrite Htr', Htr, app_assoc, ops_of_app.
    rewrite Hall by done. split; [done|]. split.
    + by apply prefix_app.
    + intros Hok. by rewrite Hall'.
  - exists new. split; [done|]. split; [by apply prefix_app_r | done].
Qed.

Lemma follows_if {A} keep script (b : bool) (c1 c2 : M (W * list event) A) :
  follows keep script c1 -> follows keep script c2 ->
  follows keep script (if b then c1 else c2).
Proof. by destruct b. Qed.

(** A [with] block around one call: enter, the call, exit, whether the
    call raised or not. *)
Lemma follows_with {A B} keep (o o' : op) (enter : M W B) (exit : B -> W -> W)
    (body : M W A) :
  follows keep
    (ops_of keep [Event o None; Event o' None; Event op_no_grad_exit None])
    (py_with (record o enter) (fun t => record_exit (exit t)) (record o' body)).
Proof.
  intros [w tr]. unfold py_with, record, record_exit. simpl.
  destruct (enter w) as [[t|e] w1]; simpl.
  - destruct (body w1) as [r w2]. simpl. eexists.
    split; [by rewrite <- !app_assoc|]. done.
  - eexists. split; [done|]. split; [|done].
    exists (ops_of keep [Event o' None; Event op_no_grad_exit None]).
    by rewrite <- ops_of_app.
Qed.

Lemma follows_Sequential_call keep (s : Sequential R) (x : tensor R) :
  follows keep (List.filter keep (map layer_op s))
    (Sequential_call (T := Recorded T) s x).
Proof.
  revert x. induction s as [|l s IH]; intros x.
  - apply follows_ret.
  - replace (List.filter keep (map layer_op (l :: s)))
      with (ops_of keep [Event (layer_op l) None]
            ++ List.filter keep (map layer_op s))
      by (unfold ops_of; simpl; by destruct (keep (layer_op l))).
    simpl Sequential_call. apply follows_bind; [|done].
    destruct l; simpl; apply follows_record.
Qed.

Lemma follows_runs_script {A} keep script (c : M (W * list event) A) :
  follows keep script c -> runs_script keep script c.
Proof.
  intros Hc w. unfold trace_of, outcome_of.
  destruct (Hc (w, [])) as (new & Htr & Hpre & Hall). simpl in Htr.
  rewrite Htr. done.
Qed.

Lemma follows_eq {A} keep script script' (c : M (W * list event) A) :
  follows keep script c -> script = script' -> follows keep script' c.
Proof. by intros H <-. Qed.

Lemma follows_fixed_sequence {A X} keep script
    (c : X -> M (W * list event) A) :
  (forall x, follows keep script (c x)) -> fixed_sequence keep c.
Proof.
  intros Hc. exists script. intros x w. unfold trace_of, outcome_of.
  destruct (Hc x (w, [])) as (new & Htr & Hpre & Hall). simpl in Htr.
  rewrite Htr. done.
Qed.
End Follows.

Ltac follows_step :=
  first
    [ apply follows_ret
    | apply follows_record
    | apply follows_with
    | apply follows_Sequential_call
    | apply follows_if
    | eapply follows_bind; [|intros ?] ].

(** ** The layers a constructor builds, whatever the library *)

Section Layers.
Context {R W : Type} {SR : Scalar R} {T : Torch R W}.

Lemma BaseModel_init_layers cfg w m w' :
  BaseModel.__init__ cfg w = (Ok m, w') ->
  exists l1 p l2,
    BaseModel.distilbert_tail m = [LLinear l1; LReLU; LDropout p]
    /\ BaseModel.category_encoder m = [LLinear l2; LReLU].
Proof.
  unfold BaseModel.__init__. intros H.
  repeat (apply bind_Ok_inv in H as (? & ? & _ & H)).
  apply ret_Ok_inv in H as [-> _]. simpl. eauto.
Qed.

Lemma BiLSTMModel_init_layers cfg w m w' :
  BiLSTMModel.__init__ cfg w = (Ok m, w') ->
  exists l2, BiLSTMModel.category_encoder m = [LLinear l2; LReLU].
Proof.
  unfold BiLSTMModel.__init__. intros H.
  repeat (apply bind_Ok_inv in H as (? & ? & _ & H)).
  apply ret_Ok_inv in H as [-> _]. simpl. eauto.
Qed.

Lemma CustomDistilBertModel_init_layers cfg w m w' :
  CustomDistilBertModel.__init__ cfg w = (Ok m, w') ->
  exists l1 p,
    CustomDistilBertModel.distilbert_tail m = [LLinear l1; LReLU; LDropout p].
Proof.
  unfold CustomDistilBertModel.__init__. intros H.
  repeat (apply bind_Ok_inv in H as (? & ? & _ & H)).
  apply ret_Ok_inv in H as [-> _]. simpl. eauto.
Qed.
End Layers.

(** C5, as the code has it.  The forward pass of each class is
    straight-line.  For any model object the sequence of called
    operations is the same for every input and every world (cut short
    where a call raises); and for the models the constructors build it is
    one sequence per class, written out in [*_forward_script], whatever
    the configuration the model was constructed from: the layers of the
    [nn.Sequential] heads do not depend on the config.  The construction
    of a [BiLSTMModel] is straight-line as well.  The constructors of
    [BaseModel] and [CustomDistilBertModel] have one branch on a
    configuration value, the guard [if self.config["vocab_size"] == 0]
    around a [dict] write: with that write left out of the trace, their
    sequence of operations is the same for every config. *)
Theorem C5_straight_line_but_vocab_guard :
  forall (R W W0 : Type) (SR : Scalar R) (T : Torch R W) (T0 : Torch R W0),
    (forall self,
        fixed_sequence every_op
          (fun a : BatchEncoding * tensor R =>
             BaseModel.forward (T := Recorded T) self a.1 a.2))
    /\ (forall self,
          fixed_sequence every_op
            (fun a : tensor Z * tensor R =>
               BiLSTMModel.forward (T := Recorded T) self a.1 a.2))
    /\ (forall self,
          fixed_sequence every_op
            (fun x : BatchEncoding =>
               CustomDistilBertModel.forward (T := Recorded T) self x))
    /\ fixed_sequence every_op (BiLSTMModel.__init__ (T := Recorded T))
    /\ fixed_sequence not_setitem (BaseModel.__init__ (T := Recorded T))
    /\ fixed_sequence not_setitem
         (CustomDistilBertModel.__init__ (T := Recorded T))
    /\ (forall cfg w0 m w1 text cats,
          BaseModel.__init__ (T := T0) cfg w0 = (Ok m, w1) ->
          runs_script every_op BaseModel_forward_script
            (BaseModel.forward (T := Recorded T) m text cats))
    /\ (forall cfg w0 m w1 ids cats,
          BiLSTMModel.__init__ (T := T0) cfg w0 = (Ok m, w1) ->
          runs_script every_op BiLSTMModel_forward_script
            (BiLSTMModel.forward (T := Recorded T) m ids cats))
    /\ (forall cfg w0 m w1 text,
          CustomDistilBertModel.__init__ (T := T0) cfg w0 = (Ok m, w1) ->
          runs_script every_op CustomDistilBertModel_forward_script
            (CustomDistilBertModel.forward (T := Recorded T) m text))
    /\ (forall cfg,
          runs_script every_op BiLSTMModel_init_script
            (BiLSTMModel.__init__ (T := Recorded T) cfg))
    /\ (forall cfg,
          runs_script not_setitem BaseModel_init_script
            (BaseModel.__init__ (T := Recorded T) cfg))
    /\ (forall cfg,
          runs_script not_setitem CustomDistilBertModel_init_script
            (CustomDistilBertModel.__init__ (T := Recorded T) cfg)).
Proof.
  intros R W W0 SR T T0.
  do 6 (split;
        [intros;
         eapply follows_fixed_sequence;
         intros ?;
         unfold BaseModel.forward, BiLSTMModel.forward,
           CustomDistilBertModel.forward, BaseModel.__init__,
           BiLSTMModel.__init__, CustomDistilBertModel.__init__;
         simpl;
         repeat follows_step|]).
  split; [|split; [|split; [|split; [|split]]]].
  - intros cfg w0 m w1 text cats Hinit.
    apply BaseModel_init_layers in Hinit as (l1 & p & l2 & Ht & He).
    apply follows_runs_script.
    eapply follows_eq.
    { unfold BaseModel.forward. simpl. repeat follows_step. }
    rewrite Ht, He. reflexivity.
  - intros cfg w0 m w1 ids cats Hinit.
    apply BiLSTMModel_init_layers in Hinit as (l2 & He).
    apply follows_runs_script.
    eapply follows_eq.
    { unfold BiLSTMModel.forward. simpl. repeat follows_step. }
    rewrite He. reflexivity.
  - intros cfg w0 m w1 text Hinit.
    apply CustomDistilBertModel_init_layers in Hinit as (l1 & p & Ht).
    apply follows_runs_script.
    eapply follows_eq.
    { unfold CustomDistilBertModel.forward. simpl. repeat follows_step. }
    rewrite Ht. reflexivity.
  - intros cfg. apply follows_runs_script. eapply follows_eq.
    { unfold BiLSTMModel.__init__. simpl. repeat follows_step. }
    reflexivity.
  - intros cfg. apply follows_runs_script. eapply follows_eq.
    { unfold BaseModel.__init__. simpl. repeat follows_step. }
    reflexivity.
  - intros cfg. apply follows_runs_script. eapply follows_eq.
    { unfold CustomDistilBertModel.__init__. simpl. repeat follows_step. }
    reflexivity.
Qed.

Lemma C5_witness :
  exists mb wb ml wl mc wc,
    BaseModel.__init__ (T := RefTorch Toy.oracle) ∅ Toy.world = (Ok mb, wb)
    /\ BiLSTMModel.__init__ (T := RefTorch Toy.oracle)
         {[ "vocab_size" := VInt 5 ]} Toy.world = (Ok ml, wl)
    /\ CustomDistilBertModel.__init__ (T := RefTorch Toy.oracle) ∅ Toy.world
       = (Ok mc, wc)
    /\ runs_script every_op BaseModel_forward_script
         (BaseModel.forward (T := Recorded (RefTorch Toy.oracle))
            mb Toy.text Toy.categories)
    /\ runs_script every_op BiLSTMModel_forward_script
         (BiLSTMModel.forward (T := Recorded (RefTorch Toy.oracle))
            ml Toy.token_ids Toy.categories)
    /\ runs_script every_op CustomDistilBertModel_forward_script
         (CustomDistilBertModel.forward (T := Recorded (RefTorch Toy.oracle))
            mc Toy.text).
Proof.
  destruct (@C5_straight_line_but_vocab_guard Q (World Q) (World Q)
              Toy.Q_scalar (RefTorch Toy.oracle) (RefTorch Toy.oracle))
    as (_ & _ & _ & _ & _ & _ & HB & HL & HC & _).
  eexists _, _, _, _, _, _.
  split; [vm_compute; reflexivity|].
  split; [vm_compute; reflexivity|].
  split; [vm_compute; reflexivity|].
  split; [|split].
  - eapply (HB ∅ Toy.world). vm_compute. reflexivity.
  - eapply (HL {[ "vocab_size" := VInt 5 ]} Toy.world). vm_compute. reflexivity.
  - eapply (HC ∅ Toy.world). vm_compute. reflexivity.
Defined.

(** C5 as stated fails: two configs that differ in ["vocab_size"] make
    the constructor of [BaseModel] call different sequences of
    operations, both runs returning. *)
Lemma C5_counterexample :
  ~ fixed_sequence every_op
      (BaseModel.__init__ (T := Recorded (RefTorch Toy.oracle))).
Proof.
  intros [script Hscript].
  destruct (Hscript ∅ Toy.world) as [_ H0].
  destruct (Hscript {[ "vocab_size" := VInt 5 ]} Toy.world) as [_ H5].
  specialize (H0 ltac:(vm_compute; reflexivity)).
  specialize (H5 ltac:(vm_compute; reflexivity)).
  rewrite <- H5 in H0. vm_compute in H0. discriminate H0.
Qed.

(** ** Reference semantics: what the constructors leave *)

Ltac inv_lift H := apply lift_Ok_inv in H as [H ->].

Section Made.
Context {R : Type} {SR : Scalar R} (O : Oracle R).

Lemma getitem_inv (d : dict R) k v : Ref.getitem d k = Ok v -> d !! k = Some v.
Proof. unfold Ref.getitem. by destruct (d !! k); intros [= ->]. Qed.

Lemma as_size_inv (v : pyval R) n :
  Ref.as_size v = Ok n ->
  exists z, Ref.int_of v = Some z /\ (0 <= z < 2 ^ 63)%Z /\ n = Z.to_nat z.
Proof.
  unfold Ref.as_size. destruct (Ref.int_of v) as [z|]; [|discriminate].
  destruct (Z.ltb_spec z 0); [discriminate|].
  destruct (Z.leb_spec (2 ^ 63) z); [discriminate|].
  intros [= <-]. exists z. repeat split; done.
Qed.

Lemma as_size_VInt (z : Z) :
  (0 <= z < 2 ^ 63)%Z -> Ref.as_size (R := R) (VInt z) = Ok (Z.to_nat z).
Proof.
  intros [H0 H1]. unfold Ref.as_size. simpl.
  destruct (Z.ltb_spec z 0); [lia|].
  destruct (Z.leb_spec (2 ^ 63) z); [lia|]. reflexivity.
Qed.

Lemma int_of_VInt (z y : Z) : Ref.int_of (R := R) (VInt z) = Some y -> y = z.
Proof. by intros [= <-]. Qed.

Lemma int_entry_VInt (c : dict R) key (z y : Z) :
  int_entry c key z -> c !! key = Some (VInt y) -> z = y.
Proof. intros (v & Hv & Hz) Hy. rewrite Hy in Hv. by injection Hv as <-; injection Hz as <-. Qed.

Lemma add_int (h : Z) (v r : pyval R) (y : Z) :
  Ref.int_of v = Some y -> Ref.add (VInt h) v = Ok r -> r = VInt (h + y).
Proof. destruct v; simpl; intros [= <-]; by intros [= <-]. Qed.

Lemma mul_int (v r : pyval R) (y k : Z) :
  Ref.int_of v = Some y -> Ref.mul v (VInt k) = Ok r -> r = VInt (y * k).
Proof. destruct v; simpl; intros [= <-]; by intros [= <-]. Qed.

Lemma new_param_inv name s w p w' :
  Ref.new_param O name s w = (Ok p, w') -> requires_grad p = true.
Proof. unfold Ref.new_param. by intros [= <- _]. Qed.

Lemma new_params_inv specs w ps w' :
  Ref.new_params O specs w = (Ok ps, w') ->
  Forall (fun p => requires_grad p = true) ps.
Proof.
  revert w ps w'.
  induction specs as [|[name s] specs IH]; intros w ps w'; simpl.
  - intros [= <- _]. constructor.
  - intros H.
    apply bind_Ok_inv in H as (p & w1 & Hp & H).
    apply bind_Ok_inv in H as (ps' & w2 & Hps & H).
    apply ret_Ok_inv in H as [-> _].
    constructor; [eapply new_param_inv | eapply IH]; eassumption.
Qed.

Lemma Linear_new_inv a b w l w' :
  Ref.Linear_new O a b w = (Ok l, w') ->
  exists n_in n_out,
    Ref.as_size a = Ok n_in /\ Ref.as_size b = Ok n_out
    /\ made_Linear n_in n_out l.
Proof.
  unfold Ref.Linear_new. intros H.
  apply bind_Ok_inv in H as (n_in & w1 & H1 & H).
  apply bind_Ok_inv in H as (n_out & w2 & H2 & H).
  apply bind_Ok_inv in H as (pw & w3 & H3 & H).
  apply bind_Ok_inv in H as (pb & w4 & H4 & H).
  apply ret_Ok_inv in H as [-> _].
  apply lift_Ok_inv in H1 as [H1 _]. apply lift_Ok_inv in H2 as [H2 _].
  exists n_in, n_out. repeat split; try done; simpl;
    eapply new_param_inv; eassumption.
Qed.

Lemma Linear_new_VInt a b w l w' :
  Ref.Linear_new O a b w = (Ok l, w') ->
  exists x y, Ref.int_of a = Some x /\ Ref.int_of b = Some y
              /\ (0 <= x)%Z /\ (0 <= y)%Z
              /\ made_Linear (Z.to_nat x) (Z.to_nat y) l.
Proof.
  intros H. apply Linear_new_inv in H as (n_in & n_out & Ha & Hb & Hl).
  apply as_size_inv in Ha as (x & Ha & [Hx _] & ->).
  apply as_size_inv in Hb as (y & Hb & [Hy _] & ->).
  exists x, y. done.
Qed.

Lemma Embedding_new_VInt a b w e w' :
  Ref.Embedding_new O a b w = (Ok e, w') ->
  exists x y, Ref.int_of a = Some x /\ Ref.int_of b = Some y
              /\ (0 <= x)%Z /\ (0 <= y)%Z
              /\ num_embeddings e = Z.to_nat x
              /\ embedding_dim e = Z.to_nat y
              /\ requires_grad (emb_weight e) = true.
Proof.
  unfold Ref.Embedding_new. intros H.
  apply bind_Ok_inv in H as (n & w1 & Hn & H). inv_lift Hn.
  apply bind_Ok_inv in H as (d & w2 & Hd & H). inv_lift Hd.
  apply bind_Ok_inv in H as (p & w3 & Hp & H).
  apply ret_Ok_inv in H as [-> _].
  apply as_size_inv in Hn as (x & Hn & [Hx _] & ->).
  apply as_size_inv in Hd as (y & Hd & [Hy _] & ->).
  exists x, y. simpl. repeat split; try done.
  eapply new_param_inv; eassumption.
Qed.

Lemma LSTM_new_VInt a b bi bf w l w' :
  Ref.LSTM_new O a b bi bf w = (Ok l, w') ->
  exists x y, Ref.int_of a = Some x /\ Ref.int_of b = Some y
              /\ (0 <= x)%Z /\ (0 < y)%Z
              /\ lstm_input_size l = Z.to_nat x
              /\ lstm_hidden_size l = Z.to_nat y
              /\ lstm_bidirectional l = bi
              /\ Forall (fun p => requires_grad p = true) (lstm_parameters l).
Proof.
  unfold Ref.LSTM_new. intros H.
  apply bind_Ok_inv in H as (n & w1 & Hn & H). inv_lift Hn.
  apply bind_Ok_inv in H as (h & w2 & Hh & H). inv_lift Hh.
  apply bind_Ok_inv in H as (u & w2' & Hpos & H). inv_lift Hpos.
  apply bind_Ok_inv in H as (ps & w3 & Hps & H).
  apply ret_Ok_inv in H as [-> _].
  apply as_size_inv in Hn as (x & Hn & [Hx _] & ->).
  apply as_size_inv in Hh as (y & Hh & [Hy _] & ->).
  destruct (Nat.eqb_spec (Z.to_nat y) 0) as [|Hy0]; [discriminate|].
  exists x, y. simpl. repeat split; try done; [lia|].
  eapply new_params_inv; eassumption.
Qed.

Lemma BaseModel_init_made cfg w0 m w1 :
  BaseModel.__init__ (T := RefTorch O) cfg w0 = (Ok m, w1) ->
  BaseModel_made O cfg m.
Proof.
  intros H. unfold BaseModel.__init__ in H. simpl in H.
  apply bind_Ok_inv in H as (u & wa & _ & H).
  apply bind_Ok_inv in H as (c & wb & Hc & H). inv_lift Hc.
  apply bind_Ok_inv in H as (u' & wc & _ & H).
  apply bind_Ok_inv in H as (lr & wd & Hlr & H). inv_lift Hlr.
  apply bind_Ok_inv in H as (m1 & we & _ & H).
  apply bind_Ok_inv in H as (m2 & wf & _ & H).
  apply bind_Ok_inv in H as (m3 & wg & _ & H).
  apply bind_Ok_inv in H as (b & wh & Hb & H). inv_lift Hb.
  apply bind_Ok_inv in H as (v & wi & Hv & H). inv_lift Hv.
  apply bind_Ok_inv in H as (c' & wj & Hc' & H).
  assert (c' = stored_config c v (vocab_size (bert_config b))) as ->.
  { unfold stored_config. destruct (py_eq v (VInt 0));
      by apply ret_Ok_inv in Hc' as [-> _]. }
  clear Hc'.
  apply bind_Ok_inv in H as (l1 & wk & Hl1 & H).
  apply bind_Ok_inv in H as (p & wl & _ & H).
  apply bind_Ok_inv in H as (n_in & wm & Hin & H). inv_lift Hin.
  apply bind_Ok_inv in H as (n_out & wn & Hout & H). inv_lift Hout.
  apply bind_Ok_inv in H as (l2 & wo & Hl2 & H).
  apply bind_Ok_inv in H as (n_out' & wp & Hout' & H). inv_lift Hout'.
  apply bind_Ok_inv in H as (n & wq & Hn & H). inv_lift Hn.
  apply bind_Ok_inv in H as (cl & wr & Hcl & H).
  apply ret_Ok_inv in H as [-> _].
  apply getitem_inv in Hlr, Hv, Hin, Hout, Hout'.
  apply Linear_new_VInt in Hl1 as (x & y & [= <-] & [= <-] & Hx & _ & Hl1).
  apply Linear_new_VInt in Hl2 as (x & y & Hxi & Hyi & Hx' & Hy' & Hl2).
  rewrite Hout in Hout'. injection Hout' as <-.
  apply (add_int _ _ Hyi) in Hn as ->.
  apply Linear_new_VInt in Hcl as (x' & y' & [= <-] & [= <-] & Hx'' & _ & Hcl).
  exists c, b, v, l1, l2, p, x, y. simpl.
  unfold hidden_size in *.
  rewrite Z2Nat.inj_add in Hcl by done.
  repeat first [done | split | by eexists].
Qed.

Lemma CustomDistilBertModel_init_made cfg w0 m w1 :
  CustomDistilBertModel.__init__ (T := RefTorch O) cfg w0 = (Ok m, w1) ->
  CustomDistilBertModel_made O cfg m.
Proof.
  intros H. unfold CustomDistilBertModel.__init__ in H. simpl in H.
  apply bind_Ok_inv in H as (u & wa & _ & H).
  apply bind_Ok_inv in H as (c & wb & Hc & H). inv_lift Hc.
  apply bind_Ok_inv in H as (u' & wc & _ & H).
  apply bind_Ok_inv in H as (lr & wd & Hlr & H). inv_lift Hlr.
  apply bind_Ok_inv in H as (m1 & we & _ & H).
  apply bind_Ok_inv in H as (m2 & wf & _ & H).
  apply bind_Ok_inv in H as (m3 & wg & _ & H).
  apply bind_Ok_inv in H as (b & wh & Hb & H). inv_lift Hb.
  apply bind_Ok_inv in H as (v & wi & Hv & H). inv_lift Hv.
  apply bind_Ok_inv in H as (c' & wj & Hc' & H).
  assert (c' = stored_config c v (vocab_size (bert_config b))) as ->.
  { unfold stored_config. destruct (py_eq v (VInt 0));
      by apply ret_Ok_inv in Hc' as [-> _]. }
  clear Hc'.
  apply bind_Ok_inv in H as (l1 & wk & Hl1 & H).
  apply bind_Ok_inv in H as (p & wl & _ & H).
  apply bind_Ok_inv in H as (cl & wr & Hcl & H).
  apply ret_Ok_inv in H as [-> _].
  apply getitem_inv in Hlr, Hv.
  apply Linear_new_VInt in Hl1 as (x & y & [= <-] & [= <-] & Hx & _ & Hl1).
  apply Linear_new_VInt in Hcl as (x' & y' & [= <-] & [= <-] & _ & _ & Hcl).
  exists c, b, v, l1, p. simpl.
  repeat first [done | split].
Qed.

Lemma BiLSTMModel_init_made cfg w0 m w1 :
  BiLSTMModel.__init__ (T := RefTorch O) cfg w0 = (Ok m, w1) ->
  BiLSTMModel_made O cfg m.
Proof.
  intros H. unfold BiLSTMModel.__init__ in H. simpl in H.
  apply bind_Ok_inv in H as (u & wa & _ & H).
  apply bind_Ok_inv in H as (c & wb & Hc & H). inv_lift Hc.
  apply bind_Ok_inv in H as (u' & wc & _ & H).
  apply bind_Ok_inv in H as (lr & wd & Hlr & H). inv_lift Hlr.
  apply bind_Ok_inv in H as (m1 & we & _ & H).
  apply bind_Ok_inv in H as (m2 & wf & _ & H).
  apply bind_Ok_inv in H as (nv & wg & Hnv & H). inv_lift Hnv.
  apply bind_Ok_inv in H as (ne & wh & Hne & H). inv_lift Hne.
  apply bind_Ok_inv in H as (emb & wi & Hemb & H).
  apply bind_Ok_inv in H as (n_in & wj & Hin & H). inv_lift Hin.
  apply bind_Ok_inv in H as (n_out & wk & Hout & H). inv_lift Hout.
  apply bind_Ok_inv in H as (l2 & wl & Hl2 & H).
  apply bind_Ok_inv in H as (ne' & wm & Hne' & H). inv_lift Hne'.
  apply bind_Ok_inv in H as (nh & wn & Hnh & H). inv_lift Hnh.
  apply bind_Ok_inv in H as (lstm & wo & Hlstm & H).
  apply bind_Ok_inv in H as (nh' & wp & Hnh' & H). inv_lift Hnh'.
  apply bind_Ok_inv in H as (n2 & wq & Hn2 & H). inv_lift Hn2.
  apply bind_Ok_inv in H as (n_out' & wr & Hout' & H). inv_lift Hout'.
  apply bind_Ok_inv in H as (n & ws & Hn & H). inv_lift Hn.
  apply bind_Ok_inv in H as (cl & wt & Hcl & H).
  apply ret_Ok_inv in H as [-> _].
  apply getitem_inv in Hlr, Hnv, Hne, Hin, Hout, Hne', Hnh, Hnh', Hout'.
  rewrite Hne in Hne'. injection Hne' as <-.
  rewrite Hnh in Hnh'. injection Hnh' as <-.
  rewrite Hout in Hout'. injection Hout' as <-.
  apply Linear_new_VInt in Hl2 as (x & y & Hxi & Hyi & Hx & Hy & Hl2).
  apply Embedding_new_VInt in Hemb
    as (xv & xe & Hxvi & Hxei & Hxv & Hxe & Hemb1 & Hemb2 & Hemb3).
  apply LSTM_new_VInt in Hlstm
    as (xe' & xh & Hxei' & Hxhi & _ & Hxh & Hl1 & Hl2' & Hl3 & Hl4).
  rewrite Hxei in Hxei'. injection Hxei' as <-.
  apply (mul_int _ _ Hxhi) in Hn2 as ->.
  apply (add_int _ _ Hyi) in Hn as ->.
  apply Linear_new_VInt in Hcl as (x' & y' & [= <-] & [= <-] & _ & _ & Hcl).
  exists c, l2, xv, xe, x, y, xh. simpl.
  replace (Z.to_nat (xh * 2 + y)) with (2 * Z.to_nat xh + Z.to_nat y)%nat
    in Hcl by lia.
  repeat first [done | split | by eexists].
Qed.
End Made.

(** ** Frozen encoder, trainable head *)

Section Flags.
Context {R : Type} {SR : Scalar R}.

Lemma frozen_parameters (b : DistilBertModel R) :
  Forall (fun p => requires_grad p = false) (bert_parameters (frozen b)).
Proof.
  unfold frozen. simpl. apply Forall_forall. intros p Hp.
  apply list_elem_of_fmap in Hp as (q & -> & _). reflexivity.
Qed.

Lemma stored_config_other (c : dict R) v n k :
  k ≠ "vocab_size" -> stored_config c v n !! k = c !! k.
Proof.
  intros Hk. unfold stored_config. destruct (py_eq v (VInt 0)); [|done].
  by rewrite lookup_insert_ne.
Qed.

Lemma py_eq_VInt_0 (z : Z) : py_eq (R := R) (VInt z) (VInt 0) = true <-> z = 0%Z.
Proof. simpl. apply Z.eqb_eq. Qed.
End Flags.

(** C1.  After [BaseModel(config)] or [CustomDistilBertModel(config)]
    has returned, every parameter of the pretrained encoder [self.bert]
    has [requires_grad = False], and every parameter of the head
    ([distilbert_tail], [category_encoder] where the class has one, and
    [classifier]) has [requires_grad = True]. *)
Theorem C1_encoder_frozen_head_trainable :
  forall (R : Type) (SR : Scalar R) (O : Oracle R),
    (forall cfg w0 m w1,
        BaseModel.__init__ (T := RefTorch O) cfg w0 = (Ok m, w1) ->
        Forall (fun p => requires_grad p = false)
          (bert_parameters (BaseModel.bert m))
        /\ Forall (fun p => requires_grad p = true)
             (Sequential_parameters (BaseModel.distilbert_tail m)
              ++ Sequential_parameters (BaseModel.category_encoder m)
              ++ [weight (BaseModel.classifier m);
                  bias (BaseModel.classifier m)]))
    /\ (forall cfg w0 m w1,
          CustomDistilBertModel.__init__ (T := RefTorch O) cfg w0 = (Ok m, w1) ->
          Forall (fun p => requires_grad p = false)
            (bert_parameters (CustomDistilBertModel.bert m))
          /\ Forall (fun p => requires_grad p = true)
               (Sequential_parameters (CustomDistilBertModel.distilbert_tail m)
                ++ [weight (CustomDistilBertModel.classifier m);
                    bias (CustomDistilBertModel.classifier m)])).
Proof.
  intros R SR O. split; intros cfg w0 m w1 H.
  - apply BaseModel_init_made in H
      as (c & b & v & l1 & l2 & p & n_in & n_out & _ & _ & _ & _ & _ & Hb & _
          & Ht & Hl1 & _ & _ & _ & _ & He & Hl2 & Hc).
    rewrite Hb, Ht, He. split; [apply frozen_parameters|].
    unfold Sequential_parameters. simpl.
    destruct Hl1 as (_ & _ & ? & ?), Hl2 as (_ & _ & ? & ?),
      Hc as (_ & _ & ? & ?).
    repeat constructor; done.
  - apply CustomDistilBertModel_init_made in H
      as (c & b & v & l1 & p & _ & _ & _ & _ & _ & _ & Hb & _ & Ht & Hl1 & Hc).
    rewrite Hb, Ht. split; [apply frozen_parameters|].
    unfold Sequential_parameters. simpl.
    destruct Hl1 as (_ & _ & ? & ?), Hc as (_ & _ & ? & ?).
    repeat constructor; done.
Qed.

Lemma C1_witness :
  exists mb wb mc wc,
    BaseModel.__init__ (T := RefTorch Toy.oracle) ∅ Toy.world = (Ok mb, wb)
    /\ CustomDistilBertModel.__init__ (T := RefTorch Toy.oracle) ∅ Toy.world
       = (Ok mc, wc)
    /\ (Forall (fun p => requires_grad p = false)
          (bert_parameters (BaseModel.bert mb))
        /\ Forall (fun p => requires_grad p = true)
             (Sequential_parameters (BaseModel.distilbert_tail mb)
              ++ Sequential_parameters (BaseModel.category_encoder mb)
              ++ [weight (BaseModel.classifier mb);
                  bias (BaseModel.classifier mb)]))
    /\ (Forall (fun p => requires_grad p = false)
          (bert_parameters (CustomDistilBertModel.bert mc))
        /\ Forall (fun p => requires_grad p = true)
             (Sequential_parameters (CustomDistilBertModel.distilbert_tail mc)
              ++ [weight (CustomDistilBertModel.classifier mc);
                  bias (CustomDistilBertModel.classifier mc)])).
Proof.
  destruct (@C1_encoder_frozen_head_trainable Q Toy.Q_scalar Toy.oracle)
    as [HB HC].
  eexists _, _, _, _.
  split; [vm_compute; reflexivity|].
  split; [vm_compute; reflexivity|].
  split.
  - eapply (HB ∅ Toy.world). vm_compute. reflexivity.
  - eapply (HC ∅ Toy.world). vm_compute. reflexivity.
Defined.

(** ** The stored config *)

(** C10.  In the constructors of [BaseModel] and
    [CustomDistilBertModel], with [c] the dict [create_config] returned
    and [b] the loaded encoder: the stored config is [c] with
    ["vocab_size"] set to the encoder's vocabulary size if
    [c["vocab_size"] == 0], and [c] itself otherwise; no other entry
    differs from [c]. *)
Theorem C10_vocab_size_overwritten_iff_zero :
  forall (R : Type) (SR : Scalar R) (O : Oracle R),
    (forall cfg w0 m w1,
        BaseModel.__init__ (T := RefTorch O) cfg w0 = (Ok m, w1) ->
        vocab_size_rule O cfg (BaseModel.config m))
    /\ (forall cfg w0 m w1,
          CustomDistilBertModel.__init__ (T := RefTorch O) cfg w0 = (Ok m, w1) ->
          vocab_size_rule O cfg (CustomDistilBertModel.config m)).
Proof.
  intros R SR O. split; intros cfg w0 m w1 H.
  - apply BaseModel_init_made in H
      as (c & b & v & l1 & l2 & p & n_in & n_out & Hc & Hb & _ & Hv & Hcfg & _).
    exists c, b, v. rewrite Hcfg.
    split; [done|]. split; [done|]. split; [done|].
    split; [unfold stored_config; by intros ->|].
    split; [unfold stored_config; by intros ->|].
    split; [intros z ->; apply py_eq_VInt_0|].
    intros k Hk. by apply stored_config_other.
  - apply CustomDistilBertModel_init_made in H
      as (c & b & v & l1 & p & Hc & Hb & _ & Hv & Hcfg & _).
    exists c, b, v. rewrite Hcfg.
    split; [done|]. split; [done|]. split; [done|].
    split; [unfold stored_config; by intros ->|].
    split; [unfold stored_config; by intros ->|].
    split; [intros z ->; apply py_eq_VInt_0|].
    intros k Hk. by apply stored_config_other.
Qed.

Lemma C10_witness :
  exists mb wb mc wc,
    BaseModel.__init__ (T := RefTorch Toy.oracle) ∅ Toy.world = (Ok mb, wb)
    /\ CustomDistilBertModel.__init__ (T := RefTorch Toy.oracle)
         {[ "vocab_size" := VInt 5 ]} Toy.world = (Ok mc, wc)
    /\ vocab_size_rule Toy.oracle ∅ (BaseModel.config mb)
    /\ vocab_size_rule Toy.oracle {[ "vocab_size" := VInt 5 ]}
         (CustomDistilBertModel.config mc).
Proof.
  destruct (@C10_vocab_size_overwritten_iff_zero Q Toy.Q_scalar Toy.oracle)
    as [HB HC].
  eexists _, _, _, _.
  split; [vm_compute; reflexivity|].
  split; [vm_compute; reflexivity|].
  split.
  - eapply (HB ∅ Toy.world). vm_compute. reflexivity.
  - eapply (HC {[ "vocab_size" := VInt 5 ]} Toy.world). vm_compute. reflexivity.
Defined.

(** The two cases of the guard, run: the default config has
    ["vocab_size"] 0 and gets the encoder's 30522; a config that sets 5
    keeps it. *)
Example vocab_size_zero_is_replaced :
  (fun m => BaseModel.config m !! "vocab_size") <$> Toy.base ∅
  = Some (Some (VInt 30522)).
Proof. vm_compute. reflexivity. Qed.

Example vocab_size_nonzero_is_kept :
  (fun m => BaseModel.config m !! "vocab_size")
    <$> Toy.base {[ "vocab_size" := VInt 5 ]}
  = Some (Some (VInt 5)).
Proof. vm_compute. reflexivity. Qed.

(** ** The optimizer *)

Section Optimizer.
Context {R : Type} {SR : Scalar R}.

Lemma Adam_inv (ps : list (param R)) lr opt :
  Ref.Adam ps lr = Ok opt ->
  opt = {| opt_class := "Adam"; opt_params := ps; opt_lr := lr |}.
Proof.
  unfold Ref.Adam.
  destruct lr as [| |z|x|]; try discriminate;
    destruct ps; try (destruct (_ <? _)%Z); try (destruct (s_ltb _ _));
    try discriminate; by intros [= <-].
Qed.

Lemma Adam_valid (ps : list (param R)) lr :
  valid_lr lr = true -> ps ≠ [] ->
  Ref.Adam ps lr = Ok {| opt_class := "Adam"; opt_params := ps; opt_lr := lr |}.
Proof.
  unfold Ref.Adam, valid_lr. intros Hlr Hps.
  destruct ps as [|p ps]; [done|].
  destruct lr as [| |z|x|]; try discriminate; try done.
  - destruct (Z.leb_spec 0 z); [|discriminate].
    destruct (Z.ltb_spec z 0); [lia | done].
  - by destruct (s_ltb x s_zero).
Qed.

Lemma configure_optimizers_run {W} (ps : list (param R)) lr (w w' : W) opt :
  lift (Ref.Adam ps lr) w = (Ok opt, w') ->
  opt_class opt = "Adam" /\ opt_params opt = ps /\ opt_lr opt = lr.
Proof.
  intros H. apply lift_Ok_inv in H as [H _]. apply Adam_inv in H as ->. done.
Qed.

Lemma stored_learning_rate (c : dict R) v n lr :
  c !! "learning_rate" = Some lr ->
  stored_config c v n !! "learning_rate" = Some lr.
Proof. intros H. by rewrite stored_config_other. Qed.

Lemma frozen_optimized (b : DistilBertModel R) (rest : list (param R)) opt :
  opt_params opt = bert_parameters (frozen b) ++ rest ->
  optimizes_frozen (frozen b) opt.
Proof.
  intros Hps. unfold optimizes_frozen. apply Forall_forall. intros p Hp. split.
  - rewrite Hps. apply elem_of_app. by left.
  - pose proof (frozen_parameters b) as Hf.
    rewrite Forall_forall in Hf. by apply Hf.
Qed.
End Optimizer.

(** C8.  For a constructed model of each class, [configure_optimizers]
    returns (whenever the learning rate is one Adam accepts) an Adam
    optimizer over all of [self.parameters()], with the learning rate of
    [config["learning_rate"]]; for [BaseModel] and
    [CustomDistilBertModel] these include every parameter of the frozen
    encoder, whose [requires_grad] is [False]. *)
Theorem C8_adam_over_all_parameters :
  forall (R : Type) (SR : Scalar R) (O : Oracle R),
    (forall cfg w0 m w1,
        BaseModel.__init__ (T := RefTorch O) cfg w0 = (Ok m, w1) ->
        (forall w opt w',
            BaseModel.configure_optimizers (T := RefTorch O) m w = (Ok opt, w') ->
            adam_over (BaseModel.parameters m) (BaseModel.config m) opt
            /\ optimizes_frozen (BaseModel.bert m) opt)
        /\ (valid_lr (BaseModel.learning_rate m) = true ->
            forall w, exists opt,
              BaseModel.configure_optimizers (T := RefTorch O) m w = (Ok opt, w)))
    /\ (forall cfg w0 m w1,
          BiLSTMModel.__init__ (T := RefTorch O) cfg w0 = (Ok m, w1) ->
          (forall w opt w',
              BiLSTMModel.configure_optimizers (T := RefTorch O) m w
              = (Ok opt, w') ->
              adam_over (BiLSTMModel.parameters m) (BiLSTMModel.config m) opt)
          /\ (valid_lr (BiLSTMModel.learning_rate m) = true ->
              forall w, exists opt,
                BiLSTMModel.configure_optimizers (T := RefTorch O) m w
                = (Ok opt, w)))
    /\ (forall cfg w0 m w1,
          CustomDistilBertModel.__init__ (T := RefTorch O) cfg w0 = (Ok m, w1) ->
          (forall w opt w',
              CustomDistilBertModel.configure_optimizers (T := RefTorch O) m w
              = (Ok opt, w') ->
              adam_over (CustomDistilBertModel.parameters m)
                        (CustomDistilBertModel.config m) opt
              /\ optimizes_frozen (CustomDistilBertModel.bert m) opt)
          /\ (valid_lr (CustomDistilBertModel.learning_rate m) = true ->
              forall w, exists opt,
                CustomDistilBertModel.configure_optimizers (T := RefTorch O) m w
                = (Ok opt, w))).
Proof.
  intros R SR O. split; [|split]; intros cfg w0 m w1 H.
  - apply BaseModel_init_made in H
      as (c & b & v & l1 & l2 & p & n_in & n_out & _ & _ & Hlr & _ & Hcfg & Hb & _).
    split.
    + intros w opt w' Hrun. unfold BaseModel.configure_optimizers in Hrun.
      simpl in Hrun. apply bind_Ok_inv in Hrun as (o & w2 & Hrun & Hret).
      apply ret_Ok_inv in Hret as [-> _].
      apply configure_optimizers_run in Hrun as (Hc & Hps & Hl).
      split.
      * repeat split; try done. rewrite Hcfg, Hl.
        by apply stored_learning_rate.
      * rewrite Hb. eapply frozen_optimized. rewrite Hps.
        unfold BaseModel.parameters. rewrite Hb. reflexivity.
    + intros Hvalid w. eexists.
      unfold BaseModel.configure_optimizers. simpl.
      erewrite bind_Ok; [reflexivity|].
      unfold lift. rewrite Adam_valid; [reflexivity | done |].
      unfold BaseModel.parameters.
      intros Hnil. apply app_eq_nil in Hnil as [_ Hnil].
      apply app_eq_nil in Hnil as [_ Hnil].
      apply app_eq_nil in Hnil as [_ Hnil]. discriminate.
  - apply BiLSTMModel_init_made in H
      as (c & l2 & n_vocab & n_emb & n_in & n_out & n_hidden & _ & Hcfg & Hlr & _).
    split.
    + intros w opt w' Hrun. unfold BiLSTMModel.configure_optimizers in Hrun.
      simpl in Hrun. apply bind_Ok_inv in Hrun as (o & w2 & Hrun & Hret).
      apply ret_Ok_inv in Hret as [-> _].
      apply configure_optimizers_run in Hrun as (Hc & Hps & Hl).
      repeat split; try done. by rewrite Hcfg, Hl.
    + intros Hvalid w. eexists.
      unfold BiLSTMModel.configure_optimizers. simpl.
      erewrite bind_Ok; [reflexivity|].
      unfold lift. rewrite Adam_valid; [reflexivity | done |].
      unfold BiLSTMModel.parameters. discriminate.
  - apply CustomDistilBertModel_init_made in H
      as (c & b & v & l1 & p & _ & _ & Hlr & _ & Hcfg & _ & Hb & _).
    split.
    + intros w opt w' Hrun.
      unfold CustomDistilBertModel.configure_optimizers in Hrun.
      simpl in Hrun.
      apply configure_optimizers_run in Hrun as (Hc & Hps & Hl).
      split.
      * repeat split; try done. rewrite Hcfg, Hl.
        by apply stored_learning_rate.
      * rewrite Hb. eapply frozen_optimized. rewrite Hps.
        unfold CustomDistilBertModel.parameters. rewrite Hb. reflexivity.
    + intros Hvalid w. eexists.
      unfold CustomDistilBertModel.configure_optimizers. simpl.
      unfold lift. rewrite Adam_valid; [reflexivity | done |].
      unfold CustomDistilBertModel.parameters.
      intros Hnil. apply app_eq_nil in Hnil as [_ Hnil].
      apply app_eq_nil in Hnil as [_ Hnil]. discriminate.
Qed.

Lemma C8_witness :
  exists m w1 opt,
    BaseModel.__init__ (T := RefTorch Toy.oracle) ∅ Toy.world = (Ok m, w1)
    /\ BaseModel.configure_optimizers (T := RefTorch Toy.oracle) m w1
       = (Ok opt, w1)
    /\ adam_over (BaseModel.parameters m) (BaseModel.config m) opt
    /\ optimizes_frozen (BaseModel.bert m) opt.
Proof.
  destruct (@C8_adam_over_all_parameters Q Toy.Q_scalar Toy.oracle)
    as (HB & _ & _).
  eexists _, _, _.
  split; [vm_compute; reflexivity|].
  split; [vm_compute; reflexivity|].
  eapply (proj1 (HB ∅ Toy.world _ _ _) Toy.world).
  vm_compute. reflexivity.
  Unshelve. all: try (vm_compute; reflexivity).
Defined.

(** The optimizer of the example model holds the two frozen encoder
    parameters first, then the six trainable ones of the head. *)
Example optimizer_holds_frozen_parameters :
  (fun m => result_map (fun o => map (@requires_grad Q) (opt_params o))
              (BaseModel.configure_optimizers (T := RefTorch Toy.oracle)
                 m Toy.world).1)
    <$> Toy.base ∅
  = Some (Ok [false; false; true; true; true; true; true; true]).
Proof. vm_compute. reflexivity. Qed.

(** ** Rows, views and broadcasting *)

Section Rows.
Context {A : Type}.

Lemma row_length (n i : nat) (d : list A) :
  (S i * n <= length d)%nat -> length (Ref.row n i d) = n.
Proof.
  intros H. unfold Ref.row. rewrite length_take, length_drop. simpl in H. lia.
Qed.

Lemma row_S (n i : nat) (d : list A) :
  Ref.row n (S i) d = Ref.row n i (drop n d).
Proof.
  unfold Ref.row. rewrite drop_drop. reflexivity.
Qed.

Lemma concat_rows (n k : nat) (d : list A) :
  length d = (k * n)%nat ->
  concat (map (fun i => Ref.row n i d) (seq 0 k)) = d.
Proof.
  revert d. induction k as [|k IH]; intros d Hd; simpl.
  - destruct d; [done|discriminate].
  - rewrite <- seq_shift, map_map.
    rewrite (map_ext _ (fun i => Ref.row n i (drop n d))) by (intros; apply row_S).
    rewrite IH by (rewrite length_drop; simpl in Hd; lia).
    unfold Ref.row. simpl. apply take_drop.
Qed.

Lemma expand_data_same (s : list nat) (d : list A) :
  length d = numel s -> Ref.expand_data s s d = d.
Proof.
  revert d. induction s as [|n s IH]; intros d Hd; simpl; [done|].
  rewrite Nat.eqb_refl.
  rewrite (map_ext_in _ (fun i => Ref.row (numel s) i d)).
  - apply concat_rows. simpl in Hd. done.
  - intros i Hi. apply in_seq in Hi. apply IH, row_length.
    simpl in Hd. rewrite Hd. apply Nat.mul_le_mono_r. lia.
Qed.

Lemma broadcast_rev_same (s : list nat) : Ref.broadcast_rev s s = Some s.
Proof.
  induction s as [|n s IH]; simpl; [done|]. by rewrite Nat.eqb_refl, IH.
Qed.

Lemma broadcast_shapes_same (s : list nat) : Ref.broadcast_shapes s s = Some s.
Proof.
  unfold Ref.broadcast_shapes. rewrite broadcast_rev_same. simpl.
  by rewrite reverse_involutive.
Qed.

Lemma expand_same (t : tensor A) :
  wf_tensor t -> Ref.expand t (shape t) = data t.
Proof.
  intros Hwf. unfold Ref.expand. rewrite Nat.sub_diag. simpl.
  by apply expand_data_same.
Qed.

Lemma view_flat (t : tensor A) :
  Ref.view t [(-1)%Z] = Ok (Tensor [numel (shape t)] (data t)).
Proof.
  unfold Ref.view. cbn -[Nat.div Nat.modulo].
  by rewrite Nat.mod_1_r, Nat.div_1_r.
Qed.
End Rows.


(** ** The two losses of BaseModel *)

Section Loss.
Context {R : Type} {SR : Scalar R}.

Lemma mse_loss_same_shape (a b : tensor R) :
  shape a = shape b -> wf_tensor a -> wf_tensor b ->
  Ref.mse_loss a b
  = Ok (Tensor [] [Ref.mean (Ref.squared_errors (data a) (data b))]).
Proof.
  intros Hs Ha Hb. unfold Ref.mse_loss.
  rewrite <- Hs, broadcast_shapes_same, expand_same by done.
  rewrite Hs, expand_same by done. done.
Qed.

Lemma bind_assoc {W A B C} (c : M W A) (k : A -> M W B) (k' : B -> M W C) w :
  bind (bind c k) k' w = bind c (fun a => bind (k a) k') w.
Proof. unfold bind. by destruct (c w) as [[a|e] w1]. Qed.

(** The two definitions are the code of the two methods. *)
Lemma training_step_loss {W X} {T : Torch R W} self
    (y : tensor R) e c (x : X) i w :
  BaseModel.training_step self (y, e, c, x) i w
  = (let* y := tensor_to y in
     let* e := encoding_to e in
     let* c := tensor_to c in
     let* y_hat := BaseModel.forward self e c in
     let* loss := training_loss y_hat y in
     let* t := tensor_unsqueeze y 1 in
     let* _ := metric_call (BaseModel.train_metric self) y_hat t in
     let* _ := log "train_loss" loss
                 [("on_step", true); ("on_epoch", true);
                  ("prog_bar", true); ("logger", true)] in
     ret [("loss", loss)]) w.
Proof.
  unfold BaseModel.training_step, training_loss, bind.
  repeat match goal with
         | |- context [match ?c ?w with _ => _ end] =>
             destruct (c w) as [[?|?] ?]; try reflexivity
         end.
Qed.

Lemma validation_step_loss {W X} {T : Torch R W} self
    (y : tensor R) e c (x : X) i w :
  BaseModel.validation_step self (y, e, c, x) i w
  = (let* y := tensor_to y in
     let* e := encoding_to e in
     let* c := tensor_to c in
     let* y_hat := BaseModel.forward self e c in
     let* loss := validation_loss y_hat y in
     let* t := tensor_unsqueeze y 1 in
     let* _ := metric_call (BaseModel.val_metric self) y_hat t in
     let* _ := log "val_loss" loss [] in
     ret [("val_loss", loss)]) w.
Proof.
  unfold BaseModel.validation_step, validation_loss, bind.
  repeat match goal with
         | |- context [match ?c ?w with _ => _ end] =>
             destruct (c w) as [[?|?] ?]; try reflexivity
         end.
Qed.
End Loss.

(** C9.  For a prediction [y_hat] of shape [(bs, 1)] and a target [y] of
    shape [(bs,)], the training loss
    [F.mse_loss(y_hat.view(-1), y.view(-1))] and the validation loss
    [F.mse_loss(y_hat, y.unsqueeze(1))] are the same value: the mean of
    the squared differences of the [bs] pairs of elements, taken in the
    same order.  This holds for any scalar arithmetic, rounding
    included, since both sides apply the same operations to the same
    elements. *)
Theorem C9_training_and_validation_loss_agree :
  forall (R : Type) (SR : Scalar R) (O : Oracle R)
         (y_hat y : tensor R) (bs : nat) (w : World R),
    shape y_hat = [bs; 1%nat] -> shape y = [bs] ->
    wf_tensor y_hat -> wf_tensor y ->
    training_loss (T := RefTorch O) y_hat y w
    = validation_loss (T := RefTorch O) y_hat y w
    /\ validation_loss (T := RefTorch O) y_hat y w
       = (Ok (Tensor [] [Ref.mean (Ref.squared_errors (data y_hat) (data y))]),
          w).
Proof.
  intros R SR O y_hat y bs w Hyh Hy Hwh Hwy.
  unfold training_loss, validation_loss. simpl.
  unfold bind, lift. rewrite !view_flat.
  unfold Ref.unsqueeze. rewrite Hy, Hyh. simpl.
  rewrite !mse_loss_same_shape; try done;
    unfold wf_tensor in *; rewrite ?Hyh, ?Hy in *; simpl in *; lia.
Qed.

Lemma C9_witness :
  training_loss (T := RefTorch Toy.oracle)
    (Tensor [2; 1]%nat [1; 2]%Q) Toy.targets Toy.world
  = validation_loss (T := RefTorch Toy.oracle)
      (Tensor [2; 1]%nat [1; 2]%Q) Toy.targets Toy.world
  /\ validation_loss (T := RefTorch Toy.oracle)
       (Tensor [2; 1]%nat [1; 2]%Q) Toy.targets Toy.world
     = (Ok (Tensor []
              [Ref.mean (Ref.squared_errors [1; 2]%Q [(1 # 2); (3 # 2)]%Q)]),
        Toy.world).
Proof.
  apply (@C9_training_and_validation_loss_agree Q Toy.Q_scalar Toy.oracle
           (Tensor [2; 1]%nat [1; 2]%Q) Toy.targets 2 Toy.world);
    reflexivity.
Defined.

(** Why the target is reshaped: without [unsqueeze], a [(2,)] target
    broadcasts against the [(2, 1)] prediction to [(2, 2)], and the loss
    is another number. *)
Example mse_loss_without_unsqueeze_differs :
  Ref.mse_loss (Tensor [2; 1]%nat [1; 2]%Q) Toy.targets
  <> (validation_loss (T := RefTorch Toy.oracle)
        (Tensor [2; 1]%nat [1; 2]%Q) Toy.targets Toy.world).1.
Proof. vm_compute. discriminate. Qed.

(** ** The forward passes on the reference semantics *)

Section Forward.
Context {R : Type} {SR : Scalar R} (O : Oracle R).

Lemma length_concat_rows {A} (f : nat -> list A) (n k : nat) :
  (forall i, (i < k)%nat -> length (f i) = n) ->
  length (concat (map f (seq 0 k))) = (k * n)%nat.
Proof.
  intros Hf. induction k as [|k IH]; [done|].
  rewrite seq_S, map_app, concat_app, length_app, IH by (intros; apply Hf; lia).
  simpl. rewrite app_nil_r, Hf by lia. lia.
Qed.

Lemma row_concat_rows {A} (f : nat -> list A) (n k i : nat) :
  (forall j, (j < k)%nat -> length (f j) = n) ->
  (i < k)%nat ->
  Ref.row n i (concat (map f (seq 0 k))) = f i.
Proof.
  intros Hf Hi. induction k as [|k IH]; [lia|].
  rewrite seq_S, map_app, concat_app. simpl. rewrite app_nil_r.
  assert (Hlen : length (concat (map f (seq 0 k))) = (k * n)%nat)
    by (apply length_concat_rows; intros; apply Hf; lia).
  unfold Ref.row in *.
  destruct (decide (i = k)) as [->|Hne].
  - rewrite drop_app_length' by done.
    rewrite take_ge by (rewrite Hf by lia; lia). done.
  - rewrite drop_app_le by (rewrite Hlen; apply Nat.mul_le_mono_r; lia).
    rewrite take_app_le.
    + apply IH; [intros; apply Hf; lia | lia].
    + rewrite length_drop, Hlen.
      assert (S i * n <= k * n)%nat by (apply Nat.mul_le_mono_r; lia).
      simpl in *. lia.
Qed.

Lemma affine_length (l : Linear R) (x : list R) :
  length (Ref.affine l x) = out_features l.
Proof. unfold Ref.affine. by rewrite length_map, length_seq. Qed.

(** A linear layer on a [(bs, n)] input. *)
Lemma linear_2d (l : Linear R) (x : tensor R) (bs n : nat) :
  shape x = [bs; n] -> in_features l = n ->
  Ref.linear l x
  = Ok (Tensor [bs; out_features l]
          (concat (map (fun i => Ref.affine l (Ref.row n i (data x)))
                       (seq 0 bs)))).
Proof.
  intros Hs Hn. unfold Ref.linear. rewrite Hs, Hn. simpl.
  rewrite Nat.eqb_refl. simpl. by rewrite Nat.mul_1_r.
Qed.

Lemma classifier_output_wf (l : Linear R) (bs : nat) (out : tensor R) :
  classifier_output l bs out -> wf_tensor out.
Proof.
  intros (x & Hx & Hl).
  rewrite linear_2d with (bs := bs) (n := in_features l) in Hl by done.
  injection Hl as <-. unfold wf_tensor. simpl. rewrite Nat.mul_1_r.
  apply length_concat_rows. intros. apply affine_length.
Qed.

Lemma norm_index_nat (j len : nat) :
  (j < len)%nat -> Ref.norm_index (Z.of_nat j) len = Some j.
Proof.
  intros Hj. unfold Ref.norm_index.
  destruct (Z.ltb_spec (Z.of_nat j) 0); [lia|].
  destruct (Z.leb_spec 0 (Z.of_nat j)); [|lia].
  destruct (Z.ltb_spec (Z.of_nat j) (Z.of_nat len)); [|lia].
  simpl. by rewrite Nat2Z.id.
Qed.

(** [h[:, j]] of a [(bs, len, d)] tensor. *)
Lemma select_at (h : tensor R) (bs len d j : nat) :
  shape h = [bs; len; d] -> (j < len)%nat ->
  Ref.select h 1 (Z.of_nat j)
  = Ok (Tensor [bs; d]
          (concat (map (fun i => Ref.row d j (Ref.row (len * d) i (data h)))
                       (seq 0 bs)))).
Proof.
  intros Hs Hj. unfold Ref.select. rewrite Hs. simpl.
  rewrite norm_index_nat by done. simpl.
  by rewrite !Nat.mul_1_r.
Qed.

Lemma select_first (h : tensor R) (bs len d : nat) :
  shape h = [bs; len; d] -> (1 <= len)%nat ->
  Ref.select h 1 0
  = Ok (Tensor [bs; d]
          (concat (map (fun i => Ref.row d 0 (Ref.row (len * d) i (data h)))
                       (seq 0 bs)))).
Proof. intros Hs Hlen. by apply (@select_at h bs len d 0%nat). Qed.

Lemma distilbert_run (b : DistilBertModel R) (ids mask : tensor Z)
    (bs len : nat) (hd : list R) :
  shape ids = [bs; len] -> shape mask = [bs; len] ->
  o_bert O b ids mask = Ok hd ->
  Ref.distilbert O b ids mask
  = Ok (Tensor [bs; len; Z.to_nat (dim (bert_config b))] hd).
Proof.
  intros Hi Hm Hb. unfold Ref.distilbert. rewrite Hi, Hm, Hb.
  by rewrite bool_decide_eq_true_2.
Qed.

Lemma cat_features (a b : tensor R) (bs n m : nat) :
  shape a = [bs; n] -> shape b = [bs; m] ->
  Ref.cat a b 1
  = Ok (Tensor [bs; (n + m)%nat]
          (concat (map (fun i => Ref.row n i (data a) ++ Ref.row m i (data b))
                       (seq 0 bs)))).
Proof.
  intros Ha Hb. unfold Ref.cat. rewrite Ha, Hb. simpl.
  rewrite bool_decide_eq_false_2 by discriminate.
  rewrite bool_decide_eq_false_2 by discriminate.
  simpl. rewrite bool_decide_eq_true_2 by done.
  by rewrite !Nat.mul_1_r.
Qed.

(** The layers of a head on a [(bs, n)] input. *)
Lemma dropout_run (p : Dropout R) (x : tensor R) (w : World R) :
  exists y w',
    Ref.dropout O p x w = (Ok y, w')
    /\ shape y = shape x /\ length (data y) = length (data x).
Proof.
  unfold Ref.dropout. destruct (w_training w).
  - eexists _, _. split; [reflexivity|]. simpl. by rewrite length_imap.
  - eauto.
Qed.

Lemma tail_run (l : Linear R) (p : Dropout R) (x : tensor R) (bs n : nat)
    (w : World R) :
  shape x = [bs; n] -> in_features l = n ->
  exists y w',
    Sequential_call (T := RefTorch O) [LLinear l; LReLU; LDropout p] x w
    = (Ok y, w')
    /\ shape y = [bs; out_features l]
    /\ length (data y) = (bs * out_features l)%nat.
Proof.
  intros Hs Hn. simpl. unfold bind, lift, ret.
  rewrite linear_2d with (bs := bs) (n := n) by done.
  match goal with
  | |- context [Ref.dropout O p ?z ?w0] =>
      destruct (dropout_run p z w0) as (y & w' & Hrun & Hshape & Hlen)
  end.
  exists y, w'. rewrite Hrun. split; [done|].
  split; [done|]. rewrite Hlen. simpl. rewrite length_map.
  apply length_concat_rows. intros. apply affine_length.
Qed.

Lemma encoder_run (l : Linear R) (x : tensor R) (bs n : nat) (w : World R) :
  shape x = [bs; n] -> in_features l = n ->
  exists y,
    Sequential_call (T := RefTorch O) [LLinear l; LReLU] x w = (Ok y, w)
    /\ shape y = [bs; out_features l]
    /\ length (data y) = (bs * out_features l)%nat.
Proof.
  intros Hs Hn. simpl. unfold bind, lift, ret.
  rewrite linear_2d with (bs := bs) (n := n) by done.
  eexists. split; [reflexivity|]. split; [done|]. simpl.
  rewrite length_map. apply length_concat_rows. intros. apply affine_length.
Qed.

Lemma BaseModel_forward_run cfg m text cats w bs len hd n_in :
  BaseModel_made O cfg m ->
  shape (input_ids text) = [bs; len] ->
  shape (attention_mask text) = [bs; len] ->
  (1 <= len)%nat ->
  o_bert O (BaseModel.bert m) (input_ids text) (attention_mask text) = Ok hd ->
  BaseModel.config m !! "category_encoded_length" = Some (VInt n_in) ->
  shape cats = [bs; Z.to_nat n_in] ->
  exists pooled categories_encoded w' w'',
    Sequential_call (T := RefTorch O) (BaseModel.distilbert_tail m)
      (hidden_at_0 bs len
         (Tensor [bs; len; Z.to_nat (dim (bert_config (BaseModel.bert m)))] hd))
      w
    = (Ok pooled, w')
    /\ Sequential_call (T := RefTorch O) (BaseModel.category_encoder m) cats w'
       = (Ok categories_encoded, w'')
    /\ BaseModel.forward (T := RefTorch O) m text cats w
       = (Ok (classify_concatenated (BaseModel.classifier m) bs
                pooled categories_encoded), w'')
    /\ out_features (BaseModel.classifier m) = 1%nat
    /\ classifier_output (BaseModel.classifier m) bs
         (classify_concatenated (BaseModel.classifier m) bs
            pooled categories_encoded).
Proof.
  intros (c & b & v & l1 & l2 & p & n_in' & n_out & _ & _ & _ & _ & _ & Hb & Hd
          & Ht & Hl1 & Hin & _ & _ & _ & He & Hl2 & Hc)
         Hids Hmask Hlen Hbert Hin' Hcats.
  apply (int_entry_VInt Hin) in Hin' as ->.
  destruct Hl1 as (Hl1i & Hl1o & _), Hl2 as (Hl2i & Hl2o & _),
    Hc as (Hci & Hco & _).
  set (d := Z.to_nat (dim (bert_config (BaseModel.bert m)))).
  assert (Hd' : Z.to_nat (dim (bert_config b)) = d) by (by subst d; rewrite Hb).
  rewrite Hd' in *.
  set (h := Tensor [bs; len; d] hd).
  destruct (@tail_run l1 p (hidden_at_0 bs len h) bs d w)
    as (pooled & w' & Htail & Hps & Hpl); [done | done |].
  destruct (@encoder_run l2 cats bs (Z.to_nat n_in) w')
    as (ce & Henc & Hcs & Hcl); [done | done |].
  set (x := Tensor [bs; (d + Z.to_nat n_out)%nat]
              (concat (map (fun i => Ref.row d i (data pooled)
                                     ++ Ref.row (Z.to_nat n_out) i (data ce))
                           (seq 0 bs)))).
  assert (Hlin : Ref.linear (BaseModel.classifier m) x
                 = Ok (classify_concatenated (BaseModel.classifier m) bs
                         pooled ce)).
  { rewrite linear_2d with (bs := bs) (n := (d + Z.to_nat n_out)%nat) by done.
    unfold classify_concatenated. simpl. do 3 f_equal.
    apply map_ext_in. intros i Hi. apply in_seq in Hi. f_equal.
    unfold width. rewrite Hps, Hcs, Hl1o, Hl2o. simpl.
    apply (row_concat_rows (fun i0 => Ref.row d i0 (data pooled) ++
               Ref.row (Z.to_nat n_out) i0 (data ce))); [|lia].
    intros j Hj. rewrite length_app, !row_length; [done | |].
    - rewrite Hcl, Hl2o. apply Nat.mul_le_mono_r. lia.
    - rewrite Hpl, Hl1o. apply Nat.mul_le_mono_r. lia. }
  exists pooled, ce, w', w'. rewrite Ht, He.
  split; [done|]. split; [done|]. split; [|split; [done|]].
  - unfold BaseModel.forward. simpl.
    erewrite bind_Ok;
      [|unfold lift; erewrite distilbert_run by eassumption; reflexivity].
    fold d. fold h.
    erewrite bind_Ok;
      [|unfold lift;
        rewrite (@select_first h bs len d) by done;
        reflexivity].
    rewrite Ht, He.
    erewrite bind_Ok by exact Htail.
    erewrite bind_Ok by exact Henc.
    erewrite bind_Ok;
      [|unfold lift;
        rewrite cat_features with (bs := bs) (n := d) (m := Z.to_nat n_out)
          by (by rewrite ?Hps, ?Hcs, ?Hl1o, ?Hl2o);
        reflexivity].
    erewrite bind_Ok; [|unfold lift; fold x; rewrite Hlin; reflexivity].
    reflexivity.
  - exists x. split; [by rewrite Hci | exact Hlin].
Qed.

Lemma embedding_run (e : Embedding R) (ids : tensor Z) :
  Forall (fun i => (0 <= i < Z.of_nat (num_embeddings e))%Z) (data ids) ->
  exists d, Ref.embedding e ids = Ok (Tensor (shape ids ++ [embedding_dim e]) d).
Proof.
  intros Hids. unfold Ref.embedding.
  rewrite (proj2 (forallb_forall _ _)); [eauto|].
  intros i Hi. rewrite Forall_forall in Hids.
  apply list_elem_of_In, Hids in Hi. lia.
Qed.

Lemma BiLSTMModel_forward_run cfg m ids cats w bs len n_in :
  BiLSTMModel_made O cfg m ->
  shape ids = [bs; len] ->
  (1 <= len)%nat ->
  Forall (fun i => (0 <= i < Z.of_nat (num_embeddings (BiLSTMModel.embedding m)))%Z)
         (data ids) ->
  BiLSTMModel.config m !! "category_encoded_length" = Some (VInt n_in) ->
  shape cats = [bs; Z.to_nat n_in] ->
  exists out,
    BiLSTMModel.forward (T := RefTorch O) m ids cats w = (Ok out, w)
    /\ shape out = [bs; 1%nat]
    /\ classifier_output (BiLSTMModel.classifier m) bs out.
Proof.
  intros (c & l2 & n_vocab & n_emb & n_in' & n_out & n_hidden & _ & Hcfg & _ & _
          & _ & Hin & _ & _ & _ & _ & _ & _ & _ & _ & Hed & _ & Hli & Hlh & Hlb
          & _ & He & Hl2 & Hc)
         Hids Hlen Hrange Hin' Hcats.
  rewrite Hcfg in Hin'. apply (int_entry_VInt Hin) in Hin' as ->.
  destruct Hl2 as (Hl2i & Hl2o & _), Hc as (Hci & Hco & _).
  destruct (embedding_run _ _ Hrange) as (ed & Hemb).
  destruct (@encoder_run l2 cats bs (Z.to_nat n_in) w)
    as (ce & Henc & Hcs & Hcl); [done | done |].
  unfold BiLSTMModel.forward. simpl.
  erewrite bind_Ok; [|unfold lift; rewrite Hemb; reflexivity].
  rewrite Hids. simpl.
  erewrite bind_Ok;
    [|unfold lift, Ref.lstm; simpl; rewrite Hed, Hli, Nat.eqb_refl, Hlb, Hlh;
      reflexivity].
  rewrite He. erewrite bind_Ok by exact Henc.
  erewrite bind_Ok; [|unfold lift, Ref.size_at; simpl; reflexivity].
  replace (Z.of_nat len - 1)%Z with (Z.of_nat (len - 1)) by lia.
  erewrite bind_Ok;
    [|unfold lift; erewrite select_at by (simpl; done || lia); reflexivity].
  erewrite bind_Ok;
    [|unfold lift;
      rewrite cat_features
        with (bs := bs) (n := (2 * Z.to_nat n_hidden)%nat) (m := Z.to_nat n_out)
        by (by rewrite ?Hcs, ?Hl2o);
      reflexivity].
  match goal with
  | |- context [Ref.linear _ ?t] => set (x := t)
  end.
  pose proof (@linear_2d (BiLSTMModel.classifier m) x bs
                (2 * Z.to_nat n_hidden + Z.to_nat n_out)%nat eq_refl Hci)
    as Hlin.
  erewrite bind_Ok; [|simpl; unfold lift; rewrite Hlin; reflexivity].
  eexists. split; [reflexivity|]. split; [simpl; by rewrite Hco|].
  exists x. split; [by rewrite Hci | exact Hlin].
Qed.

Lemma CustomDistilBertModel_forward_run cfg m text w bs len hd :
  CustomDistilBertModel_made O cfg m ->
  shape (input_ids text) = [bs; len] ->
  shape (attention_mask text) = [bs; len] ->
  (1 <= len)%nat ->
  o_bert O (CustomDistilBertModel.bert m) (input_ids text) (attention_mask text)
  = Ok hd ->
  exists out w',
    CustomDistilBertModel.forward (T := RefTorch O) m text w = (Ok out, w')
    /\ shape out = [bs; 4%nat]
    /\ classifier_output (CustomDistilBertModel.classifier m) bs out.
Proof.
  intros (c & b & v & l1 & p & _ & _ & _ & _ & _ & _ & Hb & Hd & Ht & Hl1 & Hc)
         Hids Hmask Hlen Hbert.
  destruct Hl1 as (Hl1i & Hl1o & _), Hc as (Hci & Hco & _).
  set (d := Z.to_nat (dim (bert_config (CustomDistilBertModel.bert m)))).
  assert (Hd' : Z.to_nat (dim (bert_config b)) = d) by (by subst d; rewrite Hb).
  rewrite Hd' in *.
  set (h := Tensor [bs; len; d] hd).
  set (w1 := Ref.exit_no_grad (w_grad_enabled w) (Ref.set_grad_enabled false w)).
  destruct (@tail_run l1 p (hidden_at_0 bs len h) bs d w1)
    as (pooled & w' & Htail & Hps & Hpl); [done | done |].
  unfold CustomDistilBertModel.forward. simpl.
  erewrite bind_Ok with (a := h) (w1 := w1);
    [|unfold py_with, Ref.enter_no_grad, lift;
      erewrite distilbert_run by eassumption; reflexivity].
  erewrite bind_Ok;
    [|unfold lift; rewrite (@select_first h bs len d) by done; reflexivity].
  rewrite Ht. erewrite bind_Ok by exact Htail.
  assert (Hlin := @linear_2d (CustomDistilBertModel.classifier m) pooled bs d
                    ltac:(by rewrite Hps, Hl1o) Hci).
  erewrite bind_Ok; [|unfold lift; rewrite Hlin; reflexivity].
  eexists _, _. split; [reflexivity|]. split; [simpl; by rewrite Hco|].
  exists pooled. split; [by rewrite Hps, Hl1o, Hci | exact Hlin].
Qed.
End Forward.

(** C3.  For a batch of size [bs], the forward pass of a constructed
    model returns a tensor of shape [(bs, 1)] for [BaseModel] and
    [BiLSTMModel] and of shape [(bs, 4)] for [CustomDistilBertModel].
    The batch is well formed: token ids and attention mask of shape
    [(bs, seq_len)] with at least one token per text, the encoder
    accepting them (for [BiLSTMModel]: every token id within the
    embedding table), and categorical vectors of shape
    [(bs, config["category_encoded_length"])]. *)
Theorem C3_forward_output_shapes :
  forall (R : Type) (SR : Scalar R) (O : Oracle R),
    (forall cfg w0 m w1 text cats w bs len hd n_in,
        BaseModel.__init__ (T := RefTorch O) cfg w0 = (Ok m, w1) ->
        shape (input_ids text) = [bs; len] ->
        shape (attention_mask text) = [bs; len] ->
        (1 <= len)%nat ->
        o_bert O (BaseModel.bert m) (input_ids text) (attention_mask text)
        = Ok hd ->
        BaseModel.config m !! "category_encoded_length" = Some (VInt n_in) ->
        shape cats = [bs; Z.to_nat n_in] ->
        exists out w',
          BaseModel.forward (T := RefTorch O) m text cats w = (Ok out, w')
          /\ shape out = [bs; 1%nat]
          /\ wf_tensor out
          /\ classifier_output (BaseModel.classifier m) bs out)
    /\ (forall cfg w0 m w1 ids cats w bs len n_in,
          BiLSTMModel.__init__ (T := RefTorch O) cfg w0 = (Ok m, w1) ->
          shape ids = [bs; len] ->
          (1 <= len)%nat ->
          Forall (fun i =>
                    (0 <= i < Z.of_nat (num_embeddings (BiLSTMModel.embedding m)))%Z)
                 (data ids) ->
          BiLSTMModel.config m !! "category_encoded_length" = Some (VInt n_in) ->
          shape cats = [bs; Z.to_nat n_in] ->
          exists out w',
            BiLSTMModel.forward (T := RefTorch O) m ids cats w = (Ok out, w')
            /\ shape out = [bs; 1%nat]
            /\ wf_tensor out
            /\ classifier_output (BiLSTMModel.classifier m) bs out)
    /\ (forall cfg w0 m w1 text w bs len hd,
          CustomDistilBertModel.__init__ (T := RefTorch O) cfg w0 = (Ok m, w1) ->
          shape (input_ids text) = [bs; len] ->
          shape (attention_mask text) = [bs; len] ->
          (1 <= len)%nat ->
          o_bert O (CustomDistilBertModel.bert m)
                 (input_ids text) (attention_mask text)
          = Ok hd ->
          exists out w',
            CustomDistilBertModel.forward (T := RefTorch O) m text w
            = (Ok out, w')
            /\ shape out = [bs; 4%nat]
            /\ wf_tensor out
            /\ classifier_output (CustomDistilBertModel.classifier m) bs out).
Proof.
  intros R SR O. split; [|split].
  - intros cfg w0 m w1 text cats w bs len hd n_in Hinit Hids Hmask Hlen Hb Hin Hc.
    apply BaseModel_init_made in Hinit.
    destruct (@BaseModel_forward_run R SR O cfg m text cats w bs len hd n_in
                Hinit Hids Hmask Hlen Hb Hin Hc)
      as (pooled & ce & w' & w'' & _ & _ & Hrun & Hout & Hcls).
    exists (classify_concatenated (BaseModel.classifier m) bs pooled ce), w''.
    split; [done|]. split; [simpl; by rewrite Hout|].
    split; [|done]. by eapply classifier_output_wf.
  - intros cfg w0 m w1 ids cats w bs len n_in Hinit Hids Hlen Hrange Hin Hc.
    apply BiLSTMModel_init_made in Hinit.
    destruct (@BiLSTMModel_forward_run R SR O cfg m ids cats w bs len n_in
                Hinit Hids Hlen Hrange Hin Hc)
      as (out & Hrun & Hout & Hcls).
    exists out, w. repeat split; try done. by eapply classifier_output_wf.
  - intros cfg w0 m w1 text w bs len hd Hinit Hids Hmask Hlen Hb.
    apply CustomDistilBertModel_init_made in Hinit.
    destruct (@CustomDistilBertModel_forward_run R SR O cfg m text w bs len hd
                Hinit Hids Hmask Hlen Hb)
      as (out & w' & Hrun & Hout & Hcls).
    exists out, w'. repeat split; try done. by eapply classifier_output_wf.
Qed.

Lemma C3_witness :
  exists mb wb ml wl mc wc,
    BaseModel.__init__ (T := RefTorch Toy.oracle) ∅ Toy.world = (Ok mb, wb)
    /\ BiLSTMModel.__init__ (T := RefTorch Toy.oracle)
         {[ "vocab_size" := VInt 5 ]} Toy.world = (Ok ml, wl)
    /\ CustomDistilBertModel.__init__ (T := RefTorch Toy.oracle) ∅ Toy.world
       = (Ok mc, wc)
    /\ (exists out w',
          BaseModel.forward (T := RefTorch Toy.oracle)
            mb Toy.text Toy.categories Toy.world = (Ok out, w')
          /\ shape out = [2; 1]%nat
          /\ wf_tensor out
          /\ classifier_output (BaseModel.classifier mb) 2 out)
    /\ (exists out w',
          BiLSTMModel.forward (T := RefTorch Toy.oracle)
            ml Toy.token_ids Toy.categories Toy.world = (Ok out, w')
          /\ shape out = [2; 1]%nat
          /\ wf_tensor out
          /\ classifier_output (BiLSTMModel.classifier ml) 2 out)
    /\ (exists out w',
          CustomDistilBertModel.forward (T := RefTorch Toy.oracle)
            mc Toy.text Toy.world = (Ok out, w')
          /\ shape out = [2; 4]%nat
          /\ wf_tensor out
          /\ classifier_output (CustomDistilBertModel.classifier mc) 2 out).
Proof.
  destruct (@C3_forward_output_shapes Q Toy.Q_scalar Toy.oracle)
    as (HB & HL & HC).
  eexists _, _, _, _, _, _.
  split; [vm_compute; reflexivity|].
  split; [vm_compute; reflexivity|].
  split; [vm_compute; reflexivity|].
  split; [|split].
  - eapply (HB ∅ Toy.world _ _ Toy.text Toy.categories Toy.world
               2%nat 2%nat _ 2%Z).
    + vm_compute. reflexivity.
    + reflexivity.
    + reflexivity.
    + lia.
    + vm_compute. reflexivity.
    + vm_compute. reflexivity.
    + reflexivity.
  - eapply (HL {[ "vocab_size" := VInt 5 ]} Toy.world _ _
               Toy.token_ids Toy.categories Toy.world 2%nat 2%nat 2%Z).
    + vm_compute. reflexivity.
    + reflexivity.
    + lia.
    + vm_compute. repeat constructor; discriminate.
    + vm_compute. reflexivity.
    + reflexivity.
  - eapply (HC ∅ Toy.world _ _ Toy.text Toy.world 2%nat 2%nat _).
    + vm_compute. reflexivity.
    + reflexivity.
    + reflexivity.
    + lia.
    + vm_compute. reflexivity.
Defined.

(** C4.  [BaseModel.forward] on a constructed model and a well-formed
    batch: the pooled transformer output is the encoder's hidden state at
    sequence position 0 put through [distilbert_tail]; the encoded
    categorical vector is [category_encoder] applied to
    [category_vectors]; and the result is the single linear [classifier]
    applied, for each batch element, to its pooled row followed by its
    encoded-category row (concatenation along the feature dimension),
    giving one output per batch element. *)
Theorem C4_forward_concatenates_then_classifies :
  forall (R : Type) (SR : Scalar R) (O : Oracle R)
         cfg w0 m w1 text cats w bs len hd n_in,
    BaseModel.__init__ (T := RefTorch O) cfg w0 = (Ok m, w1) ->
    shape (input_ids text) = [bs; len] ->
    shape (attention_mask text) = [bs; len] ->
    (1 <= len)%nat ->
    o_bert O (BaseModel.bert m) (input_ids text) (attention_mask text) = Ok hd ->
    BaseModel.config m !! "category_encoded_length" = Some (VInt n_in) ->
    shape cats = [bs; Z.to_nat n_in] ->
    exists pooled categories_encoded w' w'',
      Sequential_call (T := RefTorch O) (BaseModel.distilbert_tail m)
        (hidden_at_0 bs len
           (Tensor [bs; len; Z.to_nat (dim (bert_config (BaseModel.bert m)))] hd))
        w
      = (Ok pooled, w')
      /\ Sequential_call (T := RefTorch O) (BaseModel.category_encoder m) cats w'
         = (Ok categories_encoded, w'')
      /\ BaseModel.forward (T := RefTorch O) m text cats w
         = (Ok (classify_concatenated (BaseModel.classifier m) bs
                  pooled categories_encoded), w'')
      /\ out_features (BaseModel.classifier m) = 1%nat.
Proof.
  intros R SR O cfg w0 m w1 text cats w bs len hd n_in Hinit Hids Hmask Hlen
    Hb Hin Hc.
  apply BaseModel_init_made in Hinit.
  destruct (@BaseModel_forward_run R SR O cfg m text cats w bs len hd n_in)
    as (pooled & ce & w' & w'' & H1 & H2 & H3 & H4 & _); try done.
  by exists pooled, ce, w', w''.
Qed.

Lemma C4_witness :
  exists m w1,
    BaseModel.__init__ (T := RefTorch Toy.oracle) ∅ Toy.world = (Ok m, w1)
    /\ exists pooled categories_encoded w' w'',
         Sequential_call (T := RefTorch Toy.oracle) (BaseModel.distilbert_tail m)
           (hidden_at_0 2 2
              (Tensor [2; 2; Z.to_nat (dim (bert_config (BaseModel.bert m)))]%nat
                      [101; 1; 0; 7; 1; 0; 101; 1; 0; 9; 1; 0]%Q))
           Toy.world
         = (Ok pooled, w')
         /\ Sequential_call (T := RefTorch Toy.oracle)
              (BaseModel.category_encoder m) Toy.categories w'
            = (Ok categories_encoded, w'')
         /\ BaseModel.forward (T := RefTorch Toy.oracle)
              m Toy.text Toy.categories Toy.world
            = (Ok (classify_concatenated (BaseModel.classifier m) 2
                     pooled categories_encoded), w'')
         /\ out_features (BaseModel.classifier m) = 1%nat.
Proof.
  eexists _, _. split; [vm_compute; reflexivity|].
  eapply (@C4_forward_concatenates_then_classifies Q Toy.Q_scalar Toy.oracle
            ∅ Toy.world _ _ Toy.text Toy.categories Toy.world 2%nat 2%nat _ 2%Z).
  - vm_compute. reflexivity.
  - reflexivity.
  - reflexivity.
  - lia.
  - vm_compute. reflexivity.
  - vm_compute. reflexivity.
  - reflexivity.
Defined.

(** ** What the classes take and hold *)

(** C2 as stated fails: the stance model's [forward] has no
    categorical-feature input. *)
Lemma C2_counterexample :
  ~ (forall c : model_class, takes_text_and_categories c).
Proof.
  intros H. destruct (H CustomDistilBertModel_cls) as [_ Hc].
  apply list_elem_of_In in Hc. simpl in Hc. destruct Hc as [Hc|[]].
  discriminate Hc.
Qed.

(** Run: the constructed stance model called with a text and a
    categorical vector raises; [BaseModel] called the same way returns a
    score per text, and the score depends on the categorical vector. *)
Example custom_model_rejects_categories :
  (fun m => (call (T := RefTorch Toy.oracle) (MCustom m)
               [AEncoding Toy.text; AFloat Toy.categories] Toy.world).1)
    <$> Toy.custom ∅
  = Some (Err (TypeError "forward() takes a different number of positional arguments")).
Proof. vm_compute. reflexivity. Qed.

Example base_model_reads_categories :
  (fun m => result_map (@shape Q)
              (call (T := RefTorch Toy.oracle) (MBase m)
                 [AEncoding Toy.text; AFloat Toy.categories] Toy.world).1)
    <$> Toy.base ∅
  = Some (Ok [2; 1]%nat)
  /\ (fun m => (BaseModel.forward (T := RefTorch Toy.oracle) m Toy.text
                  Toy.categories Toy.world).1)
       <$> Toy.base ∅
     <> (fun m => (BaseModel.forward (T := RefTorch Toy.oracle) m Toy.text
                     (Tensor [2; 2]%nat [0; 1; 1; 0]%Q) Toy.world).1)
          <$> Toy.base ∅.
Proof. split; [vm_compute; reflexivity | vm_compute; discriminate]. Qed.

(** C6, as the code has it.  The file defines exactly three model
    classes.  [BaseModel] and [BiLSTMModel] pair their text encoder with
    the shared head: a [category_encoder] whose output, next to the text
    representation (the encoder's [dim] features, the BiLSTM's
    [2 * hidden] features), is what the final linear [classifier] reads.
    [CustomDistilBertModel] has no [category_encoder]: its classifier
    reads the [dim] text features alone and has four outputs. *)
Theorem C6_three_classes_two_with_category_head :
  forall (R : Type) (SR : Scalar R) (O : Oracle R),
    (NoDup all_model_classes
     /\ length all_model_classes = 3%nat
     /\ forall c : model_class, c ∈ all_model_classes)
    /\ (forall cfg w0 m w1,
          BaseModel.__init__ (T := RefTorch O) cfg w0 = (Ok m, w1) ->
          has_category_head (MBase m) = true
          /\ classifier_reads
               (Z.to_nat (dim (bert_config (BaseModel.bert m))))
               (BaseModel.category_encoder m) (BaseModel.classifier m)
          /\ out_features (BaseModel.classifier m) = 1%nat)
    /\ (forall cfg w0 m w1,
          BiLSTMModel.__init__ (T := RefTorch O) cfg w0 = (Ok m, w1) ->
          has_category_head (MBiLSTM m) = true
          /\ classifier_reads
               (2 * lstm_hidden_size (BiLSTMModel.bilstm m))
               (BiLSTMModel.category_encoder m) (BiLSTMModel.classifier m)
          /\ out_features (BiLSTMModel.classifier m) = 1%nat)
    /\ (forall cfg w0 m w1,
          CustomDistilBertModel.__init__ (T := RefTorch O) cfg w0 = (Ok m, w1) ->
          has_child "category_encoder" (MCustom m) = false
          /\ has_child "classifier" (MCustom m) = true
          /\ in_features (CustomDistilBertModel.classifier m)
             = Z.to_nat (dim (bert_config (CustomDistilBertModel.bert m)))
          /\ out_features (CustomDistilBertModel.classifier m) = 4%nat).
Proof.
  intros R SR O. split; [|split; [|split]].
  - split; [|split; [reflexivity|]].
    + compute_done.
    + intros []; compute_done.
  - intros cfg w0 m w1 H.
    apply BaseModel_init_made in H
      as (c & b & v & l1 & l2 & p & n_in & n_out & _ & _ & _ & _ & _ & Hb & _
          & _ & _ & _ & _ & _ & _ & He & Hl2 & Hc).
    split; [reflexivity|].
    destruct Hl2 as (_ & Hl2o & _), Hc as (Hci & Hco & _).
    split; [|done]. exists l2. rewrite Hb. simpl. by rewrite Hl2o.
  - intros cfg w0 m w1 H.
    apply BiLSTMModel_init_made in H
      as (c & l2 & n_vocab & n_emb & n_in & n_out & n_hidden & _ & _ & _ & _
          & _ & _ & _ & _ & _ & _ & _ & _ & _ & _ & _ & _ & _ & Hlh & _ & _
          & He & Hl2 & Hc).
    split; [reflexivity|].
    destruct Hl2 as (_ & Hl2o & _), Hc as (Hci & Hco & _).
    split; [|done]. exists l2. by rewrite Hlh, Hl2o.
  - intros cfg w0 m w1 H.
    apply CustomDistilBertModel_init_made in H
      as (c & b & v & l1 & p & _ & _ & _ & _ & _ & _ & Hb & _ & _ & _ & Hc).
    destruct Hc as (Hci & Hco & _).
    split; [reflexivity|]. split; [reflexivity|].
    rewrite Hb. simpl. done.
Qed.

Lemma C6_witness :
  exists mb wb ml wl mc wc,
    BaseModel.__init__ (T := RefTorch Toy.oracle) ∅ Toy.world = (Ok mb, wb)
    /\ BiLSTMModel.__init__ (T := RefTorch Toy.oracle)
         {[ "vocab_size" := VInt 5 ]} Toy.world = (Ok ml, wl)
    /\ CustomDistilBertModel.__init__ (T := RefTorch Toy.oracle) ∅ Toy.world
       = (Ok mc, wc)
    /\ has_category_head (MBase mb) = true
    /\ has_category_head (MBiLSTM ml) = true
    /\ has_child "category_encoder" (MCustom mc) = false.
Proof.
  destruct (@C6_three_classes_two_with_category_head Q Toy.Q_scalar Toy.oracle)
    as (_ & HB & HL & HC).
  eexists _, _, _, _, _, _.
  split; [vm_compute; reflexivity|].
  split; [vm_compute; reflexivity|].
  split; [vm_compute; reflexivity|].
  split; [|split].
  - eapply (HB ∅ Toy.world). vm_compute. reflexivity.
  - eapply (HL {[ "vocab_size" := VInt 5 ]} Toy.world). vm_compute. reflexivity.
  - eapply (HC ∅ Toy.world). vm_compute. reflexivity.
Defined.

(** C6 as stated fails: a constructed [CustomDistilBertModel] has no
    [category_encoder] among its submodules. *)
Lemma C6_counterexample :
  (fun m => has_category_head (MCustom m)) <$> Toy.custom ∅ = Some false.
Proof. vm_compute. reflexivity. Qed.

(** * Further properties of the code *)

(** ** What the forward pass leaves of the world *)

Section Frames.
Context {R : Type} {SR : Scalar R} (O : Oracle R).

Lemma only_rng_moves_refl (w : World R) : only_rng_moves w w.
Proof. repeat split. Qed.

Lemma only_rng_moves_trans (w1 w2 w3 : World R) :
  only_rng_moves w1 w2 -> only_rng_moves w2 w3 -> only_rng_moves w1 w3.
Proof.
  intros (Ha & Hb & Hc & Hd & He & Hf & Hg & Hh)
         (Ha' & Hb' & Hc' & Hd' & He' & Hf' & Hg' & Hh').
  repeat split; try congruence.
  intros Ht. rewrite Hh' by congruence. by apply Hh.
Qed.

Lemma frames_ret {A} (a : A) : frames (R := R) (ret a).
Proof. intros w. apply only_rng_moves_refl. Qed.

Lemma frames_lift {A} (r : result A) : frames (R := R) (lift r).
Proof. intros w. apply only_rng_moves_refl. Qed.

Lemma frames_bind {A B} (c : M (World R) A) (k : A -> M (World R) B) :
  frames c -> (forall a, frames (k a)) -> frames (bind c k).
Proof.
  intros Hc Hk w. unfold bind. specialize (Hc w).
  destruct (c w) as [[a|e] w1]; simpl in *; [|done].
  eapply only_rng_moves_trans; [exact Hc | apply Hk].
Qed.

Lemma frames_dropout (p : Dropout R) (x : tensor R) : frames (Ref.dropout O p x).
Proof.
  intros w. unfold Ref.dropout.
  destruct (w_training w) eqn:Ht; simpl; [|apply only_rng_moves_refl].
  repeat split. simpl. congruence.
Qed.

Lemma frames_Sequential_call (s : Sequential R) (x : tensor R) :
  frames (Sequential_call (T := RefTorch O) s x).
Proof.
  revert x. induction s as [|l s IH]; intros x; simpl.
  - apply frames_ret.
  - apply frames_bind; [|done].
    destruct l; simpl;
      [apply frames_lift | apply frames_ret | apply frames_dropout].
Qed.

Lemma frames_no_grad {A} (r : result A) :
  frames (py_with (Ref.enter_no_grad (R := R)) (Ref.exit_no_grad (R := R))
                  (lift r)).
Proof.
  intros w. unfold py_with, Ref.enter_no_grad, Ref.exit_no_grad, lift. simpl.
  destruct w; repeat split.
Qed.

Ltac frames_step :=
  first
    [ apply frames_ret | apply frames_lift | apply frames_no_grad
    | apply frames_Sequential_call
    | apply frames_bind; [|intros ?] ].

Lemma BaseModel_forward_frames m e c :
  frames (BaseModel.forward (T := RefTorch O) m e c).
Proof. unfold BaseModel.forward. simpl. repeat frames_step. Qed.

Lemma BiLSTMModel_forward_frames m e c :
  frames (BiLSTMModel.forward (T := RefTorch O) m e c).
Proof. unfold BiLSTMModel.forward. simpl. repeat frames_step. Qed.

Lemma CustomDistilBertModel_forward_frames m e :
  frames (CustomDistilBertModel.forward (T := RefTorch O) m e).
Proof. unfold CustomDistilBertModel.forward. simpl. repeat frames_step. Qed.
End Frames.

(** X1.  The forward pass of each class, on any model object and any
    input, whether it returns or raises, leaves the world as it found
    it except for the random generator, which dropout advances in
    training mode only: nothing is logged, no metric is updated, and the
    gradient mode that [CustomDistilBertModel.forward] switches off
    around the encoder is back to what it was. *)
Theorem X1_forward_only_draws_random_numbers :
  forall (R : Type) (SR : Scalar R) (O : Oracle R),
    (forall m e c, frames (BaseModel.forward (T := RefTorch O) m e c))
    /\ (forall m e c, frames (BiLSTMModel.forward (T := RefTorch O) m e c))
    /\ (forall m e,
          frames (CustomDistilBertModel.forward (T := RefTorch O) m e)).
Proof.
  intros R SR O. split; [|split]; intros.
  - apply BaseModel_forward_frames.
  - apply BiLSTMModel_forward_frames.
  - apply CustomDistilBertModel_forward_frames.
Qed.

(** Run: with the encoder rejecting the input, the stance model's
    forward raises and the gradient mode is still on afterwards. *)
Example no_grad_is_left_on_failure :
  (fun m =>
     let r := CustomDistilBertModel.forward (T := RefTorch Toy.oracle) m
                {| input_ids := Tensor [2; 2]%nat [1; 2; 3; 4]%Z;
                   attention_mask := Tensor [2]%nat [1; 1]%Z |} Toy.world in
     (error_of r.1, w_grad_enabled r.2))
    <$> Toy.custom ∅
  = Some (Some (RuntimeError
                  "The size of tensor a must match the size of tensor b"),
          true).
Proof. vm_compute. reflexivity. Qed.

(** ** What the constructors do to the world *)

Section World.
Context {R : Type} {SR : Scalar R} (O : Oracle R).

Lemma new_param_world name s w p w' :
  Ref.new_param O name s w = (Ok p, w') -> exists n, w' = Ref.set_rng n w.
Proof. unfold Ref.new_param. intros [= _ <-]. eauto. Qed.

Lemma set_rng_set_rng n n' (w : World R) :
  Ref.set_rng n (Ref.set_rng n' w) = Ref.set_rng n w.
Proof. reflexivity. Qed.

Lemma new_params_world specs w ps w' :
  Ref.new_params O specs w = (Ok ps, w') ->
  w' = w \/ exists n, w' = Ref.set_rng n w.
Proof.
  revert w ps w'.
  induction specs as [|[name s] specs IH]; intros w ps w'; simpl.
  - intros [= _ <-]. by left.
  - intros H.
    apply bind_Ok_inv in H as (p & w1 & Hp & H).
    apply bind_Ok_inv in H as (ps' & w2 & Hps & H).
    apply ret_Ok_inv in H as [_ ->].
    apply new_param_world in Hp as (n & ->).
    apply IH in Hps as [->|(n' & ->)]; right; eauto.
Qed.

Lemma Linear_new_world a b w l w' :
  Ref.Linear_new O a b w = (Ok l, w') -> exists n, w' = Ref.set_rng n w.
Proof.
  unfold Ref.Linear_new. intros H.
  apply bind_Ok_inv in H as (n_in & w1 & H1 & H). inv_lift H1.
  apply bind_Ok_inv in H as (n_out & w2 & H2 & H). inv_lift H2.
  apply bind_Ok_inv in H as (pw & w3 & H3 & H).
  apply bind_Ok_inv in H as (pb & w4 & H4 & H).
  apply ret_Ok_inv in H as [_ ->].
  apply new_param_world in H3 as (n & ->).
  apply new_param_world in H4 as (n' & ->). eauto.
Qed.

Lemma Embedding_new_world a b w e w' :
  Ref.Embedding_new O a b w = (Ok e, w') -> exists n, w' = Ref.set_rng n w.
Proof.
  unfold Ref.Embedding_new. intros H.
  apply bind_Ok_inv in H as (n & w1 & Hn & H). inv_lift Hn.
  apply bind_Ok_inv in H as (d & w2 & Hd & H). inv_lift Hd.
  apply bind_Ok_inv in H as (p & w3 & Hp & H).
  apply ret_Ok_inv in H as [_ ->].
  by apply new_param_world in Hp.
Qed.

Lemma LSTM_new_world a b bi bf w l w' :
  Ref.LSTM_new O a b bi bf w = (Ok l, w') ->
  w' = w \/ exists n, w' = Ref.set_rng n w.
Proof.
  unfold Ref.LSTM_new. intros H.
  apply bind_Ok_inv in H as (n & w1 & Hn & H). inv_lift Hn.
  apply bind_Ok_inv in H as (h & w2 & Hh & H). inv_lift Hh.
  apply bind_Ok_inv in H as (u & w2' & Hpos & H). inv_lift Hpos.
  apply bind_Ok_inv in H as (ps & w3 & Hps & H).
  apply ret_Ok_inv in H as [_ ->].
  by apply new_params_world in Hps.
Qed.

Lemma new_metric_inv c (w : World R) m w' :
  Ref.new_metric c w = (Ok m, w') ->
  metric_is c (w_next_slot w) m /\ w' = Ref.set_next_slot (S (w_next_slot w)) w.
Proof. unfold Ref.new_metric. intros [= <- <-]. done. Qed.

Lemma BaseModel_init_world cfg w0 m w1 :
  BaseModel.__init__ (T := RefTorch O) cfg w0 = (Ok m, w1) ->
  exists c,
    o_create_config O cfg = Ok c
    /\ constructed_world c 3 w0 w1
    /\ metric_is MeanSquaredError_cls (w_next_slot w0) (BaseModel.train_metric m)
    /\ metric_is MeanSquaredError_cls (1 + w_next_slot w0) (BaseModel.val_metric m)
    /\ metric_is MeanSquaredError_cls (2 + w_next_slot w0) (BaseModel.test_metric m).
Proof.
  intros H. unfold BaseModel.__init__ in H. simpl in H.
  apply bind_Ok_inv in H as (u & wa & Hu & H). apply ret_Ok_inv in Hu as [_ ->].
  apply bind_Ok_inv in H as (c & wb & Hc & H). inv_lift Hc.
  apply bind_Ok_inv in H as (u' & wc & Hs & H).
  unfold Ref.hparams_save in Hs. injection Hs as _ <-.
  apply bind_Ok_inv in H as (lr & wd & Hlr & H). inv_lift Hlr.
  apply bind_Ok_inv in H as (m1 & we & H1 & H).
  apply new_metric_inv in H1 as [Hm1 ->].
  apply bind_Ok_inv in H as (m2 & wf & H2 & H).
  apply new_metric_inv in H2 as [Hm2 ->].
  apply bind_Ok_inv in H as (m3 & wg & H3 & H).
  apply new_metric_inv in H3 as [Hm3 ->].
  apply bind_Ok_inv in H as (b & wh & Hb & H). inv_lift Hb.
  apply bind_Ok_inv in H as (v & wi & Hv & H). inv_lift Hv.
  apply bind_Ok_inv in H as (c' & wj & Hc' & H).
  assert (wj = Ref.set_next_slot (S (S (S (w_next_slot w0))))
                 (Ref.set_hparams (w_hparams w0 ++ [c]) w0)) as ->.
  { destruct (py_eq v (VInt 0)); by apply ret_Ok_inv in Hc' as [_ ->]. }
  clear Hc'.
  apply bind_Ok_inv in H as (l1 & wk & Hl1 & H).
  apply Linear_new_world in Hl1 as (n1 & ->).
  apply bind_Ok_inv in H as (p & wl & Hp & H). inv_lift Hp.
  apply bind_Ok_inv in H as (n_in & wm & Hin & H). inv_lift Hin.
  apply bind_Ok_inv in H as (n_out & wn & Hout & H). inv_lift Hout.
  apply bind_Ok_inv in H as (l2 & wo & Hl2 & H).
  apply Linear_new_world in Hl2 as (n2 & ->).
  apply bind_Ok_inv in H as (n_out' & wp & Hout' & H). inv_lift Hout'.
  apply bind_Ok_inv in H as (n & wq & Hn & H). inv_lift Hn.
  apply bind_Ok_inv in H as (cl & wr & Hcl & H).
  apply Linear_new_world in Hcl as (n3 & ->).
  apply ret_Ok_inv in H as [-> ->].
  exists c. unfold metric_is in *. simpl in *.
  destruct Hm1, Hm2, Hm3. repeat split; done.
Qed.

Lemma CustomDistilBertModel_init_world cfg w0 m w1 :
  CustomDistilBertModel.__init__ (T := RefTorch O) cfg w0 = (Ok m, w1) ->
  exists c,
    o_create_config O cfg = Ok c
    /\ constructed_world c 3 w0 w1
    /\ metric_is F1_cls (w_next_slot w0) (CustomDistilBertModel.train_metric m)
    /\ metric_is F1_cls (1 + w_next_slot w0) (CustomDistilBertModel.val_metric m)
    /\ metric_is F1_cls (2 + w_next_slot w0) (CustomDistilBertModel.test_metric m).
Proof.
  intros H. unfold CustomDistilBertModel.__init__ in H. simpl in H.
  apply bind_Ok_inv in H as (u & wa & Hu & H). apply ret_Ok_inv in Hu as [_ ->].
  apply bind_Ok_inv in H as (c & wb & Hc & H). inv_lift Hc.
  apply bind_Ok_inv in H as (u' & wc & Hs & H).
  unfold Ref.hparams_save in Hs. injection Hs as _ <-.
  apply bind_Ok_inv in H as (lr & wd & Hlr & H). inv_lift Hlr.
  apply bind_Ok_inv in H as (m1 & we & H1 & H).
  apply new_metric_inv in H1 as [Hm1 ->].
  apply bind_Ok_inv in H as (m2 & wf & H2 & H).
  apply new_metric_inv in H2 as [Hm2 ->].
  apply bind_Ok_inv in H as (m3 & wg & H3 & H).
  apply new_metric_inv in H3 as [Hm3 ->].
  apply bind_Ok_inv in H as (b & wh & Hb & H). inv_lift Hb.
  apply bind_Ok_inv in H as (v & wi & Hv & H). inv_lift Hv.
  apply bind_Ok_inv in H as (c' & wj & Hc' & H).
  assert (wj = Ref.set_next_slot (S (S (S (w_next_slot w0))))
                 (Ref.set_hparams (w_hparams w0 ++ [c]) w0)) as ->.
  { destruct (py_eq v (VInt 0)); by apply ret_Ok_inv in Hc' as [_ ->]. }
  clear Hc'.
  apply bind_Ok_inv in H as (l1 & wk & Hl1 & H).
  apply Linear_new_world in Hl1 as (n1 & ->).
  apply bind_Ok_inv in H as (p & wl & Hp & H). inv_lift Hp.
  apply bind_Ok_inv in H as (cl & wr & Hcl & H).
  apply Linear_new_world in Hcl as (n3 & ->).
  apply ret_Ok_inv in H as [-> ->].
  exists c. unfold metric_is in *. simpl in *.
  destruct Hm1, Hm2, Hm3. repeat split; done.
Qed.

Lemma BiLSTMModel_init_world cfg w0 m w1 :
  BiLSTMModel.__init__ (T := RefTorch O) cfg w0 = (Ok m, w1) ->
  exists c,
    o_create_config O cfg = Ok c
    /\ constructed_world c 2 w0 w1
    /\ metric_is MeanSquaredError_cls (w_next_slot w0) (BiLSTMModel.train_metric m)
    /\ metric_is MeanSquaredError_cls (1 + w_next_slot w0)
         (BiLSTMModel.val_metric m).
Proof.
  intros H. unfold BiLSTMModel.__init__ in H. simpl in H.
  apply bind_Ok_inv in H as (u & wa & Hu & H). apply ret_Ok_inv in Hu as [_ ->].
  apply bind_Ok_inv in H as (c & wb & Hc & H). inv_lift Hc.
  apply bind_Ok_inv in H as (u' & wc & Hs & H).
  unfold Ref.hparams_save in Hs. injection Hs as _ <-.
  apply bind_Ok_inv in H as (lr & wd & Hlr & H). inv_lift Hlr.
  apply bind_Ok_inv in H as (m1 & we & H1 & H).
  apply new_metric_inv in H1 as [Hm1 ->].
  apply bind_Ok_inv in H as (m2 & wf & H2 & H).
  apply new_metric_inv in H2 as [Hm2 ->].
  apply bind_Ok_inv in H as (nv & wg & Hnv & H). inv_lift Hnv.
  apply bind_Ok_inv in H as (ne & wh & Hne & H). inv_lift Hne.
  apply bind_Ok_inv in H as (emb & wi & Hemb & H).
  apply Embedding_new_world in Hemb as (n1 & ->).
  apply bind_Ok_inv in H as (n_in & wj & Hin & H). inv_lift Hin.
  apply bind_Ok_inv in H as (n_out & wk & Hout & H). inv_lift Hout.
  apply bind_Ok_inv in H as (l2 & wl & Hl2 & H).
  apply Linear_new_world in Hl2 as (n2 & ->).
  apply bind_Ok_inv in H as (ne' & wm & Hne' & H). inv_lift Hne'.
  apply bind_Ok_inv in H as (nh & wn & Hnh & H). inv_lift Hnh.
  apply bind_Ok_inv in H as (lstm & wo & Hlstm & H).
  apply bind_Ok_inv in H as (nh' & wp & Hnh' & H). inv_lift Hnh'.
  apply bind_Ok_inv in H as (n2' & wq & Hn2 & H). inv_lift Hn2.
  apply bind_Ok_inv in H as (n_out' & wr & Hout' & H). inv_lift Hout'.
  apply bind_Ok_inv in H as (n & ws & Hn & H). inv_lift Hn.
  apply bind_Ok_inv in H as (cl & wt & Hcl & H).
  apply Linear_new_world in Hcl as (n3 & ->).
  apply ret_Ok_inv in H as [-> ->].
  exists c. unfold metric_is in *. simpl in *. destruct Hm1, Hm2.
  apply LSTM_new_world in Hlstm as [->|(n4 & ->)]; repeat split; done.
Qed.
End World.

(** ** Hyperparameters, metrics and epoch-end logging *)

(** X2.  The constructors of [BaseModel] and [CustomDistilBertModel]
    call [save_hyperparameters] before the ["vocab_size"] guard: the
    hyperparameters saved are the dict exactly as [create_config]
    returned it, so when its ["vocab_size"] compared equal to 0 the saved
    hyperparameters keep that value while [self.config] holds the
    encoder's vocabulary size. *)
Theorem X2_hparams_saved_before_vocab_overwrite :
  forall (R : Type) (SR : Scalar R) (O : Oracle R),
    (forall cfg w0 m w1,
        BaseModel.__init__ (T := RefTorch O) cfg w0 = (Ok m, w1) ->
        saved_before_overwrite O cfg (BaseModel.config m) w1)
    /\ (forall cfg w0 m w1,
          CustomDistilBertModel.__init__ (T := RefTorch O) cfg w0 = (Ok m, w1) ->
          saved_before_overwrite O cfg (CustomDistilBertModel.config m) w1).
Proof.
  intros R SR O. split; intros cfg w0 m w1 H.
  - pose proof (BaseModel_init_world _ _ _ H) as (c' & Hc' & Hw & _).
    apply BaseModel_init_made in H
      as (c & b & v & l1 & l2 & p & n_in & n_out & Hc & Hb & _ & Hv & Hcfg & _).
    rewrite Hc in Hc'. injection Hc' as <-.
    destruct Hw as (Hh & _).
    exists c, b, v. split; [done|]. split; [done|].
    split; [unfold saved_hparams; rewrite Hh; apply last_snoc|].
    split; [done|]. intros Hz. rewrite Hcfg. unfold stored_config.
    rewrite Hz. by rewrite lookup_insert_eq.
  - pose proof (CustomDistilBertModel_init_world _ _ _ H) as (c' & Hc' & Hw & _).
    apply CustomDistilBertModel_init_made in H
      as (c & b & v & l1 & p & Hc & Hb & _ & Hv & Hcfg & _).
    rewrite Hc in Hc'. injection Hc' as <-.
    destruct Hw as (Hh & _).
    exists c, b, v. split; [done|]. split; [done|].
    split; [unfold saved_hparams; rewrite Hh; apply last_snoc|].
    split; [done|]. intros Hz. rewrite Hcfg. unfold stored_config.
    rewrite Hz. by rewrite lookup_insert_eq.
Qed.

Lemma X2_witness :
  exists m w1,
    BaseModel.__init__ (T := RefTorch Toy.oracle) ∅ Toy.world = (Ok m, w1)
    /\ saved_before_overwrite Toy.oracle ∅ (BaseModel.config m) w1.
Proof.
  destruct (@X2_hparams_saved_before_vocab_overwrite Q Toy.Q_scalar Toy.oracle)
    as [HB _].
  eexists _, _. split; [vm_compute; reflexivity|].
  eapply (HB ∅ Toy.world). vm_compute. reflexivity.
Defined.

(** Run: with the default config the saved hyperparameters say
    [vocab_size = 0], the model's config says 30522. *)
Example saved_vocab_size_differs_from_config :
  (fun r : result (BaseModel.self Q) * World Q =>
     (result_map (fun m => BaseModel.config m !! "vocab_size") r.1,
      (fun c : dict Q => c !! "vocab_size") <$> saved_hparams r.2))
    (BaseModel.__init__ (T := RefTorch Toy.oracle) ∅ Toy.world)
  = (Ok (Some (VInt 30522)), Some (Some (VInt 0))).
Proof. vm_compute. reflexivity. Qed.

Section Metrics.
Context {R : Type} {SR : Scalar R} (O : Oracle R).

Lemma separate_slots_unaffected (m m' : Metric) :
  metric_slot m <> metric_slot m' -> unaffected_by_update O m m'.
Proof.
  intros Hne. split; intros p t w w' H; simpl in *.
  - unfold Ref.metric_update in H.
    destruct (bool_decide (shape p = shape t)); [|discriminate].
    injection H as <-. unfold Ref.compute.
    destruct (metric_cls m'); simpl; [|done].
    rewrite filter_app, filter_cons_False, filter_nil, app_nil_r by (simpl; done).
    done.
  - unfold Ref.metric_update_classes in H.
    destruct (bool_decide (shape p = shape t)); [|discriminate].
    injection H as <-. unfold Ref.compute.
    destruct (metric_cls m'); simpl; [done|].
    rewrite filter_app, filter_cons_False, filter_nil, app_nil_r by (simpl; done).
    done.
Qed.

Lemma metric_is_separate c c' s s' (m m' : Metric) :
  metric_is c s m -> metric_is c' s' m' -> s <> s' ->
  unaffected_by_update O m m'.
Proof.
  intros [_ Hs] [_ Hs'] Hne. apply separate_slots_unaffected. congruence.
Qed.

Lemma epoch_end_logs c s (m : Metric) (key : string) :
  metric_is c s m ->
  logs_metric O key m
    (let* v := metric_compute (Torch := RefTorch O) m in
     log (Torch := RefTorch O) key v []).
Proof.
  intros [Hc _] w. simpl. unfold Ref.compute, bind. rewrite Hc.
  destruct c; eexists; (split; [reflexivity|]); reflexivity.
Qed.
End Metrics.

(** X3.  The metrics a constructor creates are separate accumulators:
    calling one of them on a batch (as [training_step] does with
    [train_metric], [validation_step] with [val_metric], [test_step]
    with [test_metric]) never changes what another one computes at the
    end of the epoch. *)
Theorem X3_metrics_are_separate_accumulators :
  forall (R : Type) (SR : Scalar R) (O : Oracle R),
    (forall cfg w0 m w1,
        BaseModel.__init__ (T := RefTorch O) cfg w0 = (Ok m, w1) ->
        unaffected_by_update O (BaseModel.train_metric m) (BaseModel.val_metric m)
        /\ unaffected_by_update O (BaseModel.val_metric m)
             (BaseModel.train_metric m))
    /\ (forall cfg w0 m w1,
          BiLSTMModel.__init__ (T := RefTorch O) cfg w0 = (Ok m, w1) ->
          unaffected_by_update O (BiLSTMModel.train_metric m)
            (BiLSTMModel.val_metric m)
          /\ unaffected_by_update O (BiLSTMModel.val_metric m)
               (BiLSTMModel.train_metric m))
    /\ (forall cfg w0 m w1,
          CustomDistilBertModel.__init__ (T := RefTorch O) cfg w0 = (Ok m, w1) ->
          let train := CustomDistilBertModel.train_metric m in
          let val := CustomDistilBertModel.val_metric m in
          let test := CustomDistilBertModel.test_metric m in
          unaffected_by_update O train val /\ unaffected_by_update O train test
          /\ unaffected_by_update O val train /\ unaffected_by_update O val test
          /\ unaffected_by_update O test train
          /\ unaffected_by_update O test val).
Proof.
  intros R SR O. split; [|split]; intros cfg w0 m w1 H.
  - apply BaseModel_init_world in H as (c & _ & _ & H1 & H2 & _).
    split; eapply metric_is_separate; eauto; lia.
  - apply BiLSTMModel_init_world in H as (c & _ & _ & H1 & H2).
    split; eapply metric_is_separate; eauto; lia.
  - apply CustomDistilBertModel_init_world in H as (c & _ & _ & H1 & H2 & H3).
    simpl. repeat split; eapply metric_is_separate; eauto; lia.
Qed.

Lemma X3_witness :
  exists m w1,
    BaseModel.__init__ (T := RefTorch Toy.oracle) ∅ Toy.world = (Ok m, w1)
    /\ unaffected_by_update Toy.oracle (BaseModel.train_metric m)
         (BaseModel.val_metric m)
    /\ unaffected_by_update Toy.oracle (BaseModel.val_metric m)
         (BaseModel.train_metric m).
Proof.
  destruct (@X3_metrics_are_separate_accumulators Q Toy.Q_scalar Toy.oracle)
    as [HB _].
  eexists _, _. split; [vm_compute; reflexivity|].
  eapply (HB ∅ Toy.world). vm_compute. reflexivity.
Defined.

(** X4.  Each epoch-end hook of a constructed model computes its metric
    and logs that one value, always returning.  The keys are
    ["train_epochMeanSquaredError"] (no underscore after [epoch]) and
    ["val_epoch_MeanSquaredError"] for [BaseModel] and [BiLSTMModel],
    whose validation hook takes the class name from [train_metric] and
    the value from [val_metric]; and ["train_epoch_F1"],
    ["val_epoch_F1"], ["test_epoch_F1"] for [CustomDistilBertModel]. *)
Theorem X4_epoch_end_logging_keys :
  forall (R : Type) (SR : Scalar R) (O : Oracle R) (X : Type) (outs : X),
    (forall cfg w0 m w1,
        BaseModel.__init__ (T := RefTorch O) cfg w0 = (Ok m, w1) ->
        logs_metric O "train_epochMeanSquaredError" (BaseModel.train_metric m)
          (BaseModel.training_epoch_end (T := RefTorch O) m outs)
        /\ logs_metric O "val_epoch_MeanSquaredError" (BaseModel.val_metric m)
             (BaseModel.validation_epoch_end (T := RefTorch O) m outs))
    /\ (forall cfg w0 m w1,
          BiLSTMModel.__init__ (T := RefTorch O) cfg w0 = (Ok m, w1) ->
          logs_metric O "train_epochMeanSquaredError" (BiLSTMModel.train_metric m)
            (BiLSTMModel.training_epoch_end (T := RefTorch O) m outs)
          /\ logs_metric O "val_epoch_MeanSquaredError" (BiLSTMModel.val_metric m)
               (BiLSTMModel.validation_epoch_end (T := RefTorch O) m outs))
    /\ (forall cfg w0 m w1,
          CustomDistilBertModel.__init__ (T := RefTorch O) cfg w0 = (Ok m, w1) ->
          logs_metric O "train_epoch_F1" (CustomDistilBertModel.train_metric m)
            (CustomDistilBertModel.training_epoch_end (T := RefTorch O) m outs)
          /\ logs_metric O "val_epoch_F1" (CustomDistilBertModel.val_metric m)
               (CustomDistilBertModel.validation_epoch_end (T := RefTorch O) m outs)
          /\ logs_metric O "test_epoch_F1" (CustomDistilBertModel.test_metric m)
               (CustomDistilBertModel.test_epoch_end (T := RefTorch O) m outs)).
Proof.
  intros R SR O X outs. split; [|split]; intros cfg w0 m w1 H.
  - apply BaseModel_init_world in H as (c & _ & _ & H1 & H2 & _).
    unfold BaseModel.training_epoch_end, BaseModel.validation_epoch_end, type_name.
    rewrite (proj1 H1).
    split; eapply epoch_end_logs; eauto.
  - apply BiLSTMModel_init_world in H as (c & _ & _ & H1 & H2).
    unfold BiLSTMModel.training_epoch_end, BiLSTMModel.validation_epoch_end,
      type_name.
    rewrite (proj1 H1).
    split; eapply epoch_end_logs; eauto.
  - apply CustomDistilBertModel_init_world in H as (c & _ & _ & H1 & H2 & H3).
    unfold CustomDistilBertModel.training_epoch_end,
      CustomDistilBertModel.validation_epoch_end,
      CustomDistilBertModel.test_epoch_end, type_name.
    rewrite (proj1 H1), (proj1 H2), (proj1 H3).
    repeat split; eapply epoch_end_logs; eauto.
Qed.

Lemma X4_witness :
  exists m w1,
    BaseModel.__init__ (T := RefTorch Toy.oracle) ∅ Toy.world = (Ok m, w1)
    /\ logs_metric Toy.oracle "train_epochMeanSquaredError"
         (BaseModel.train_metric m)
         (BaseModel.training_epoch_end (T := RefTorch Toy.oracle) m tt)
    /\ logs_metric Toy.oracle "val_epoch_MeanSquaredError"
         (BaseModel.val_metric m)
         (BaseModel.validation_epoch_end (T := RefTorch Toy.oracle) m tt).
Proof.
  destruct (@X4_epoch_end_logging_keys Q Toy.Q_scalar Toy.oracle unit tt)
    as [HB _].
  eexists _, _. split; [vm_compute; reflexivity|].
  eapply (HB ∅ Toy.world). vm_compute. reflexivity.
Defined.

(** ** Edge cases of the constructors and forward passes *)

Section Edges.
Context {R : Type} {SR : Scalar R} (O : Oracle R).

Lemma select_empty {A} (h : tensor A) (bs d : nat) (i : Z) :
  shape h = [bs; 0%nat; d] ->
  exists what, Ref.select h 1 i = Err (IndexError what).
Proof.
  intros Hs. unfold Ref.select, Ref.norm_index. rewrite Hs. simpl.
  match goal with
  | |- context [((0 <=? ?j) && (?j <? ?k))%Z] =>
      destruct (Z.leb_spec 0 j); destruct (Z.ltb_spec j k); simpl; eauto;
      destruct (i <? 0)%Z; lia
  end.
Qed.

Lemma distilbert_shape (b : DistilBertModel R) (ids mask : tensor Z)
    (h : tensor R) (bs len : nat) :
  shape ids = [bs; len] ->
  Ref.distilbert O b ids mask = Ok h ->
  shape h = [bs; len; Z.to_nat (dim (bert_config b))].
Proof.
  intros Hs. unfold Ref.distilbert. rewrite Hs.
  case_bool_decide; [|done].
  destruct (o_bert O b ids mask); [|done]. by intros [= <-].
Qed.

Lemma embedding_shape (e : Embedding R) (ids : tensor Z) (x : tensor R) :
  Ref.embedding e ids = Ok x -> shape x = shape ids ++ [embedding_dim e].
Proof.
  unfold Ref.embedding. destruct (forallb _ _); [by intros [= <-]|].
  by destruct (_ =? _)%nat.
Qed.

Lemma lstm_shape (l : LSTM R) (x y : tensor R) (bs len n : nat) :
  shape x = [bs; len; n] ->
  Ref.lstm O l x = Ok y -> exists k, shape y = [bs; len; k].
Proof.
  intros Hs. unfold Ref.lstm. rewrite Hs.
  destruct (_ =? _)%nat; [|done]. intros [= <-]. eauto.
Qed.

Lemma py_with_Ok_inv {W T A} (enter : M W T) (exit : T -> W -> W)
    (body : M W A) w a w' :
  py_with enter exit body w = (Ok a, w') ->
  exists t w1 w2, enter w = (Ok t, w1) /\ body w1 = (Ok a, w2).
Proof.
  unfold py_with. destruct (enter w) as [[t|e] w1]; [|done].
  destruct (body w1) as [[x|e] w2] eqn:Hbody; [|done]. intros [= -> _].
  by exists t, w1, w2.
Qed.

Lemma BaseModel_forward_empty m text cats w bs :
  shape (input_ids text) = [bs; 0%nat] ->
  raises (BaseModel.forward (T := RefTorch O) m text cats w).
Proof.
  intros Hids. unfold raises.
  destruct (BaseModel.forward (T := RefTorch O) m text cats w)
    as [[out|e] w'] eqn:H; [|done].
  exfalso. unfold BaseModel.forward in H. simpl in H.
  apply bind_Ok_inv in H as (h & w1 & Hb & H). inv_lift Hb.
  apply bind_Ok_inv in H as (p & w2 & Hsel & _). inv_lift Hsel.
  apply distilbert_shape with (bs := bs) (len := 0%nat) in Hb; [|done].
  destruct (@select_empty R h bs _ 0%Z Hb) as (what & Hs). congruence.
Qed.

Lemma CustomDistilBertModel_forward_empty m text w bs :
  shape (input_ids text) = [bs; 0%nat] ->
  raises (CustomDistilBertModel.forward (T := RefTorch O) m text w).
Proof.
  intros Hids. unfold raises.
  destruct (CustomDistilBertModel.forward (T := RefTorch O) m text w)
    as [[out|e] w'] eqn:H; [|done].
  exfalso. unfold CustomDistilBertModel.forward in H. simpl in H.
  apply bind_Ok_inv in H as (h & w1 & Hb & H).
  apply py_with_Ok_inv in Hb as (t & wa & wb & _ & Hb). inv_lift Hb.
  apply bind_Ok_inv in H as (p & w2 & Hsel & _). inv_lift Hsel.
  apply distilbert_shape with (bs := bs) (len := 0%nat) in Hb; [|done].
  destruct (@select_empty R h bs _ 0%Z Hb) as (what & Hs). congruence.
Qed.

Lemma BiLSTMModel_forward_empty m ids cats w bs :
  shape ids = [bs; 0%nat] ->
  raises (BiLSTMModel.forward (T := RefTorch O) m ids cats w).
Proof.
  intros Hids. unfold raises.
  destruct (BiLSTMModel.forward (T := RefTorch O) m ids cats w)
    as [[out|e] w'] eqn:H; [|done].
  exfalso. unfold BiLSTMModel.forward in H. simpl in H.
  apply bind_Ok_inv in H as (emb & w1 & Hemb & H). inv_lift Hemb.
  apply bind_Ok_inv in H as (lo & w2 & Hl & H). inv_lift Hl.
  apply bind_Ok_inv in H as (ce & w3 & _ & H).
  apply bind_Ok_inv in H as (n & w4 & Hn & H). inv_lift Hn.
  apply bind_Ok_inv in H as (sel & w5 & Hsel & _). inv_lift Hsel.
  apply embedding_shape in Hemb. rewrite Hids in Hemb. simpl in Hemb.
  eapply lstm_shape in Hl as (k & Hout); [|exact Hemb].
  destruct (@select_empty R lo bs k (n - 1)%Z Hout) as (what & Hs). congruence.
Qed.
End Edges.

(** X5.  A batch whose texts have no tokens ([seq_len = 0]) never yields
    a prediction: the forward pass of each class raises, for every model
    object and whatever the encoder or the LSTM does with such a batch.
    In [BaseModel] and [CustomDistilBertModel], if the encoder itself
    returns a hidden state for the batch, the exception is the
    [IndexError] of [hidden_state[:, 0]], which has no position 0. *)
Theorem X5_empty_sequences_never_predict :
  forall (R : Type) (SR : Scalar R) (O : Oracle R),
    (forall m text cats w bs,
        shape (input_ids text) = [bs; 0%nat] ->
        raises (BaseModel.forward (T := RefTorch O) m text cats w))
    /\ (forall m text w bs,
          shape (input_ids text) = [bs; 0%nat] ->
          raises (CustomDistilBertModel.forward (T := RefTorch O) m text w))
    /\ (forall m ids cats w bs,
          shape ids = [bs; 0%nat] ->
          raises (BiLSTMModel.forward (T := RefTorch O) m ids cats w))
    /\ (forall m text cats w bs hd,
          shape (input_ids text) = [bs; 0%nat] ->
          shape (attention_mask text) = [bs; 0%nat] ->
          o_bert O (BaseModel.bert m) (input_ids text) (attention_mask text)
          = Ok hd ->
          raises_IndexError (BaseModel.forward (T := RefTorch O) m text cats w))
    /\ (forall m text w bs hd,
          shape (input_ids text) = [bs; 0%nat] ->
          shape (attention_mask text) = [bs; 0%nat] ->
          o_bert O (CustomDistilBertModel.bert m)
                 (input_ids text) (attention_mask text) = Ok hd ->
          raises_IndexError
            (CustomDistilBertModel.forward (T := RefTorch O) m text w)).
Proof.
  intros R SR O. split; [|split; [|split; [|split]]].
  - intros. by eapply BaseModel_forward_empty.
  - intros. by eapply CustomDistilBertModel_forward_empty.
  - intros. by eapply BiLSTMModel_forward_empty.
  - intros m text cats w bs hd Hids Hmask Hb.
    unfold raises_IndexError, BaseModel.forward. simpl.
    erewrite bind_Ok;
      [|unfold lift; erewrite distilbert_run by eassumption; reflexivity].
    destruct (@select_empty R
                (Tensor [bs; 0%nat; Z.to_nat (dim (bert_config (BaseModel.bert m)))]
                        hd) bs _ 0%Z eq_refl) as (what & Hsel).
    erewrite bind_Err; [|unfold lift; rewrite Hsel; reflexivity].
    eauto.
  - intros m text w bs hd Hids Hmask Hb.
    unfold raises_IndexError, CustomDistilBertModel.forward. simpl.
    erewrite bind_Ok;
      [|unfold py_with, Ref.enter_no_grad, lift;
        erewrite distilbert_run by eassumption; reflexivity].
    destruct (@select_empty R
                (Tensor [bs; 0%nat;
                         Z.to_nat (dim (bert_config (CustomDistilBertModel.bert m)))]
                        hd) bs _ 0%Z eq_refl) as (what & Hsel).
    erewrite bind_Err; [|unfold lift; rewrite Hsel; reflexivity].
    eauto.
Qed.

Lemma X5_witness :
  exists mb wb mc wc ml wl,
    BaseModel.__init__ (T := RefTorch Toy.oracle) ∅ Toy.world = (Ok mb, wb)
    /\ CustomDistilBertModel.__init__ (T := RefTorch Toy.oracle) ∅ Toy.world
       = (Ok mc, wc)
    /\ BiLSTMModel.__init__ (T := RefTorch Toy.oracle)
         {[ "vocab_size" := VInt 5 ]} Toy.world = (Ok ml, wl)
    /\ raises
         (BaseModel.forward (T := RefTorch Toy.oracle) mb empty_text
            Toy.categories Toy.world)
    /\ raises
         (CustomDistilBertModel.forward (T := RefTorch Toy.oracle) mc empty_text
            Toy.world)
    /\ raises
         (BiLSTMModel.forward (T := RefTorch Toy.oracle) ml empty_token_ids
            Toy.categories Toy.world)
    /\ raises_IndexError
         (BaseModel.forward (T := RefTorch Toy.oracle) mb empty_text
            Toy.categories Toy.world)
    /\ raises_IndexError
         (CustomDistilBertModel.forward (T := RefTorch Toy.oracle) mc empty_text
            Toy.world).
Proof.
  destruct (@X5_empty_sequences_never_predict Q Toy.Q_scalar Toy.oracle)
    as (HB & HC & HL & HBi & HCi).
  eexists _, _, _, _, _, _.
  split; [vm_compute; reflexivity|].
  split; [vm_compute; reflexivity|].
  split; [vm_compute; reflexivity|].
  split; [|split; [|split; [|split]]].
  - by eapply (HB _ empty_text Toy.categories Toy.world 2%nat).
  - by eapply (HC _ empty_text Toy.world 2%nat).
  - by eapply (HL _ empty_token_ids Toy.categories Toy.world 2%nat).
  - eapply (HBi _ empty_text Toy.categories Toy.world 2%nat).
    + reflexivity.
    + reflexivity.
    + vm_compute. reflexivity.
  - eapply (HCi _ empty_text Toy.world 2%nat).
    + reflexivity.
    + reflexivity.
    + vm_compute. reflexivity.
Defined.

(** X6.  [BiLSTMModel.__init__] stores the dict [create_config] returned
    unchanged (it has no ["vocab_size"] guard), and every parameter of
    the constructed model (embedding, category encoder, LSTM,
    classifier) is trainable: nothing is frozen. *)
Theorem X6_bilstm_keeps_config_and_trains_everything :
  forall (R : Type) (SR : Scalar R) (O : Oracle R) cfg w0 m w1,
    BiLSTMModel.__init__ (T := RefTorch O) cfg w0 = (Ok m, w1) ->
    o_create_config O cfg = Ok (BiLSTMModel.config m)
    /\ Forall (fun p => requires_grad p = true) (BiLSTMModel.parameters m).
Proof.
  intros R SR O cfg w0 m w1 H.
  apply BiLSTMModel_init_made in H
    as (c & l2 & n_vocab & n_emb & n_in & n_out & n_hidden & Hc & Hcfg & _ & _
        & _ & _ & _ & _ & _ & _ & _ & _ & _ & _ & _ & Hew & _ & _ & _ & Hlp
        & He & Hl2 & Hcl).
  split; [by rewrite Hcfg|].
  unfold BiLSTMModel.parameters. rewrite He.
  destruct Hl2 as (_ & _ & ? & ?), Hcl as (_ & _ & ? & ?).
  apply Forall_app. split; [by repeat constructor|].
  apply Forall_app. split; [unfold Sequential_parameters; simpl;
                            by repeat constructor|].
  apply Forall_app. split; [done | by repeat constructor].
Qed.

Lemma X6_witness :
  exists m w1,
    BiLSTMModel.__init__ (T := RefTorch Toy.oracle)
      {[ "vocab_size" := VInt 5 ]} Toy.world = (Ok m, w1)
    /\ o_create_config Toy.oracle {[ "vocab_size" := VInt 5 ]}
       = Ok (BiLSTMModel.config m)
    /\ Forall (fun p => requires_grad p = true) (BiLSTMModel.parameters m).
Proof.
  eexists _, _. split; [vm_compute; reflexivity|].
  eapply (@X6_bilstm_keeps_config_and_trains_everything Q Toy.Q_scalar
            Toy.oracle {[ "vocab_size" := VInt 5 ]} Toy.world).
  vm_compute. reflexivity.
Defined.

(** X7.  Since [BiLSTMModel] does not replace a ["vocab_size"] of 0, a
    model constructed from such a config has an embedding table without
    rows, and its forward pass raises on every batch that holds at least
    one token: the lookup in the empty table is a [RuntimeError]. *)
Theorem X7_bilstm_vocab_size_zero_rejects_tokens :
  forall (R : Type) (SR : Scalar R) (O : Oracle R) cfg w0 m w1 ids cats w,
    BiLSTMModel.__init__ (T := RefTorch O) cfg w0 = (Ok m, w1) ->
    BiLSTMModel.config m !! "vocab_size" = Some (VInt 0) ->
    data ids <> [] ->
    num_embeddings (BiLSTMModel.embedding m) = 0%nat
    /\ raises_RuntimeError (BiLSTMModel.forward (T := RefTorch O) m ids cats w).
Proof.
  intros R SR O cfg w0 m w1 ids cats w H Hv Hne.
  apply BiLSTMModel_init_made in H
    as (c & l2 & n_vocab & n_emb & n_in & n_out & n_hidden & _ & Hcfg & _ & Hv'
        & _ & _ & _ & _ & _ & _ & _ & _ & _ & Hnum & _).
  rewrite Hcfg in Hv. apply (int_entry_VInt Hv') in Hv as ->.
  split; [done|].
  unfold raises_RuntimeError, BiLSTMModel.forward. simpl.
  assert (Hemb : Ref.embedding (BiLSTMModel.embedding m) ids
                 = Err (RuntimeError
                          "index_select(): self indexing axis dim should be positive")).
  { unfold Ref.embedding. rewrite Hnum.
    destruct (data ids) as [|i l]; [done|].
    cbn [forallb]. change (Z.of_nat (Z.to_nat 0)) with 0%Z.
    destruct (Z.leb_spec 0 i), (Z.ltb_spec i 0); simpl; try reflexivity. lia. }
  unfold bind at 1. unfold lift at 1. rewrite Hemb. simpl. eauto.
Qed.

Lemma X7_witness :
  exists m w1,
    BiLSTMModel.__init__ (T := RefTorch Toy.oracle) ∅ Toy.world = (Ok m, w1)
    /\ num_embeddings (BiLSTMModel.embedding m) = 0%nat
    /\ raises_RuntimeError
         (BiLSTMModel.forward (T := RefTorch Toy.oracle) m Toy.token_ids
            Toy.categories Toy.world).
Proof.
  eexists _, _. split; [vm_compute; reflexivity|].
  eapply (@X7_bilstm_vocab_size_zero_rejects_tokens Q Toy.Q_scalar Toy.oracle
            ∅ Toy.world).
  - vm_compute. reflexivity.
  - vm_compute. reflexivity.
  - discriminate.
Defined.

(** X8.  If the dict [create_config] returns has no ["learning_rate"],
    each of the three constructors raises [KeyError('learning_rate')]. *)
Theorem X8_missing_learning_rate_is_KeyError :
  forall (R : Type) (SR : Scalar R) (O : Oracle R) cfg c w,
    o_create_config O cfg = Ok c ->
    c !! "learning_rate" = None ->
    raises_KeyError "learning_rate" (BaseModel.__init__ (T := RefTorch O) cfg w)
    /\ raises_KeyError "learning_rate"
         (BiLSTMModel.__init__ (T := RefTorch O) cfg w)
    /\ raises_KeyError "learning_rate"
         (CustomDistilBertModel.__init__ (T := RefTorch O) cfg w).
Proof.
  intros R SR O cfg c w Hc Hlr.
  unfold raises_KeyError, BaseModel.__init__, BiLSTMModel.__init__,
    CustomDistilBertModel.__init__.
  simpl. unfold bind, ret, lift, Ref.hparams_save, Ref.getitem.
  rewrite Hc, Hlr. done.
Qed.

Lemma X8_witness :
  raises_KeyError "learning_rate"
    (BaseModel.__init__ (T := RefTorch passthrough_oracle) ∅ Toy.world)
  /\ raises_KeyError "learning_rate"
       (BiLSTMModel.__init__ (T := RefTorch passthrough_oracle) ∅ Toy.world)
  /\ raises_KeyError "learning_rate"
       (CustomDistilBertModel.__init__ (T := RefTorch passthrough_oracle) ∅
          Toy.world).
Proof.
  apply (@X8_missing_learning_rate_is_KeyError Q Toy.Q_scalar passthrough_oracle
           ∅ ∅ Toy.world); reflexivity.
Defined.

Section Required.
Context {R : Type} {SR : Scalar R}.

Lemma size_entry_stored (c : dict R) v n k z :
  k ≠ "vocab_size" ->
  int_entry (stored_config c v n) k z -> (0 <= z)%Z -> size_entry c k.
Proof.
  intros Hk (x & Hx & Hz) Hpos. exists z. split; [|done].
  exists x. by rewrite <- (stored_config_other c v n Hk).
Qed.
End Required.

(** X9.  A constructor returns only if [create_config] supplied what it
    reads: a ["learning_rate"], a ["vocab_size"], and under every key
    used as a layer size an [int] that is not negative ([bool] is a
    subclass of [int]: [True] is the size 1), namely
    ["category_encoded_length"] and ["category_encoder_out"] for
    [BaseModel]; these two, ["vocab_size"] and ["embedding_dim"] for
    [BiLSTMModel], whose ["bilstm_hidden_dim"] has to be positive; none
    for [CustomDistilBertModel]. *)
Theorem X9_constructors_require_size_entries :
  forall (R : Type) (SR : Scalar R) (O : Oracle R),
    (forall cfg w0 m w1,
        BaseModel.__init__ (T := RefTorch O) cfg w0 = (Ok m, w1) ->
        config_has O cfg ["category_encoded_length"; "category_encoder_out"] [])
    /\ (forall cfg w0 m w1,
          BiLSTMModel.__init__ (T := RefTorch O) cfg w0 = (Ok m, w1) ->
          config_has O cfg
            ["vocab_size"; "embedding_dim"; "category_encoded_length";
             "category_encoder_out"]
            ["bilstm_hidden_dim"])
    /\ (forall cfg w0 m w1,
          CustomDistilBertModel.__init__ (T := RefTorch O) cfg w0 = (Ok m, w1) ->
          config_has O cfg [] []).
Proof.
  intros R SR O. split; [|split]; intros cfg w0 m w1 H.
  - apply BaseModel_init_made in H
      as (c & b & v & l1 & l2 & p & n_in & n_out & Hc & _ & Hlr & Hv & Hcfg & _
          & _ & _ & _ & Hin & Hin0 & Hout & Hout0 & _).
    rewrite Hcfg in Hin, Hout.
    exists c. split; [done|]. split; [eauto|]. split; [eauto|].
    split; [|constructor].
    repeat constructor; eapply size_entry_stored; eauto; discriminate.
  - apply BiLSTMModel_init_made in H
      as (c & l2 & n_vocab & n_emb & n_in & n_out & n_hidden & Hc & _ & Hlr & Hv
          & He & Hin & Hout & Hh & ? & ? & ? & ? & ? & _).
    exists c. split; [done|]. split; [eauto|].
    split; [destruct Hv as (x & -> & _); eauto|].
    split; repeat constructor; eexists; eauto.
  - apply CustomDistilBertModel_init_made in H
      as (c & b & v & l1 & p & Hc & _ & Hlr & Hv & _).
    exists c. split; [done|]. split; [eauto|]. split; [eauto|].
    split; constructor.
Qed.

Lemma X9_witness :
  exists m w1,
    BaseModel.__init__ (T := RefTorch Toy.oracle) ∅ Toy.world = (Ok m, w1)
    /\ config_has Toy.oracle ∅
         ["category_encoded_length"; "category_encoder_out"] [].
Proof.
  destruct (@X9_constructors_require_size_entries Q Toy.Q_scalar Toy.oracle)
    as [HB _].
  eexists _, _. split; [vm_compute; reflexivity|].
  eapply (HB ∅ Toy.world). vm_compute. reflexivity.
Defined.

(** Run: a float where a layer size is read is a [TypeError], a negative
    size a [RuntimeError]; [True] is taken as the size 1. *)
Example float_size_is_rejected :
  error_of
    (BaseModel.__init__ (T := RefTorch Toy.oracle)
       {[ "category_encoder_out" := VFloat 2%Q ]} Toy.world).1
  = Some (TypeError "empty(): argument 'size' must be tuple of ints")
  /\ error_of
       (BaseModel.__init__ (T := RefTorch Toy.oracle)
          {[ "category_encoder_out" := VInt (-1) ]} Toy.world).1
     = Some (RuntimeError "Trying to create tensor with negative dimension").
Proof. split; vm_compute; reflexivity. Qed.

Example bool_size_is_accepted :
  result_map (fun m => in_features (BaseModel.classifier m))
    (BaseModel.__init__ (T := RefTorch Toy.oracle)
       {[ "category_encoder_out" := VBool true ]} Toy.world).1
  = Ok 4%nat.
Proof. vm_compute. reflexivity. Qed.

(** ** What the forward passes and steps compute *)

Section BiLSTMRows.
Context {R : Type} {SR : Scalar R} (O : Oracle R).

Lemma select_rows_length {A} (d : list A) (bs len n j : nat) :
  length d = (bs * (len * n))%nat -> (j < len)%nat ->
  length (concat (map (fun i => Ref.row n j (Ref.row (len * n) i d)) (seq 0 bs)))
  = (bs * n)%nat.
Proof.
  intros Hd Hj. apply length_concat_rows. intros i Hi.
  apply row_length. rewrite row_length.
  - apply Nat.mul_le_mono_r. lia.
  - rewrite Hd. apply Nat.mul_le_mono_r. lia.
Qed.

Lemma BiLSTMModel_forward_rows cfg m ids cats w bs len n_in :
  BiLSTMModel_made O cfg m ->
  shape ids = [bs; len] ->
  (1 <= len)%nat ->
  Forall (fun i => (0 <= i < Z.of_nat (num_embeddings (BiLSTMModel.embedding m)))%Z)
         (data ids) ->
  (forall x,
      shape x = [bs; len; embedding_dim (BiLSTMModel.embedding m)] ->
      length (o_lstm O (BiLSTMModel.bilstm m) x)
      = (bs * (len * (2 * lstm_hidden_size (BiLSTMModel.bilstm m))))%nat) ->
  BiLSTMModel.config m !! "category_encoded_length" = Some (VInt n_in) ->
  shape cats = [bs; Z.to_nat n_in] ->
  exists embeddings lstm_out categories_encoded,
    Ref.embedding (BiLSTMModel.embedding m) ids = Ok embeddings
    /\ Ref.lstm O (BiLSTMModel.bilstm m) embeddings = Ok lstm_out
    /\ Sequential_call (T := RefTorch O) (BiLSTMModel.category_encoder m) cats w
       = (Ok categories_encoded, w)
    /\ BiLSTMModel.forward (T := RefTorch O) m ids cats w
       = (Ok (classify_concatenated (BiLSTMModel.classifier m) bs
                (hidden_at_last bs len lstm_out) categories_encoded), w).
Proof.
  intros (c & l2 & n_vocab & n_emb & n_in' & n_out & n_hidden & _ & Hcfg & _ & _
          & _ & Hin & _ & _ & _ & _ & _ & _ & _ & _ & Hed & _ & Hli & Hlh & Hlb
          & _ & He & Hl2 & Hc)
         Hids Hlen Hrange Hwf Hin' Hcats.
  rewrite Hcfg in Hin'. apply (int_entry_VInt Hin) in Hin' as ->.
  destruct Hl2 as (Hl2i & Hl2o & _), Hc as (Hci & Hco & _).
  destruct (embedding_run _ _ Hrange) as (ed & Hemb).
  destruct (@encoder_run R SR O l2 cats bs (Z.to_nat n_in) w)
    as (ce & Henc & Hcs & Hcl); [done | done |].
  set (h := Z.to_nat n_hidden) in *.
  set (emb := Tensor (shape ids ++ [embedding_dim (BiLSTMModel.embedding m)]) ed)
    in *.
  set (lo := Tensor [bs; len; (2 * h)%nat] (o_lstm O (BiLSTMModel.bilstm m) emb)).
  assert (Hlstm : Ref.lstm O (BiLSTMModel.bilstm m) emb = Ok lo).
  { assert (Hsame : lstm_input_size (BiLSTMModel.bilstm m)
                    = embedding_dim (BiLSTMModel.embedding m)) by congruence.
    unfold Ref.lstm.
    change (shape emb)
      with (shape ids ++ [embedding_dim (BiLSTMModel.embedding m)]).
    rewrite Hids. cbn [app]. rewrite Hsame, Nat.eqb_refl, Hlb, Hlh.
    reflexivity. }
  exists emb, lo, ce. rewrite He.
  split; [done|]. split; [done|]. split; [done|].
  unfold BiLSTMModel.forward. simpl.
  erewrite bind_Ok; [|unfold lift; rewrite Hemb; reflexivity].
  erewrite bind_Ok; [|unfold lift; rewrite Hlstm; reflexivity].
  rewrite He. erewrite bind_Ok by exact Henc.
  erewrite bind_Ok; [|unfold lift, Ref.size_at; simpl; reflexivity].
  replace (Z.of_nat len - 1)%Z with (Z.of_nat (len - 1)) by lia.
  erewrite bind_Ok;
    [|unfold lift;
      rewrite (@select_at R lo bs len (2 * h)%nat (len - 1)%nat)
        by (done || lia);
      reflexivity].
  erewrite bind_Ok;
    [|unfold lift;
      rewrite cat_features
        with (bs := bs) (n := (2 * h)%nat) (m := Z.to_nat n_out)
        by (by rewrite ?Hcs, ?Hl2o);
      reflexivity].
  erewrite bind_Ok;
    [|unfold lift;
      rewrite linear_2d
        with (bs := bs) (n := (2 * h + Z.to_nat n_out)%nat)
        by done;
      reflexivity].
  unfold ret, classify_concatenated, hidden_at_last. simpl. do 4 f_equal.
  apply map_ext_in. intros i Hi. apply in_seq in Hi. f_equal.
  unfold width. rewrite Hcs, Hl2o. simpl.
  match goal with
  | |- Ref.row _ i (concat (map ?f _)) = _ =>
      apply (row_concat_rows f); [|lia]
  end.
  intros j Hj. rewrite length_app, !row_length; [done | |].
  - rewrite Hcl, Hl2o. apply Nat.mul_le_mono_r. lia.
  - rewrite select_rows_length; [apply Nat.mul_le_mono_r; lia | | lia].
    unfold lo. simpl. rewrite Hwf; [by rewrite Hlh|].
    unfold emb. simpl. by rewrite Hids.
Qed.
End BiLSTMRows.

(** X10.  [BiLSTMModel.forward] on a constructed model and a well-formed
    batch: the token ids are embedded, the bidirectional LSTM runs over
    the embeddings, and the single linear [classifier] is applied, for
    each batch element, to the LSTM output at the last sequence position
    followed by that element's encoded categorical vector.  (The LSTM
    cell is a parameter; its output is taken to have one value per
    position and direction.) *)
Theorem X10_bilstm_forward_classifies_last_step :
  forall (R : Type) (SR : Scalar R) (O : Oracle R)
         cfg w0 m w1 ids cats w bs len n_in,
    BiLSTMModel.__init__ (T := RefTorch O) cfg w0 = (Ok m, w1) ->
    shape ids = [bs; len] ->
    (1 <= len)%nat ->
    Forall (fun i =>
              (0 <= i < Z.of_nat (num_embeddings (BiLSTMModel.embedding m)))%Z)
           (data ids) ->
    (forall x,
        shape x = [bs; len; embedding_dim (BiLSTMModel.embedding m)] ->
        length (o_lstm O (BiLSTMModel.bilstm m) x)
        = (bs * (len * (2 * lstm_hidden_size (BiLSTMModel.bilstm m))))%nat) ->
    BiLSTMModel.config m !! "category_encoded_length" = Some (VInt n_in) ->
    shape cats = [bs; Z.to_nat n_in] ->
    exists embeddings lstm_out categories_encoded,
      Ref.embedding (BiLSTMModel.embedding m) ids = Ok embeddings
      /\ Ref.lstm O (BiLSTMModel.bilstm m) embeddings = Ok lstm_out
      /\ Sequential_call (T := RefTorch O) (BiLSTMModel.category_encoder m) cats w
         = (Ok categories_encoded, w)
      /\ BiLSTMModel.forward (T := RefTorch O) m ids cats w
         = (Ok (classify_concatenated (BiLSTMModel.classifier m) bs
                  (hidden_at_last bs len lstm_out) categories_encoded), w).
Proof.
  intros R SR O cfg w0 m w1 ids cats w bs len n_in Hinit Hids Hlen Hrange Hwf
    Hin Hc.
  apply BiLSTMModel_init_made in Hinit.
  by apply (@BiLSTMModel_forward_rows R SR O cfg m ids cats w bs len n_in).
Qed.

Lemma X10_witness :
  exists m w1,
    BiLSTMModel.__init__ (T := RefTorch Toy.oracle)
      {[ "vocab_size" := VInt 5 ]} Toy.world = (Ok m, w1)
    /\ exists embeddings lstm_out categories_encoded,
         Ref.embedding (BiLSTMModel.embedding m) Toy.token_ids = Ok embeddings
         /\ Ref.lstm Toy.oracle (BiLSTMModel.bilstm m) embeddings = Ok lstm_out
         /\ Sequential_call (T := RefTorch Toy.oracle)
              (BiLSTMModel.category_encoder m) Toy.categories Toy.world
            = (Ok categories_encoded, Toy.world)
         /\ BiLSTMModel.forward (T := RefTorch Toy.oracle) m Toy.token_ids
              Toy.categories Toy.world
            = (Ok (classify_concatenated (BiLSTMModel.classifier m) 2
                     (hidden_at_last 2 2 lstm_out) categories_encoded),
               Toy.world).
Proof.
  eexists _, _. split; [vm_compute; reflexivity|].
  eapply (@X10_bilstm_forward_classifies_last_step Q Toy.Q_scalar Toy.oracle
            {[ "vocab_size" := VInt 5 ]} Toy.world _ _ Toy.token_ids
            Toy.categories Toy.world 2%nat 2%nat 2%Z).
  - vm_compute. reflexivity.
  - reflexivity.
  - lia.
  - vm_compute. repeat constructor; discriminate.
  - intros x Hx. simpl. rewrite Hx. reflexivity.
  - vm_compute. reflexivity.
  - reflexivity.
Defined.

Section Steps.
Context {R : Type} {SR : Scalar R} (O : Oracle R).

Lemma losses_value (y_hat y : tensor R) (bs : nat) (w : World R) :
  shape y_hat = [bs; 1%nat] -> shape y = [bs] ->
  wf_tensor y_hat -> wf_tensor y ->
  let loss :=
    Tensor [] [Ref.mean (Ref.squared_errors (data y_hat) (data y))] in
  training_loss (T := RefTorch O) y_hat y w = (Ok loss, w)
  /\ validation_loss (T := RefTorch O) y_hat y w = (Ok loss, w).
Proof.
  intros Hyh Hy Hwh Hwy.
  unfold training_loss, validation_loss. simpl.
  unfold bind, lift. rewrite !view_flat.
  unfold Ref.unsqueeze. rewrite Hy, Hyh. simpl.
  rewrite !mse_loss_same_shape; try done;
    unfold wf_tensor in *; rewrite ?Hyh, ?Hy in *; simpl in *; lia.
Qed.

Lemma classify_concatenated_wf (cls : Linear R) bs (p c : tensor R) :
  wf_tensor (classify_concatenated cls bs p c).
Proof.
  unfold wf_tensor, classify_concatenated. simpl.
  rewrite Nat.mul_1_r. apply length_concat_rows. intros. apply affine_length.
Qed.

Lemma BaseModel_steps X cfg m (y : tensor R) text cats (x : X) i w bs len hd n_in :
  BaseModel_made O cfg m ->
  shape (input_ids text) = [bs; len] ->
  shape (attention_mask text) = [bs; len] ->
  (1 <= len)%nat ->
  o_bert O (BaseModel.bert m) (input_ids text) (attention_mask text) = Ok hd ->
  BaseModel.config m !! "category_encoded_length" = Some (VInt n_in) ->
  shape cats = [bs; Z.to_nat n_in] ->
  shape y = [bs] -> wf_tensor y ->
  exists y_hat w',
    BaseModel.forward (T := RefTorch O) m text cats w = (Ok y_hat, w')
    /\ shape y_hat = [bs; 1%nat]
    /\ step_outcome "loss" "train_loss" (BaseModel.train_metric m) y_hat y bs w
         (BaseModel.training_step (T := RefTorch O) m (y, text, cats, x) i w)
    /\ step_outcome "val_loss" "val_loss" (BaseModel.val_metric m) y_hat y bs w
         (BaseModel.validation_step (T := RefTorch O) m (y, text, cats, x) i w).
Proof.
  intros Hmade Hids Hmask Hlen Hb Hin Hcats Hy Hwy.
  destruct (@BaseModel_forward_run R SR O cfg m text cats w bs len hd n_in
              Hmade Hids Hmask Hlen Hb Hin Hcats)
    as (pooled & ce & w1 & w2 & _ & _ & Hrun & Hout & _).
  set (y_hat := classify_concatenated (BaseModel.classifier m) bs pooled ce) in *.
  assert (Hyh : shape y_hat = [bs; 1%nat]) by (unfold y_hat; simpl; by rewrite Hout).
  assert (Hwh : wf_tensor y_hat) by apply classify_concatenated_wf.
  pose proof (BaseModel_forward_frames O m text cats w) as Hfr.
  rewrite Hrun in Hfr. simpl in Hfr.
  destruct Hfr as (_ & _ & _ & Hu & Hcu & Hl & Hh & _).
  destruct (losses_value w2 Hyh Hy Hwh Hwy) as [Htl Hvl].
  exists y_hat, w2. split; [done|]. split; [done|].
  assert (Hun : Ref.unsqueeze y 1 = Ok (Tensor [bs; 1%nat] (data y)))
    by (unfold Ref.unsqueeze; rewrite Hy; reflexivity).
  split.
  - rewrite training_step_loss. simpl.
    unfold bind at 1. unfold ret at 1.
    unfold bind at 1. unfold ret at 1.
    unfold bind at 1. unfold ret at 1.
    erewrite bind_Ok by exact Hrun.
    erewrite bind_Ok by exact Htl.
    erewrite bind_Ok; [|unfold lift; rewrite Hun; reflexivity].
    erewrite bind_Ok;
      [|unfold Ref.metric_update; rewrite bool_decide_eq_true_2 by done;
        reflexivity].
    unfold step_outcome, bind, Ref.log_value, ret. simpl.
    rewrite Hu, Hcu, Hl, Hh. done.
  - rewrite validation_step_loss. simpl.
    unfold bind at 1. unfold ret at 1.
    unfold bind at 1. unfold ret at 1.
    unfold bind at 1. unfold ret at 1.
    erewrite bind_Ok by exact Hrun.
    erewrite bind_Ok by exact Hvl.
    erewrite bind_Ok; [|unfold lift; rewrite Hun; reflexivity].
    erewrite bind_Ok;
      [|unfold Ref.metric_update; rewrite bool_decide_eq_true_2 by done;
        reflexivity].
    unfold step_outcome, bind, Ref.log_value, ret. simpl.
    rewrite Hu, Hcu, Hl, Hh. done.
Qed.
End Steps.

(** X11.  [BaseModel.training_step] and [validation_step] on a
    constructed model and a well-formed batch with targets of shape
    [(bs,)]: the step returns a dict with the one key ["loss"]
    (["val_loss"]) holding the mean squared error of the forward output
    against the targets, logs that same value once under
    ["train_loss"] (["val_loss"]), and gives [train_metric]
    ([val_metric]) the one update [(y_hat, y.unsqueeze(1))]. *)
Theorem X11_regression_step_outcome :
  forall (R : Type) (SR : Scalar R) (O : Oracle R) (X : Type)
         cfg w0 m w1 (y : tensor R) text cats (x : X) i w bs len hd n_in,
    BaseModel.__init__ (T := RefTorch O) cfg w0 = (Ok m, w1) ->
    shape (input_ids text) = [bs; len] ->
    shape (attention_mask text) = [bs; len] ->
    (1 <= len)%nat ->
    o_bert O (BaseModel.bert m) (input_ids text) (attention_mask text) = Ok hd ->
    BaseModel.config m !! "category_encoded_length" = Some (VInt n_in) ->
    shape cats = [bs; Z.to_nat n_in] ->
    shape y = [bs] -> wf_tensor y ->
    exists y_hat w',
      BaseModel.forward (T := RefTorch O) m text cats w = (Ok y_hat, w')
      /\ shape y_hat = [bs; 1%nat]
      /\ step_outcome "loss" "train_loss" (BaseModel.train_metric m) y_hat y bs w
           (BaseModel.training_step (T := RefTorch O) m (y, text, cats, x) i w)
      /\ step_outcome "val_loss" "val_loss" (BaseModel.val_metric m) y_hat y bs w
           (BaseModel.validation_step (T := RefTorch O) m (y, text, cats, x) i w).
Proof.
  intros R SR O X cfg w0 m w1 y text cats x i w bs len hd n_in Hinit Hids Hmask
    Hlen Hb Hin Hc Hy Hwy.
  apply BaseModel_init_made in Hinit.
  by apply (@BaseModel_steps R SR O X cfg m y text cats x i w bs len hd n_in).
Qed.

Lemma X11_witness :
  exists m w1,
    BaseModel.__init__ (T := RefTorch Toy.oracle) ∅ Toy.world = (Ok m, w1)
    /\ exists y_hat w',
         BaseModel.forward (T := RefTorch Toy.oracle) m Toy.text Toy.categories
           Toy.world = (Ok y_hat, w')
         /\ shape y_hat = [2; 1]%nat
         /\ step_outcome "loss" "train_loss" (BaseModel.train_metric m) y_hat
              Toy.targets 2 Toy.world
              (BaseModel.training_step (T := RefTorch Toy.oracle) m
                 (Toy.targets, Toy.text, Toy.categories, tt) 0%Z Toy.world)
         /\ step_outcome "val_loss" "val_loss" (BaseModel.val_metric m) y_hat
              Toy.targets 2 Toy.world
              (BaseModel.validation_step (T := RefTorch Toy.oracle) m
                 (Toy.targets, Toy.text, Toy.categories, tt) 0%Z Toy.world).
Proof.
  eexists _, _. split; [vm_compute; reflexivity|].
  eapply (@X11_regression_step_outcome Q Toy.Q_scalar Toy.oracle unit
            ∅ Toy.world _ _ Toy.targets Toy.text Toy.categories tt 0%Z Toy.world
            2%nat 2%nat _ 2%Z).
  - vm_compute. reflexivity.
  - reflexivity.
  - reflexivity.
  - lia.
  - vm_compute. reflexivity.
  - vm_compute. reflexivity.
  - reflexivity.
  - reflexivity.
  - reflexivity.
Defined.

Section Custom.
Context {R : Type} {SR : Scalar R} (O : Oracle R).

Lemma no_grad_round_trip (w : World R) :
  Ref.exit_no_grad (w_grad_enabled w) (Ref.set_grad_enabled false w) = w.
Proof. by destruct w. Qed.

Lemma CustomDistilBertModel_forward_rows cfg m text w bs len hd :
  CustomDistilBertModel_made O cfg m ->
  shape (input_ids text) = [bs; len] ->
  shape (attention_mask text) = [bs; len] ->
  (1 <= len)%nat ->
  o_bert O (CustomDistilBertModel.bert m) (input_ids text) (attention_mask text)
  = Ok hd ->
  exists pooled w',
    Sequential_call (T := RefTorch O) (CustomDistilBertModel.distilbert_tail m)
      (hidden_at_0 bs len
         (Tensor [bs; len;
                  Z.to_nat (dim (bert_config (CustomDistilBertModel.bert m)))] hd))
      w
    = (Ok pooled, w')
    /\ CustomDistilBertModel.forward (T := RefTorch O) m text w
       = (Ok (classify_rows (CustomDistilBertModel.classifier m) bs pooled), w')
    /\ out_features (CustomDistilBertModel.classifier m) = 4%nat.
Proof.
  intros (c & b & v & l1 & p & _ & _ & _ & _ & _ & _ & Hb & Hd & Ht & Hl1 & Hc)
         Hids Hmask Hlen Hbert.
  destruct Hl1 as (Hl1i & Hl1o & _), Hc as (Hci & Hco & _).
  set (d := Z.to_nat (dim (bert_config (CustomDistilBertModel.bert m)))).
  assert (Hd' : Z.to_nat (dim (bert_config b)) = d) by (by subst d; rewrite Hb).
  rewrite Hd' in *.
  set (h := Tensor [bs; len; d] hd).
  destruct (@tail_run R SR O l1 p (hidden_at_0 bs len h) bs d w)
    as (pooled & w' & Htail & Hps & Hpl); [done | done |].
  exists pooled, w'. rewrite Ht. split; [done|]. split; [|done].
  unfold CustomDistilBertModel.forward. simpl.
  erewrite bind_Ok with (a := h) (w1 := w);
    [|unfold py_with, Ref.enter_no_grad, lift;
      erewrite distilbert_run by eassumption;
      rewrite no_grad_round_trip; reflexivity].
  erewrite bind_Ok;
    [|unfold lift; rewrite (@select_first R h bs len d) by done; reflexivity].
  rewrite Ht. erewrite bind_Ok by exact Htail.
  erewrite bind_Ok;
    [|unfold lift; rewrite linear_2d with (bs := bs) (n := d)
        by (by rewrite ?Hps, ?Hl1o);
      reflexivity].
  unfold ret, classify_rows, width. rewrite Hps, Hl1o. reflexivity.
Qed.

Lemma argmax_classes (t : tensor R) (bs c : nat) :
  shape t = [bs; S c] -> exists p, Ref.argmax t 1 = Ok p /\ shape p = [bs].
Proof.
  intros Hs. unfold Ref.argmax, Ref.norm_index. rewrite Hs. simpl.
  eexists. split; reflexivity.
Qed.

Lemma cross_entropy_label_too_big (x : tensor R) (y : tensor Z) (bs c : nat) :
  shape x = [bs; c] -> shape y = [bs] ->
  Exists (fun i => (Z.of_nat c <= i)%Z) (data y) ->
  exists e, Ref.cross_entropy O x y = Err e.
Proof.
  intros Hx Hy Hbig. unfold Ref.cross_entropy. rewrite Hx, Hy.
  rewrite Nat.eqb_refl. simpl.
  destruct (forallb _ (data y)) eqn:Hall; [|eauto].
  rewrite forallb_forall in Hall. apply Exists_exists in Hbig as (i & Hi & Hge).
  apply list_elem_of_In, Hall in Hi. lia.
Qed.

Lemma CustomDistilBertModel_steps_reject X cfg m (y : tensor Z) text (x : X) i w
    bs len hd :
  CustomDistilBertModel_made O cfg m ->
  shape (input_ids text) = [bs; len] ->
  shape (attention_mask text) = [bs; len] ->
  (1 <= len)%nat ->
  o_bert O (CustomDistilBertModel.bert m) (input_ids text) (attention_mask text)
  = Ok hd ->
  shape y = [bs] ->
  Exists (fun label => (4 <= label)%Z) (data y) ->
  fails_cleanly w
    (CustomDistilBertModel.training_step (T := RefTorch O) m (y, text, x) i w)
  /\ fails_cleanly w
       (CustomDistilBertModel.validation_step (T := RefTorch O) m (y, text, x) i w)
  /\ fails_cleanly w
       (CustomDistilBertModel.test_step (T := RefTorch O) m (y, text, x) i w).
Proof.
  intros Hmade Hids Hmask Hlen Hb Hy Hbig.
  destruct (@CustomDistilBertModel_forward_rows cfg m text w bs len hd
              Hmade Hids Hmask Hlen Hb)
    as (pooled & w' & _ & Hrun & Hout).
  set (y_hat := classify_rows (CustomDistilBertModel.classifier m) bs pooled) in *.
  assert (Hyh : shape y_hat = [bs; 4%nat]) by (unfold y_hat; simpl; by rewrite Hout).
  pose proof (CustomDistilBertModel_forward_frames O m text w) as Hfr.
  rewrite Hrun in Hfr. simpl in Hfr.
  destruct Hfr as (_ & _ & _ & Hu & Hcu & Hl & _).
  destruct (argmax_classes y_hat Hyh) as (pred & Hpred & _).
  destruct (@cross_entropy_label_too_big y_hat y bs 4 Hyh Hy Hbig) as (e & He).
  unfold CustomDistilBertModel.training_step,
    CustomDistilBertModel.validation_step, CustomDistilBertModel.test_step.
  simpl.
  repeat split;
    (unfold bind at 1; unfold ret at 1;
     unfold bind at 1; unfold ret at 1;
     erewrite bind_Ok by exact Hrun;
     erewrite bind_Ok by (unfold lift; rewrite Hpred; reflexivity);
     erewrite bind_Err by (unfold lift; rewrite He; reflexivity);
     simpl; done).
Qed.
End Custom.

(** X12.  [CustomDistilBertModel.forward] on a constructed model and a
    well-formed batch: the encoder's hidden state at sequence position
    0, put through [distilbert_tail], is mapped row by row through the
    linear [classifier] to four logits per text; no other input enters
    the result. *)
Theorem X12_custom_forward_classifies_pooled_text :
  forall (R : Type) (SR : Scalar R) (O : Oracle R) cfg w0 m w1 text w bs len hd,
    CustomDistilBertModel.__init__ (T := RefTorch O) cfg w0 = (Ok m, w1) ->
    shape (input_ids text) = [bs; len] ->
    shape (attention_mask text) = [bs; len] ->
    (1 <= len)%nat ->
    o_bert O (CustomDistilBertModel.bert m) (input_ids text) (attention_mask text)
    = Ok hd ->
    exists pooled w',
      Sequential_call (T := RefTorch O) (CustomDistilBertModel.distilbert_tail m)
        (hidden_at_0 bs len
           (Tensor [bs; len;
                    Z.to_nat (dim (bert_config (CustomDistilBertModel.bert m)))]
                   hd))
        w
      = (Ok pooled, w')
      /\ CustomDistilBertModel.forward (T := RefTorch O) m text w
         = (Ok (classify_rows (CustomDistilBertModel.classifier m) bs pooled), w')
      /\ out_features (CustomDistilBertModel.classifier m) = 4%nat.
Proof.
  intros R SR O cfg w0 m w1 text w bs len hd Hinit Hids Hmask Hlen Hb.
  apply CustomDistilBertModel_init_made in Hinit.
  by apply (@CustomDistilBertModel_forward_rows R SR O cfg m text w bs len hd).
Qed.

Lemma X12_witness :
  exists m w1,
    CustomDistilBertModel.__init__ (T := RefTorch Toy.oracle) ∅ Toy.world
    = (Ok m, w1)
    /\ exists pooled w',
         Sequential_call (T := RefTorch Toy.oracle)
           (CustomDistilBertModel.distilbert_tail m)
           (hidden_at_0 2 2
              (Tensor [2; 2;
                       Z.to_nat (dim (bert_config (CustomDistilBertModel.bert m)))]%nat
                      [101; 1; 0; 7; 1; 0; 101; 1; 0; 9; 1; 0]%Q))
           Toy.world
         = (Ok pooled, w')
         /\ CustomDistilBertModel.forward (T := RefTorch Toy.oracle) m Toy.text
              Toy.world
            = (Ok (classify_rows (CustomDistilBertModel.classifier m) 2 pooled),
               w')
         /\ out_features (CustomDistilBertModel.classifier m) = 4%nat.
Proof.
  eexists _, _. split; [vm_compute; reflexivity|].
  eapply (@X12_custom_forward_classifies_pooled_text Q Toy.Q_scalar Toy.oracle
            ∅ Toy.world _ _ Toy.text Toy.world 2%nat 2%nat _).
  - vm_compute. reflexivity.
  - reflexivity.
  - reflexivity.
  - lia.
  - vm_compute. reflexivity.
Defined.

(** X13.  The stance model has four classes ([num_classes = 4], a
    classifier with four outputs).  On a constructed model and an
    otherwise well-formed batch, a label of 4 or more makes
    [training_step], [validation_step] and [test_step] raise in
    [F.cross_entropy], before the metric is called and before anything
    is logged. *)
Theorem X13_custom_steps_reject_labels_beyond_classes :
  forall (R : Type) (SR : Scalar R) (O : Oracle R) (X : Type)
         cfg w0 m w1 (y : tensor Z) text (x : X) i w bs len hd,
    CustomDistilBertModel.__init__ (T := RefTorch O) cfg w0 = (Ok m, w1) ->
    shape (input_ids text) = [bs; len] ->
    shape (attention_mask text) = [bs; len] ->
    (1 <= len)%nat ->
    o_bert O (CustomDistilBertModel.bert m) (input_ids text) (attention_mask text)
    = Ok hd ->
    shape y = [bs] ->
    Exists (fun label => (4 <= label)%Z) (data y) ->
    fails_cleanly w
      (CustomDistilBertModel.training_step (T := RefTorch O) m (y, text, x) i w)
    /\ fails_cleanly w
         (CustomDistilBertModel.validation_step (T := RefTorch O) m (y, text, x) i w)
    /\ fails_cleanly w
         (CustomDistilBertModel.test_step (T := RefTorch O) m (y, text, x) i w).
Proof.
  intros R SR O X cfg w0 m w1 y text x i w bs len hd Hinit Hids Hmask Hlen Hb
    Hy Hbig.
  apply CustomDistilBertModel_init_made in Hinit.
  by apply (@CustomDistilBertModel_steps_reject R SR O X cfg m y text x i w
              bs len hd).
Qed.

Lemma X13_witness :
  exists m w1,
    CustomDistilBertModel.__init__ (T := RefTorch Toy.oracle) ∅ Toy.world
    = (Ok m, w1)
    /\ fails_cleanly Toy.world
         (CustomDistilBertModel.training_step (T := RefTorch Toy.oracle) m
            (labels_beyond_classes, Toy.text, tt) 0%Z Toy.world)
    /\ fails_cleanly Toy.world
         (CustomDistilBertModel.validation_step (T := RefTorch Toy.oracle) m
            (labels_beyond_classes, Toy.text, tt) 0%Z Toy.world)
    /\ fails_cleanly Toy.world
         (CustomDistilBertModel.test_step (T := RefTorch Toy.oracle) m
            (labels_beyond_classes, Toy.text, tt) 0%Z Toy.world).
Proof.
  eexists _, _. split; [vm_compute; reflexivity|].
  eapply (@X13_custom_steps_reject_labels_beyond_classes Q Toy.Q_scalar
            Toy.oracle unit ∅ Toy.world _ _ labels_beyond_classes Toy.text tt
            0%Z Toy.world 2%nat 2%nat _).
  - vm_compute. reflexivity.
  - reflexivity.
  - reflexivity.
  - lia.
  - vm_compute. reflexivity.
  - reflexivity.
  - apply Exists_cons_tl, Exists_cons_hd. lia.
Defined.

(** Run: with labels among the four classes the step returns the loss
    and the F1 accumulator receives the predicted classes. *)
Example custom_training_step_runs :
  (fun m =>
     let r := CustomDistilBertModel.training_step (T := RefTorch Toy.oracle) m
                (Tensor [2]%nat [1; 3]%Z, Toy.text, tt) 0%Z Toy.world in
     (result_map (map fst) r.1, map (fun u => shape u.1.2) (w_class_updates r.2),
      map fst (w_logged r.2)))
    <$> Toy.custom ∅
  = Some (Ok ["loss"], [[2%nat]], ["train_loss"]).
Proof. vm_compute. reflexivity. Qed.

(** ** What each class predicts from *)

(** C2, as the code has it.  [BaseModel] and [BiLSTMModel] predict from
    text plus categorical features: their [forward] takes an encoded-text
    input and a categorical-feature input, and a call with the two runs
    it; on a constructed model and a well-formed batch the score of each
    text is the classifier's value on that text's features (the pooled
    encoder output in [BaseModel], the LSTM output at the last position
    in [BiLSTMModel]) followed by that text's encoded categorical vector;
    and on the example models the scores change when the categorical
    vectors do.  [CustomDistilBertModel] predicts from the text alone:
    its [forward] takes the encoded text only, a call with a second
    argument is a [TypeError], its logits are the classifier's values on
    the pooled encoder output, and its steps read no categorical features
    from the batch. *)
Theorem C2_forward_inputs :
  (forall (R W : Type) (SR : Scalar R) (T : Torch R W),
      takes_text_and_categories BaseModel_cls
      /\ takes_text_and_categories BiLSTMModel_cls
      /\ map snd (forward_inputs CustomDistilBertModel_cls) = [EncodedText]
      /\ (forall m e c,
            call (MBase m) [AEncoding e; AFloat c] = BaseModel.forward m e c)
      /\ (forall m e c,
            call (MBiLSTM m) [ALong e; AFloat c] = BiLSTMModel.forward m e c)
      /\ (forall m e,
            call (MCustom m) [AEncoding e] = CustomDistilBertModel.forward m e)
      /\ (forall m e c w,
            exists what,
              call (MCustom m) [AEncoding e; AFloat c] w
              = (Err (TypeError what), w))
      /\ (forall (X : Type) m y e (x x' : X) i,
            CustomDistilBertModel.training_step m (y, e, x) i
            = CustomDistilBertModel.training_step m (y, e, x') i
            /\ CustomDistilBertModel.validation_step m (y, e, x) i
               = CustomDistilBertModel.validation_step m (y, e, x') i
            /\ CustomDistilBertModel.test_step m (y, e, x) i
               = CustomDistilBertModel.test_step m (y, e, x') i))
  /\ (forall (R : Type) (SR : Scalar R) (O : Oracle R),
        (forall cfg w0 m w1 text cats w bs len hd n_in,
            BaseModel.__init__ (T := RefTorch O) cfg w0 = (Ok m, w1) ->
            shape (input_ids text) = [bs; len] ->
            shape (attention_mask text) = [bs; len] ->
            (1 <= len)%nat ->
            o_bert O (BaseModel.bert m) (input_ids text) (attention_mask text)
            = Ok hd ->
            BaseModel.config m !! "category_encoded_length" = Some (VInt n_in) ->
            shape cats = [bs; Z.to_nat n_in] ->
            exists pooled categories_encoded w' w'',
              Sequential_call (T := RefTorch O) (BaseModel.distilbert_tail m)
                (hidden_at_0 bs len
                   (Tensor [bs; len;
                            Z.to_nat (dim (bert_config (BaseModel.bert m)))] hd))
                w
              = (Ok pooled, w')
              /\ Sequential_call (T := RefTorch O)
                   (BaseModel.category_encoder m) cats w'
                 = (Ok categories_encoded, w'')
              /\ call (T := RefTorch O) (MBase m)
                   [AEncoding text; AFloat cats] w
                 = (Ok (classify_concatenated (BaseModel.classifier m) bs
                          pooled categories_encoded), w''))
        /\ (forall cfg w0 m w1 ids cats w bs len n_in,
              BiLSTMModel.__init__ (T := RefTorch O) cfg w0 = (Ok m, w1) ->
              shape ids = [bs; len] ->
              (1 <= len)%nat ->
              Forall (fun i =>
                        (0 <= i
                         < Z.of_nat (num_embeddings (BiLSTMModel.embedding m)))%Z)
                     (data ids) ->
              (forall x,
                  shape x = [bs; len; embedding_dim (BiLSTMModel.embedding m)] ->
                  length (o_lstm O (BiLSTMModel.bilstm m) x)
                  = (bs * (len * (2 * lstm_hidden_size (BiLSTMModel.bilstm m))))%nat) ->
              BiLSTMModel.config m !! "category_encoded_length"
              = Some (VInt n_in) ->
              shape cats = [bs; Z.to_nat n_in] ->
              exists embeddings lstm_out categories_encoded,
                Ref.embedding (BiLSTMModel.embedding m) ids = Ok embeddings
                /\ Ref.lstm O (BiLSTMModel.bilstm m) embeddings = Ok lstm_out
                /\ Sequential_call (T := RefTorch O)
                     (BiLSTMModel.category_encoder m) cats w
                   = (Ok categories_encoded, w)
                /\ call (T := RefTorch O) (MBiLSTM m) [ALong ids; AFloat cats] w
                   = (Ok (classify_concatenated (BiLSTMModel.classifier m) bs
                            (hidden_at_last bs len lstm_out)
                            categories_encoded), w))
        /\ (forall cfg w0 m w1 text w bs len hd,
              CustomDistilBertModel.__init__ (T := RefTorch O) cfg w0
              = (Ok m, w1) ->
              shape (input_ids text) = [bs; len] ->
              shape (attention_mask text) = [bs; len] ->
              (1 <= len)%nat ->
              o_bert O (CustomDistilBertModel.bert m)
                     (input_ids text) (attention_mask text)
              = Ok hd ->
              exists pooled w',
                Sequential_call (T := RefTorch O)
                  (CustomDistilBertModel.distilbert_tail m)
                  (hidden_at_0 bs len
                     (Tensor [bs; len;
                              Z.to_nat
                                (dim (bert_config (CustomDistilBertModel.bert m)))]
                             hd))
                  w
                = (Ok pooled, w')
                /\ call (T := RefTorch O) (MCustom m) [AEncoding text] w
                   = (Ok (classify_rows (CustomDistilBertModel.classifier m) bs
                            pooled), w')))
  /\ (exists mb ml,
        Toy.base ∅ = Some mb
        /\ Toy.bilstm {[ "vocab_size" := VInt 5 ]} = Some ml
        /\ depends_on_categories
             (fun c => BaseModel.forward (T := RefTorch Toy.oracle) mb Toy.text c)
             Toy.world
        /\ depends_on_categories
             (fun c => BiLSTMModel.forward (T := RefTorch Toy.oracle) ml
                         Toy.token_ids c)
             Toy.world).
Proof.
  split; [|split].
  - intros R W SR T.
    split; [split; compute_done|].
    split; [split; compute_done|].
    split; [reflexivity|].
    split; [reflexivity|].
    split; [reflexivity|].
    split; [reflexivity|].
    split; [intros; eexists; reflexivity|].
    intros. repeat split; reflexivity.
  - intros R SR O. split; [|split].
    + intros cfg w0 m w1 text cats w bs len hd n_in Hinit Hids Hmask Hlen
        Hb Hin Hc.
      apply BaseModel_init_made in Hinit.
      destruct (@BaseModel_forward_run R SR O cfg m text cats w bs len hd n_in)
        as (pooled & ce & w' & w'' & H1 & H2 & H3 & _); try done.
      by exists pooled, ce, w', w''.
    + intros cfg w0 m w1 ids cats w bs len n_in Hinit Hids Hlen Hrange Hwf
        Hin Hc.
      apply BiLSTMModel_init_made in Hinit.
      by apply (@BiLSTMModel_forward_rows R SR O cfg m ids cats w bs len n_in).
    + intros cfg w0 m w1 text w bs len hd Hinit Hids Hmask Hlen Hb.
      apply CustomDistilBertModel_init_made in Hinit.
      destruct (@CustomDistilBertModel_forward_rows R SR O cfg m text w bs len hd)
        as (pooled & w' & H1 & H2 & _); try done.
      by exists pooled, w'.
  - eexists _, _.
    split; [vm_compute; reflexivity|].
    split; [vm_compute; reflexivity|].
    split.
    + exists Toy.categories, swapped_categories. eexists _, _.
      split; [vm_compute; reflexivity|].
      split; [vm_compute; reflexivity|].
      intros H. vm_compute in H. discriminate H.
    + exists Toy.categories, swapped_categories. eexists _, _.
      split; [vm_compute; reflexivity|].
      split; [vm_compute; reflexivity|].
      intros H. vm_compute in H. discriminate H.
Qed.

Lemma C2_witness :
  exists mb wb ml wl mc wc,
    BaseModel.__init__ (T := RefTorch Toy.oracle) ∅ Toy.world = (Ok mb, wb)
    /\ BiLSTMModel.__init__ (T := RefTorch Toy.oracle)
         {[ "vocab_size" := VInt 5 ]} Toy.world = (Ok ml, wl)
    /\ CustomDistilBertModel.__init__ (T := RefTorch Toy.oracle) ∅ Toy.world
       = (Ok mc, wc)
    /\ (exists pooled categories_encoded w' w'',
          Sequential_call (T := RefTorch Toy.oracle) (BaseModel.distilbert_tail mb)
            (hidden_at_0 2 2
               (Tensor [2; 2; Z.to_nat (dim (bert_config (BaseModel.bert mb)))]%nat
                       [101; 1; 0; 7; 1; 0; 101; 1; 0; 9; 1; 0]%Q))
            Toy.world
          = (Ok pooled, w')
          /\ Sequential_call (T := RefTorch Toy.oracle)
               (BaseModel.category_encoder mb) Toy.categories w'
             = (Ok categories_encoded, w'')
          /\ call (T := RefTorch Toy.oracle) (MBase mb)
               [AEncoding Toy.text; AFloat Toy.categories] Toy.world
             = (Ok (classify_concatenated (BaseModel.classifier mb) 2
                      pooled categories_encoded), w''))
    /\ (exists embeddings lstm_out categories_encoded,
          Ref.embedding (BiLSTMModel.embedding ml) Toy.token_ids = Ok embeddings
          /\ Ref.lstm Toy.oracle (BiLSTMModel.bilstm ml) embeddings = Ok lstm_out
          /\ Sequential_call (T := RefTorch Toy.oracle)
               (BiLSTMModel.category_encoder ml) Toy.categories Toy.world
             = (Ok categories_encoded, Toy.world)
          /\ call (T := RefTorch Toy.oracle) (MBiLSTM ml)
               [ALong Toy.token_ids; AFloat Toy.categories] Toy.world
             = (Ok (classify_concatenated (BiLSTMModel.classifier ml) 2
                      (hidden_at_last 2 2 lstm_out) categories_encoded),
                Toy.world))
    /\ (exists pooled w',
          Sequential_call (T := RefTorch Toy.oracle)
            (CustomDistilBertModel.distilbert_tail mc)
            (hidden_at_0 2 2
               (Tensor [2; 2;
                        Z.to_nat
                          (dim (bert_config (CustomDistilBertModel.bert mc)))]%nat
                       [101; 1; 0; 7; 1; 0; 101; 1; 0; 9; 1; 0]%Q))
            Toy.world
          = (Ok pooled, w')
          /\ call (T := RefTorch Toy.oracle) (MCustom mc) [AEncoding Toy.text]
               Toy.world
             = (Ok (classify_rows (CustomDistilBertModel.classifier mc) 2 pooled),
                w')).
Proof.
  destruct C2_forward_inputs as (_ & Hsem & _).
  destruct (Hsem Q Toy.Q_scalar Toy.oracle) as (HB & HL & HC).
  eexists _, _, _, _, _, _.
  split; [vm_compute; reflexivity|].
  split; [vm_compute; reflexivity|].
  split; [vm_compute; reflexivity|].
  split; [|split].
  - eapply (HB ∅ Toy.world _ _ Toy.text Toy.categories Toy.world
               2%nat 2%nat _ 2%Z).
    + vm_compute. reflexivity.
    + reflexivity.
    + reflexivity.
    + lia.
    + vm_compute. reflexivity.
    + vm_compute. reflexivity.
    + reflexivity.
  - eapply (HL {[ "vocab_size" := VInt 5 ]} Toy.world _ _ Toy.token_ids
               Toy.categories Toy.world 2%nat 2%nat 2%Z).
    + vm_compute. reflexivity.
    + reflexivity.
    + lia.
    + vm_compute. repeat constructor; discriminate.
    + intros x Hx. simpl. rewrite Hx. reflexivity.
    + vm_compute. reflexivity.
    + reflexivity.
  - eapply (HC ∅ Toy.world _ _ Toy.text Toy.world 2%nat 2%nat _).
    + vm_compute. reflexivity.
    + reflexivity.
    + reflexivity.
    + lia.
    + vm_compute. reflexivity.
Defined.
